(** * cso2-master-server: a shallow embedding of the session layer

    The development follows the TypeScript sources of the master server
    (extendedsocket.ts, storage/activeconnections.ts, user/usermanager.ts,
    handlers/roomhandler.ts, packets/packetstring.ts, packets/out/packet.ts,
    packetlogger.ts, index.ts) and of the companion website
    (services/usersservice.ts).

    Mutable objects that are shared by reference (connections, rooms,
    channels) live in a store indexed by references; handlers are state
    passing functions over that store.  A JavaScript exception is an
    explicit [Throw] result. *)

From stdpp Require Import base option list gmap strings.
From Stdlib Require Import ZArith Lia Ascii DecimalString DecimalZ.

Local Open Scope Z_scope.

(** ** JavaScript results and number-valued fields *)

Module Js.

Inductive error :=
| TypeError
| RangeError
| Error (msg : string).

Inductive outcome (A : Type) :=
| Return (a : A)
| Throw (e : error).

Arguments Return {A} a.
Arguments Throw {A} e.

#[global] Instance outcome_ret : MRet outcome := fun A a => Return a.

#[global] Instance outcome_bind : MBind outcome := fun A B k c =>
  match c with
  | Return a => k a
  | Throw e => Throw e
  end.

(** A field declared [number]: it is [undefined] until something is
    assigned to it, and arithmetic on [undefined] yields [NaN].  The
    counters of this program only ever hold integers. *)
Inductive number :=
| Undefined
| NaN
| Num (z : Z).

(** [ToNumber]. *)
Definition toNumber (v : number) : number :=
  match v with
  | Undefined => NaN
  | _ => v
  end.

(** [v > k] for a numeric literal [k]: any comparison with [NaN] is false. *)
Definition gt (v : number) (k : Z) : bool :=
  match toNumber v with
  | Num z => bool_decide (k < z)
  | _ => false
  end.

(** [v++]: the value of the expression and the value stored back. *)
Definition postIncrement (v : number) : number * number :=
  match toNumber v with
  | Num z => (Num z, Num (z + 1))
  | _ => (NaN, NaN)
  end.

(** The byte [Buffer.writeUInt8] stores for a value: it throws
    ERR_OUT_OF_RANGE when [value > 255 || value < 0]; [NaN] passes both
    comparisons and is stored in the typed array as 0. *)
Definition toUInt8 (v : number) : outcome Z :=
  match toNumber v with
  | Num z => if bool_decide (z > 255) || bool_decide (z < 0)
             then Throw RangeError else Return z
  | _ => Return 0
  end.

End Js.

Export Js.

(** ** References into the store *)

Definition ConnRef := nat.
Definition RoomRef := nat.
Definition ChannelRef := nat.

(** ** Users and sessions (user/user.ts, user/usersession.ts) *)

Module User.
Record t := mk {
  id : Z;
  username : string;
  playername : string
}.
End User.

Module UserSession.
Record t := mk {
  user : User.t;
  currentChannel : option ChannelRef;
  currentRoom : option RoomRef
}.

(** Modelled from the spec: usersession.ts is not among the sources; a
    session "belongs to at most one room", held in [currentRoom]. *)
Definition isInRoom (s : t) : bool :=
  match currentRoom s with
  | Some _ => true
  | None => false
  end.

Definition setCurrentRoom (r : option RoomRef) (s : t) : t :=
  mk (user s) (currentChannel s) r.
End UserSession.

(** ** Outgoing packets

    The wire layout of the individual game packets is outside the
    sources at hand; a packet is kept as the call that builds it.  Every
    packet starts with the header written by [OutPacketBase.buildHeader]
    (signature, sequence, length, id), so that offset 1 of its data is
    the sequence byte. *)

Inductive GameString :=
| GAME_LOGIN_BAD_USERNAME
| GAME_LOGIN_BAD_PASSWORD
| GAME_LOGIN_INVALID_USERINFO
| GAME_ROOM_JOIN_FAILED_BAD_PASSWORD
| GAME_ROOM_JOIN_FAILED_CLOSED
| GAME_ROOM_JOIN_FAILED_FULL
| GAME_ROOM_CHANGETEAM_FAILED
| GAME_ROOM_COUNTDOWN_FAILED_NOENEMIES.

Inductive ChatMessageType :=
| DialogBox
| System.

Inductive RoomTeamNum :=
| Terrorist
| CounterTerrorist.

Module RoomSettings.
Record t := mk {
  roomName : string;
  roomPassword : string;
  gameModeId : Z;
  mapId : Z;
  killLimit : Z;
  winLimit : Z;
  areBotsEnabled : bool
}.
End RoomSettings.

Inductive OutPacketBase :=
| OutChatPacket_systemMessage (msg : GameString) (type : ChatMessageType)
| OutUserStartPacket (userId : Z) (userName playerName : string) (holepunchPort : Z)
| OutUserInfoPacket_fullUserUpdate (user : User.t)
| OutInventoryPacket_createInventory (items : list Z)
| OutFavoritePacket_setCosmetics (cosmetics : list Z)
| OutFavoritePacket_setLoadout (loadouts : list Z)
| OutOptionPacket_setBuyMenu (buyMenu : list Z)
| OutHostPacket_itemUse (userId itemId : Z)
| OutHostPacket_setInventory (userId : Z) (items : list Z)
| OutHostPacket_setLoadout (userId : Z) (loadouts : list Z)
| OutHostPacket_setBuyMenu (userId : Z) (buyMenu : list Z)
| OutHostPacket_leaveResultWindow
| OutRoomPacket_createAndJoin (roomId : Z)
| OutRoomPacket_updateSettings (settings : RoomSettings.t)
| OutRoomPacket_playerJoin (userId : Z)
| OutRoomPacket_setUserTeam (userId : Z) (team : RoomTeamNum)
| OutChannelList.

(** What reaches the socket: a built packet or a raw buffer, with the
    sequence byte that was written at offset 1. *)
Inductive Payload :=
| Packet (p : OutPacketBase)
| Raw (bytes : list Z).

Record Frame := mkFrame {
  sequence : Z;
  payload : Payload
}.

(** ** extendedsocket.ts *)

(** The part of [net.Socket] the program observes: whether the socket
    was destroyed, what was handed to [write], and what [write] answers
    (whether the data went to the kernel buffer). *)
Module NetSocket.
Record t := mk {
  destroyed : bool;
  written : list Frame;
  flushed : bool
}.

Definition write (f : Frame) (s : t) : bool * t :=
  (flushed s, mk (destroyed s) (written s ++ [f]) (flushed s)).
End NetSocket.

Module ExtendedSocket.

Definition MIN_SEQUENCE : Z := 0.
Definition MAX_SEQUENCE : Z := 255.

Record t := mk {
  socket : NetSocket.t;
  uuid : option string;
  session : option UserSession.t;
  seq : number;
  realInSeq : number;
  realOutSeq : number;
  packetDumper : bool;
  (* files produced by PacketLogger.dumpOut: real sequence and frame *)
  dumped : list (number * Frame)
}.

#[global] Instance inhabited : Inhabited t :=
  populate (mk (NetSocket.mk true [] false) None None
               Undefined Undefined Undefined false []).

Definition set_socket (v : NetSocket.t) (s : t) : t :=
  mk v (uuid s) (session s) (seq s) (realInSeq s) (realOutSeq s)
     (packetDumper s) (dumped s).

Definition set_session (v : option UserSession.t) (s : t) : t :=
  mk (socket s) (uuid s) v (seq s) (realInSeq s) (realOutSeq s)
     (packetDumper s) (dumped s).

Definition set_seq (v : number) (s : t) : t :=
  mk (socket s) (uuid s) (session s) v (realInSeq s) (realOutSeq s)
     (packetDumper s) (dumped s).

Definition set_realInSeq (v : number) (s : t) : t :=
  mk (socket s) (uuid s) (session s) (seq s) v (realOutSeq s)
     (packetDumper s) (dumped s).

Definition set_realOutSeq (v : number) (s : t) : t :=
  mk (socket s) (uuid s) (session s) (seq s) (realInSeq s) v
     (packetDumper s) (dumped s).

Definition dumpOut (n : number) (f : Frame) (s : t) : t :=
  mk (socket s) (uuid s) (session s) (seq s) (realInSeq s) (realOutSeq s)
     (packetDumper s) (dumped s ++ [(n, f)]).

(** [ExtendedSocket.from]: [new ExtendedSocket()], then [Object.assign]
    of the accepted socket's own properties, then four assignments:
    [session], [realInSeq], [realOutSeq] and [packetDumper].  Nothing is
    assigned to [seq] or to [uuid]. *)
Definition from (socket : NetSocket.t) (packetDumper : bool) : t :=
  mk socket None None Undefined (Num MIN_SEQUENCE) (Num MIN_SEQUENCE)
     packetDumper [].

Definition resetReq (s : t) : t := set_seq (Num MIN_SEQUENCE) s.

Definition getNextSeq (s : t) : number * t :=
  let s1 := if gt (seq s) MAX_SEQUENCE then resetReq s else s in
  let '(cur, next) := postIncrement (seq s1) in
  (cur, set_seq next s1).

Definition getRealInSeq (s : t) : number * t :=
  let '(cur, next) := postIncrement (realInSeq s) in
  (cur, set_realInSeq next s).

Definition getRealOutSeq (s : t) : number * t :=
  let '(cur, next) := postIncrement (realOutSeq s) in
  (cur, set_realOutSeq next s).

Definition send (packet : OutPacketBase) (s : t) : outcome (bool * t) :=
  if NetSocket.destroyed (socket s) then Return (false, s)
  else
    let '(n, s1) := getNextSeq s in
    b ← toUInt8 n;
    let data := mkFrame b (Packet packet) in
    let s2 :=
      if packetDumper s1 then
        let '(r, s') := getRealOutSeq s1 in dumpOut r data s'
      else s1 in
    let '(ok, sock) := NetSocket.write data (socket s2) in
    Return (ok, set_socket sock s2).

(** [sendBuffer]: [writeUInt8(_, 1)] needs the buffer to reach offset 1. *)
Definition sendBuffer (buff : list Z) (s : t) : outcome (bool * t) :=
  if NetSocket.destroyed (socket s) then Return (false, s)
  else
    let '(n, s1) := getNextSeq s in
    b ← toUInt8 n;
    if bool_decide (length buff < 2)%nat then Throw RangeError
    else
      let '(ok, sock) :=
        NetSocket.write (mkFrame b (Raw (<[1%nat:=b]> buff))) (socket s1) in
      Return (ok, set_socket sock s1).

(** One outgoing operation on a connection, and a run of them. *)
Inductive op :=
| Send (p : OutPacketBase)
| SendBuffer (buff : list Z).

Definition step (o : op) (s : t) : outcome t :=
  match o with
  | Send p => '(_, s') ← send p s; Return s'
  | SendBuffer b => '(_, s') ← sendBuffer b s; Return s'
  end.

Fixpoint run (ops : list op) (s : t) : outcome t :=
  match ops with
  | [] => Return s
  | o :: rest => s' ← step o s; run rest s'
  end.

(** The sequence bytes of the frames written so far, oldest first. *)
Definition sequences (s : t) : list Z :=
  map sequence (NetSocket.written (socket s)).

(** The counter holds a number that a frame can carry after the wrap
    test of [getNextSeq]. *)
Definition Counting (z : Z) (s : t) : Prop :=
  seq s = Num z ∧ 0 ≤ z ≤ MAX_SEQUENCE + 1 ∧ NetSocket.destroyed (socket s) = false.

Definition Sendable (o : op) : Prop :=
  match o with
  | Send _ => True
  | SendBuffer buff => (2 ≤ length buff)%nat
  end.

(** The bytes [z, z+1, ...] modulo 256, [n] of them. *)
Fixpoint series (z : Z) (n : nat) : list Z :=
  match n with
  | O => []
  | S n' => z mod 256 :: series (z mod 256 + 1) n'
  end.

(** On the connection [from] returns, the counter is still unset: it
    turns into [NaN] at the first send and stays there. *)
Definition NotCounting (s : t) : Prop :=
  (seq s = Undefined ∨ seq s = NaN) ∧ NetSocket.destroyed (socket s) = false.

(** The packets and buffers written so far, oldest first. *)
Definition payloads (s : t) : list Payload :=
  map payload (NetSocket.written (socket s)).

(** The counter is not a negative number, so that [writeUInt8] accepts
    what [getNextSeq] returns. *)
Definition Stampable (s : t) : Prop := ∀ z, seq s = Num z -> 0 ≤ z.

End ExtendedSocket.

(** ** storage/activeconnections.ts *)

Module ActiveConnections.

(** [Array.prototype.indexOf] on references: first position, or -1. *)
Fixpoint indexOf (conn : ConnRef) (connections : list ConnRef) : Z :=
  match connections with
  | [] => -1
  | c :: rest =>
      if bool_decide (c = conn) then 0
      else let i := indexOf conn rest in
           if bool_decide (i = -1) then -1 else i + 1
  end.

(** [Array.prototype.splice(start, deleteCount)]: a negative [start]
    counts from the end and is clamped at 0, a [start] beyond the end is
    clamped at the length. *)
Definition splice {A : Type} (start deleteCount : Z) (l : list A) : list A :=
  let len := Z.of_nat (length l) in
  let actualStart :=
    if bool_decide (start < 0) then Z.max (len + start) 0
    else Z.min start len in
  let actualDeleteCount :=
    Z.min (Z.max deleteCount 0) (len - actualStart) in
  take (Z.to_nat actualStart) l
  ++ drop (Z.to_nat (actualStart + actualDeleteCount)) l.

Section Find.
Variable sockets : gmap ConnRef ExtendedSocket.t.

Fixpoint FindByOwnerId (connections : list ConnRef) (ownerId : Z)
    : outcome (option ConnRef) :=
  match connections with
  | [] => Return None
  | conn :: rest =>
      match ExtendedSocket.session (sockets !!! conn) with
      | None => Throw TypeError
      | Some session =>
          if bool_decide (User.id (UserSession.user session) = ownerId)
          then Return (Some conn)
          else FindByOwnerId rest ownerId
      end
  end.


(** [conn.session.user.id] and [conn.session.user.playername], when the
    connection has a session. *)
Definition ownerId (conn : ConnRef) : option Z :=
  (fun s => User.id (UserSession.user s))
    <$> ExtendedSocket.session (sockets !!! conn).

Definition playerName (conn : ConnRef) : option string :=
  (fun s => User.playername (UserSession.user s))
    <$> ExtendedSocket.session (sockets !!! conn).


End Find.

Definition Add (conn : ConnRef) (connections : list ConnRef) : list ConnRef :=
  connections ++ [conn].

Definition Remove (conn : ConnRef) (connections : list ConnRef) : list ConnRef :=
  splice (indexOf conn connections) 1 connections.

End ActiveConnections.

(** ** Rooms and channels

    room/room.ts and channel/channel.ts are not among the sources; the
    handlers only call into them.  The records below follow section 3 of
    the specification. *)

Inductive RoomStatus := Waiting | Countdown | Ingame | Result | Closed.

#[global] Instance RoomStatus_eq_dec : EqDecision RoomStatus.
Proof. solve_decision. Defined.

Inductive RoomReadyStatus := NotReady | Ready | IngameReady.

Module RoomUser.
Record t := mk {
  userId : Z;
  conn : ConnRef;
  ready : RoomReadyStatus;
  team : RoomTeamNum
}.
End RoomUser.

(** The settings fields an [InRoomUpdateSettings] request carries: each
    one is present or absent. *)
Module InRoomUpdateSettings.
Record t := mk {
  roomName : option string;
  roomPassword : option string;
  gameModeId : option Z;
  mapId : option Z;
  killLimit : option Z;
  winLimit : option Z;
  areBotsEnabled : option bool
}.
End InRoomUpdateSettings.

Module Room.
Record t := mk {
  id : Z;
  host : RoomUser.t;
  users : list RoomUser.t;
  capacity : nat;
  status : RoomStatus;
  countdown : Z;
  settings : RoomSettings.t
}.

#[global] Instance inhabited : Inhabited t :=
  populate (mk 0 (RoomUser.mk 0 0%nat NotReady Terrorist) [] 0 Closed 0
               (RoomSettings.mk "" "" 0 0 0 0 false)).

Definition set_users (v : list RoomUser.t) (r : t) : t :=
  mk (id r) (host r) v (capacity r) (status r) (countdown r) (settings r).

Definition set_settings (v : RoomSettings.t) (r : t) : t :=
  mk (id r) (host r) (users r) (capacity r) (status r) (countdown r) v.

(** Modelled from the spec: Room.getStatus, the room's [status] field. *)
Definition getStatus (r : t) : RoomStatus := status r.

(** Modelled from the spec: Room.hasFreeSlots; the player slots have a
    fixed capacity and a join needs a free slot. *)
Definition hasFreeSlots (r : t) : bool :=
  bool_decide (length (users r) < capacity r)%nat.

(** Modelled from the spec: Room.IsPasswordProtected; "empty password
    means public room". *)
Definition IsPasswordProtected (r : t) : bool :=
  bool_decide (RoomSettings.roomPassword (settings r) ≠ "").

(** Modelled from the spec: Room.ComparePassword; "passwords compared
    byte-for-byte". *)
Definition ComparePassword (r : t) (password : string) : bool :=
  bool_decide (RoomSettings.roomPassword (settings r) = password).

(** Modelled from the spec: Room.isGlobalCountdownInProgress; the
    countdown runs while the room is in [Countdown]: it is entered from
    [Waiting] when the host starts counting, left for [Waiting] on
    abort and for [Ingame] on GameStartRequest. *)
Definition isGlobalCountdownInProgress (r : t) : bool :=
  bool_decide (status r = Countdown).

(** Modelled from the spec: Room.addUser, "add requester occupant";
    occupants are kept in join order. *)
Definition addUser (userId : Z) (conn : ConnRef) (r : t) : t :=
  set_users (users r ++ [RoomUser.mk userId conn NotReady Terrorist]) r.

(** Modelled from the spec: the settings part of Room.updateSettings,
    "replace settings (subset of fields)": a field present in the request
    replaces the room's, an absent one leaves it. *)
Definition applySettings (req : InRoomUpdateSettings.t) (s : RoomSettings.t)
    : RoomSettings.t :=
  RoomSettings.mk
    (default (RoomSettings.roomName s) (InRoomUpdateSettings.roomName req))
    (default (RoomSettings.roomPassword s) (InRoomUpdateSettings.roomPassword req))
    (default (RoomSettings.gameModeId s) (InRoomUpdateSettings.gameModeId req))
    (default (RoomSettings.mapId s) (InRoomUpdateSettings.mapId req))
    (default (RoomSettings.killLimit s) (InRoomUpdateSettings.killLimit req))
    (default (RoomSettings.winLimit s) (InRoomUpdateSettings.winLimit req))
    (default (RoomSettings.areBotsEnabled s) (InRoomUpdateSettings.areBotsEnabled req)).

(** Modelled from the spec: the team part of Room.updateUserTeam. *)
Definition setUserTeam (userId : Z) (team : RoomTeamNum) (r : t) : t :=
  set_users
    (map (fun u => if bool_decide (RoomUser.userId u = userId)
                   then RoomUser.mk (RoomUser.userId u) (RoomUser.conn u)
                                    (RoomUser.ready u) team
                   else u) (users r)) r.
End Room.

Module Channel.
Record t := mk {
  rooms : list RoomRef;
  members : list ConnRef
}.

#[global] Instance inhabited : Inhabited t := populate (mk [] []).
End Channel.

(** ** The store *)

Module World.
Record t := mk {
  sockets : gmap ConnRef ExtendedSocket.t;
  connections : list ConnRef;          (* ActiveConnections.Singleton() *)
  rooms : gmap RoomRef Room.t;
  channels : gmap ChannelRef Channel.t
}.

Definition set_sockets (v : gmap ConnRef ExtendedSocket.t) (w : t) : t :=
  mk v (connections w) (rooms w) (channels w).

Definition set_connections (v : list ConnRef) (w : t) : t :=
  mk (sockets w) v (rooms w) (channels w).

Definition set_rooms (v : gmap RoomRef Room.t) (w : t) : t :=
  mk (sockets w) (connections w) v (channels w).

Definition conn (w : t) (c : ConnRef) : ExtendedSocket.t := sockets w !!! c.

Definition room (w : t) (r : RoomRef) : Room.t := rooms w !!! r.

Definition set_conn (c : ConnRef) (s : ExtendedSocket.t) (w : t) : t :=
  set_sockets (<[c:=s]> (sockets w)) w.

Definition set_room (r : RoomRef) (v : Room.t) (w : t) : t :=
  set_rooms (<[r:=v]> (rooms w)) w.

(** [conn.send(packet)] on the connection object behind [c]. *)
Definition send (c : ConnRef) (packet : OutPacketBase) (w : t) : outcome t :=
  '(_, s) ← ExtendedSocket.send packet (conn w c);
  Return (set_conn c s w).

Definition sendBuffer (c : ConnRef) (buff : list Z) (w : t) : outcome t :=
  '(_, s) ← ExtendedSocket.sendBuffer buff (conn w c);
  Return (set_conn c s w).

(** [for (const user of room.users) user.conn.send(packet)]. *)
Fixpoint broadcast (us : list RoomUser.t) (packet : OutPacketBase) (w : t)
    : outcome t :=
  match us with
  | [] => Return w
  | u :: rest => w' ← send (RoomUser.conn u) packet w; broadcast rest packet w'
  end.

(** A handler result that denies the request behind connection [c] with
    the dialog [msg]: it returns false, the dialog is the one thing
    written to [c] (nothing if its socket is destroyed), and the session
    of [c], the registry, the rooms and the other connections are as
    before. *)
Definition Denied (msg : GameString) (c : ConnRef) (w : t)
    (result : outcome (bool * t)) : Prop :=
  ∃ w', result = Return (false, w')
    ∧ ExtendedSocket.session (conn w' c) = ExtendedSocket.session (conn w c)
    ∧ connections w' = connections w
    ∧ rooms w' = rooms w
    ∧ channels w' = channels w
    ∧ (∀ c', c' ≠ c -> sockets w' !! c' = sockets w !! c')
    ∧ ExtendedSocket.payloads (conn w' c)
      = ExtendedSocket.payloads (conn w c)
        ++ (if NetSocket.destroyed (ExtendedSocket.socket (conn w c)) then []
            else [Packet (OutChatPacket_systemMessage msg DialogBox)]).

(** Modelled from the spec: Channel.getRoomById; rooms are keyed by a
    room id that is unique within the channel. *)
Fixpoint findRoom (w : t) (rs : list RoomRef) (roomId : Z) : option RoomRef :=
  match rs with
  | [] => None
  | r :: rest =>
      if bool_decide (Room.id (room w r) = roomId) then Some r
      else findRoom w rest roomId
  end.

Definition getRoomById (w : t) (ch : ChannelRef) (roomId : Z) : option RoomRef :=
  findRoom w (Channel.rooms (channels w !!! ch)) roomId.

End World.

(** ** user/usermanager.ts *)

Module UserManager.
Import World.

(** What the user service answered to the calls a handler awaits.  The
    service wrappers (services/userservice.ts, user/userinventory.ts) are
    not among the sources; their results are inputs here. *)
Module Answers.
Record t := mk {
  Login : Z;
  GetUserById : option User.t;
  getInventory : option (list Z);
  getCosmetics : option (list Z);
  getAllLoadouts : option (list Z);
  getBuyMenu : option (list Z)
}.
End Answers.

Definition achievementReplyTest : list Z := [
    0x55; 0x12; 0x21; 0x00; 0x60; 0x03; 0x00; 0x00; 0x40; 0x00; 0x00; 0x00; 0x03; 0xde; 0x07; 0x00;
    0x00; 0x02; 0x00; 0x00; 0x00; 0xd8; 0x07; 0x00; 0x00; 0x04; 0x00; 0x00; 0x00; 0xdd; 0x07; 0x00;
    0x00; 0x06; 0x00; 0x00; 0x00].

Definition unlockReply : list Z := [
    0x55; 0x19; 0x5f; 0x05; 0x5a; 0x01; 0x4b; 0x00; 0x01; 0x00; 0x00; 0x00; 0x0b; 0x00; 0x00; 0x00;
    0x01; 0xe8; 0x03; 0x00; 0x00; 0x09; 0x00; 0x00; 0x00; 0x0c; 0x00; 0x00; 0x00; 0x01; 0xdc; 0x05;
    0x00; 0x00; 0x0a; 0x00; 0x00; 0x00; 0x0d; 0x00; 0x00; 0x00; 0x01; 0xe8; 0x03; 0x00; 0x00; 0x18;
    0x00; 0x00; 0x00; 0x0e; 0x00; 0x00; 0x00; 0x01; 0xdc; 0x05; 0x00; 0x00; 0x0b; 0x00; 0x00; 0x00;
    0x0f; 0x00; 0x00; 0x00; 0x01; 0x08; 0x07; 0x00; 0x00; 0x3c; 0x00; 0x00; 0x00; 0x10; 0x00; 0x00;
    0x00; 0x01; 0x80; 0xbb; 0x00; 0x00; 0x1f; 0x00; 0x00; 0x00; 0x11; 0x00; 0x00; 0x00; 0x01; 0xc0;
    0x5d; 0x00; 0x00; 0x11; 0x00; 0x00; 0x00; 0x12; 0x00; 0x00; 0x00; 0x01; 0x08; 0x07; 0x00; 0x00;
    0x1c; 0x00; 0x00; 0x00; 0x13; 0x00; 0x00; 0x00; 0x01; 0x4c; 0x1d; 0x00; 0x00; 0x3b; 0x00; 0x00;
    0x00; 0x14; 0x00; 0x00; 0x00; 0x01; 0x60; 0x61; 0x02; 0x00; 0x35; 0x00; 0x00; 0x00; 0x15; 0x00;
    0x00; 0x00; 0x01; 0x30; 0x75; 0x00; 0x00; 0x1a; 0x00; 0x00; 0x00; 0x16; 0x00; 0x00; 0x00; 0x01;
    0xa0; 0x0f; 0x00; 0x00; 0x19; 0x00; 0x00; 0x00; 0x17; 0x00; 0x00; 0x00; 0x01; 0x98; 0x3a; 0x00;
    0x00; 0x3f; 0x00; 0x00; 0x00; 0x18; 0x00; 0x00; 0x00; 0x01; 0xe0; 0x93; 0x04; 0x00; 0x14; 0x00;
    0x00; 0x00; 0x19; 0x00; 0x00; 0x00; 0x01; 0xa0; 0x0f; 0x00; 0x00; 0x07; 0x00; 0x00; 0x00; 0x1a;
    0x00; 0x00; 0x00; 0x01; 0x98; 0x3a; 0x00; 0x00; 0x3e; 0x00; 0x00; 0x00; 0x1b; 0x00; 0x00; 0x00;
    0x01; 0xe0; 0x93; 0x04; 0x00; 0x05; 0x00; 0x00; 0x00; 0x1c; 0x00; 0x00; 0x00; 0x01; 0x08; 0x07;
    0x00; 0x00; 0x2c; 0x00; 0x00; 0x00; 0x1d; 0x00; 0x00; 0x00; 0x01; 0x30; 0x75; 0x00; 0x00; 0x10;
    0x00; 0x00; 0x00; 0x1e; 0x00; 0x00; 0x00; 0x01; 0x88; 0x13; 0x00; 0x00; 0x0c; 0x00; 0x00; 0x00;
    0x1f; 0x00; 0x00; 0x00; 0x01; 0x20; 0x4e; 0x00; 0x00; 0x16; 0x00; 0x00; 0x00; 0x20; 0x00; 0x00;
    0x00; 0x01; 0x20; 0x4e; 0x00; 0x00; 0x34; 0x00; 0x00; 0x00; 0x43; 0x00; 0x00; 0x00; 0x01; 0x30;
    0x75; 0x00; 0x00; 0x46; 0x00; 0x00; 0x00; 0x57; 0x00; 0x00; 0x00; 0x01; 0x20; 0xa1; 0x07; 0x00;
    0x47; 0x00; 0x00; 0x00; 0x58; 0x00; 0x00; 0x00; 0x01; 0x20; 0xa1; 0x07; 0x00; 0x4d; 0x00; 0x00;
    0x00; 0x59; 0x00; 0x00; 0x00; 0x00; 0x90; 0x01; 0x00; 0x00; 0x55; 0x00; 0x00; 0x00; 0x81; 0x00;
    0x00; 0x00; 0x00; 0x70; 0x03; 0x00; 0x00; 0x30; 0x00; 0x00; 0x00; 0x90; 0x00; 0x00; 0x00; 0x01;
    0x30; 0x75; 0x00; 0x00; 0x1d; 0x00; 0x00; 0x00; 0x91; 0x00; 0x00; 0x00; 0x01; 0x60; 0xea; 0x00;
    0x00; 0x20; 0x00; 0x00; 0x00; 0x92; 0x00; 0x00; 0x00; 0x01; 0x48; 0xe8; 0x01; 0x00; 0x2f; 0x00;
    0x00; 0x00; 0x93; 0x00; 0x00; 0x00; 0x01; 0x40; 0x0d; 0x03; 0x00; 0x6a; 0xbf; 0x00; 0x00; 0xa8;
    0x00; 0x00; 0x00; 0x00; 0x28; 0x00; 0x00; 0x00; 0x70; 0xbf; 0x00; 0x00; 0xa9; 0x00; 0x00; 0x00;
    0x00; 0x50; 0x00; 0x00; 0x00; 0x6f; 0xbf; 0x00; 0x00; 0xaa; 0x00; 0x00; 0x00; 0x00; 0x28; 0x00;
    0x00; 0x00; 0x6e; 0xbf; 0x00; 0x00; 0xab; 0x00; 0x00; 0x00; 0x00; 0x50; 0x00; 0x00; 0x00; 0x69;
    0xbf; 0x00; 0x00; 0xac; 0x00; 0x00; 0x00; 0x00; 0x28; 0x00; 0x00; 0x00; 0x72; 0xbf; 0x00; 0x00;
    0xad; 0x00; 0x00; 0x00; 0x00; 0x50; 0x00; 0x00; 0x00; 0x6b; 0xbf; 0x00; 0x00; 0xae; 0x00; 0x00;
    0x00; 0x00; 0x28; 0x00; 0x00; 0x00; 0x6d; 0xbf; 0x00; 0x00; 0xaf; 0x00; 0x00; 0x00; 0x00; 0x50;
    0x00; 0x00; 0x00; 0x4a; 0x00; 0x00; 0x00; 0xd7; 0x00; 0x00; 0x00; 0x01; 0x50; 0xc3; 0x00; 0x00;
    0x4b; 0x00; 0x00; 0x00; 0xd8; 0x00; 0x00; 0x00; 0x01; 0x00; 0x77; 0x01; 0x00; 0x4e; 0x00; 0x00;
    0x00; 0xe8; 0x00; 0x00; 0x00; 0x01; 0x70; 0x11; 0x01; 0x00; 0x52; 0x00; 0x00; 0x00; 0xe9; 0x00;
    0x00; 0x00; 0x01; 0xc0; 0xd4; 0x01; 0x00; 0x5b; 0x00; 0x00; 0x00; 0x06; 0x01; 0x00; 0x00; 0x01;
    0xf0; 0x49; 0x02; 0x00; 0x5f; 0x00; 0x00; 0x00; 0x19; 0x01; 0x00; 0x00; 0x01; 0x60; 0xea; 0x00;
    0x00; 0x60; 0x00; 0x00; 0x00; 0x1a; 0x01; 0x00; 0x00; 0x01; 0xc0; 0xd4; 0x01; 0x00; 0x64; 0x00;
    0x00; 0x00; 0x38; 0x01; 0x00; 0x00; 0x01; 0xf0; 0x49; 0x02; 0x00; 0x68; 0x00; 0x00; 0x00; 0x5c;
    0x01; 0x00; 0x00; 0x01; 0x20; 0xa1; 0x07; 0x00; 0x6d; 0x00; 0x00; 0x00; 0x82; 0x01; 0x00; 0x00;
    0x01; 0xa0; 0x86; 0x01; 0x00; 0x6c; 0x00; 0x00; 0x00; 0x83; 0x01; 0x00; 0x00; 0x01; 0xa0; 0x86;
    0x01; 0x00; 0x6e; 0x00; 0x00; 0x00; 0x84; 0x01; 0x00; 0x00; 0x01; 0xa0; 0x86; 0x01; 0x00; 0x42;
    0x00; 0x00; 0x00; 0xfa; 0x01; 0x00; 0x00; 0x01; 0x30; 0x75; 0x00; 0x00; 0x43; 0x00; 0x00; 0x00;
    0xfb; 0x01; 0x00; 0x00; 0x01; 0x50; 0xc3; 0x00; 0x00; 0x78; 0x00; 0x00; 0x00; 0xfc; 0x01; 0x00;
    0x00; 0x01; 0x40; 0x0d; 0x03; 0x00; 0x79; 0x00; 0x00; 0x00; 0x07; 0x02; 0x00; 0x00; 0x00; 0xa0;
    0x00; 0x00; 0x00; 0x7c; 0x00; 0x00; 0x00; 0x08; 0x02; 0x00; 0x00; 0x00; 0x04; 0x01; 0x00; 0x00;
    0x7a; 0x00; 0x00; 0x00; 0x09; 0x02; 0x00; 0x00; 0x00; 0xe0; 0x01; 0x00; 0x00; 0x7b; 0x00; 0x00;
    0x00; 0x0a; 0x02; 0x00; 0x00; 0x00; 0x44; 0x02; 0x00; 0x00; 0x7d; 0x00; 0x00; 0x00; 0x58; 0x02;
    0x00; 0x00; 0x00; 0x44; 0x02; 0x00; 0x00; 0x7e; 0x00; 0x00; 0x00; 0x59; 0x02; 0x00; 0x00; 0x00;
    0x0c; 0x03; 0x00; 0x00; 0x81; 0x00; 0x00; 0x00; 0x91; 0x02; 0x00; 0x00; 0x01; 0xf0; 0x49; 0x02;
    0x00; 0x82; 0x00; 0x00; 0x00; 0x92; 0x02; 0x00; 0x00; 0x01; 0x00; 0x53; 0x07; 0x00; 0x83; 0x00;
    0x00; 0x00; 0x93; 0x02; 0x00; 0x00; 0x01; 0x60; 0x5b; 0x03; 0x00; 0x85; 0x00; 0x00; 0x00; 0x94;
    0x02; 0x00; 0x00; 0x00; 0x40; 0x01; 0x00; 0x00; 0x84; 0x00; 0x00; 0x00; 0x95; 0x02; 0x00; 0x00;
    0x00; 0x08; 0x02; 0x00; 0x00; 0x87; 0x00; 0x00; 0x00; 0x1f; 0x03; 0x00; 0x00; 0x00; 0x08; 0x02;
    0x00; 0x00; 0x8a; 0x00; 0x00; 0x00; 0xa4; 0x03; 0x00; 0x00; 0x01; 0xe0; 0x93; 0x04; 0x00; 0x8f;
    0x00; 0x00; 0x00; 0x44; 0x04; 0x00; 0x00; 0x01; 0x80; 0xa9; 0x03; 0x00; 0x90; 0x00; 0x00; 0x00;
    0x45; 0x04; 0x00; 0x00; 0x01; 0x40; 0x7e; 0x05; 0x00; 0x91; 0x00; 0x00; 0x00; 0x46; 0x04; 0x00;
    0x00; 0x01; 0x00; 0x53; 0x07; 0x00; 0x9b; 0x00; 0x00; 0x00; 0xa9; 0x04; 0x00; 0x00; 0x01; 0xf0;
    0x49; 0x02; 0x00; 0x9c; 0x00; 0x00; 0x00; 0xaa; 0x04; 0x00; 0x00; 0x01; 0x40; 0x0d; 0x03; 0x00;
    0x97; 0x00; 0x00; 0x00; 0xfc; 0x04; 0x00; 0x00; 0x01; 0x42; 0x99; 0x00; 0x00; 0x98; 0x00; 0x00;
    0x00; 0xfd; 0x04; 0x00; 0x00; 0x01; 0x86; 0x29; 0x02; 0x00; 0x99; 0x00; 0x00; 0x00; 0xfe; 0x04;
    0x00; 0x00; 0x01; 0x8c; 0xed; 0x02; 0x00; 0x10; 0x00; 0x03; 0x00; 0x00; 0x00; 0x10; 0x00; 0x00;
    0x00; 0x03; 0x00; 0x00; 0x00; 0x00; 0x00; 0x00; 0x00; 0x00; 0x00; 0x42; 0x00; 0x00; 0x00; 0x43;
    0x00; 0x00; 0x00; 0x06; 0x00; 0x00; 0x00; 0x00; 0x00; 0x00; 0x00; 0x00; 0x00; 0x0e; 0x00; 0x00;
    0x00; 0x14; 0x00; 0x00; 0x00; 0x03; 0x00; 0x00; 0x00; 0x00; 0x00; 0x00; 0x00; 0x00; 0x00; 0x0f;
    0x00; 0x00; 0x00; 0x0a; 0x00; 0x00; 0x00; 0x04; 0x00; 0x00; 0x00; 0x00; 0x00; 0x00; 0x00; 0x00;
    0x00; 0x10; 0x00; 0x00; 0x00; 0x16; 0x00; 0x00; 0x00; 0x07; 0x00; 0x00; 0x00; 0x00; 0x00; 0x00;
    0x00; 0x00; 0x00; 0x10; 0x00; 0x00; 0x00; 0x0c; 0x00; 0x00; 0x00; 0x07; 0x00; 0x00; 0x00; 0x00;
    0x00; 0x00; 0x00; 0x00; 0x00; 0x11; 0x00; 0x00; 0x00; 0x1c; 0x00; 0x00; 0x00; 0x05; 0x00; 0x00;
    0x00; 0x00; 0x00; 0x00; 0x00; 0x00; 0x00; 0x11; 0x00; 0x00; 0x00; 0x35; 0x00; 0x00; 0x00; 0x01;
    0x00; 0x00; 0x00; 0x00; 0x00; 0x00; 0x00; 0x00; 0x00; 0x12; 0x00; 0x00; 0x00; 0x34; 0x00; 0x00;
    0x00; 0x01; 0x00; 0x00; 0x00; 0x00; 0x00; 0x00; 0x00; 0x00; 0x00; 0x13; 0x00; 0x00; 0x00; 0x4d;
    0x00; 0x00; 0x00; 0x02; 0x00; 0x00; 0x00; 0x00; 0x00; 0x00; 0x00; 0x00; 0x00; 0x13; 0x00; 0x00;
    0x00; 0x05; 0x00; 0x00; 0x00; 0x02; 0x00; 0x00; 0x00; 0x00; 0x00; 0x00; 0x00; 0x00; 0x00; 0x14;
    0x00; 0x00; 0x00; 0x07; 0x00; 0x00; 0x00; 0x08; 0x00; 0x00; 0x00; 0x00; 0x00; 0x00; 0x00; 0x00;
    0x00; 0x14; 0x00; 0x00; 0x00; 0x3e; 0x00; 0x00; 0x00; 0x08; 0x00; 0x00; 0x00; 0x00; 0x00; 0x00;
    0x00; 0x00; 0x00; 0x15; 0x00; 0x00; 0x00; 0x11; 0x00; 0x00; 0x00; 0x00; 0x00; 0x00; 0x00; 0x00;
    0x00; 0x00; 0x00; 0x00; 0x00; 0x1a; 0x00; 0x00; 0x00; 0x3f; 0x00; 0x00; 0x00; 0x1a; 0x00; 0x00;
    0x00; 0x00; 0x00; 0x00; 0x00; 0x00; 0x00; 0x1a; 0x00; 0x00; 0x00; 0x19; 0x00; 0x00; 0x00; 0x1a;
    0x00; 0x00; 0x00; 0x00; 0x00; 0x00; 0x00; 0x00; 0x00; 0x19; 0x00; 0x01; 0x00; 0x00; 0x00; 0x02;
    0x00; 0x00; 0x00; 0x03; 0x00; 0x00; 0x00; 0x05; 0x00; 0x00; 0x00; 0x06; 0x00; 0x00; 0x00; 0x07;
    0x00; 0x00; 0x00; 0x09; 0x00; 0x00; 0x00; 0x0a; 0x00; 0x00; 0x00; 0x0b; 0x00; 0x00; 0x00; 0x0d;
    0x00; 0x00; 0x00; 0x0e; 0x00; 0x00; 0x00; 0x0f; 0x00; 0x00; 0x00; 0x10; 0x00; 0x00; 0x00; 0x11;
    0x00; 0x00; 0x00; 0x12; 0x00; 0x00; 0x00; 0x13; 0x00; 0x00; 0x00; 0x14; 0x00; 0x00; 0x00; 0x15;
    0x00; 0x00; 0x00; 0x18; 0x00; 0x00; 0x00; 0x19; 0x00; 0x00; 0x00; 0x1a; 0x00; 0x00; 0x00; 0x1c;
    0x00; 0x00; 0x00; 0x6c; 0xbf; 0x00; 0x00; 0x71; 0xbf; 0x00; 0x00; 0x42; 0x00; 0x00; 0x00; 0x94;
    0x01; 0x00; 0x00].

Definition SendUserDialogBox (userConn : ConnRef) (msg : GameString) (w : World.t)
    : outcome World.t :=
  send userConn (OutChatPacket_systemMessage msg DialogBox) w.

Definition sendUserInfoToSelf (user : User.t) (conn : ConnRef)
    (holepunchPort : Z) (w : World.t) : outcome World.t :=
  w1 ← send conn (OutUserStartPacket (User.id user) (User.username user)
                    (User.playername user) holepunchPort) w;
  w2 ← sendBuffer conn achievementReplyTest w1;
  send conn (OutUserInfoPacket_fullUserUpdate user) w2.

Definition sendInventory (up : Answers.t) (conn : ConnRef) (w : World.t)
    : outcome World.t :=
  match Answers.getInventory up, Answers.getCosmetics up,
        Answers.getAllLoadouts up, Answers.getBuyMenu up with
  | Some inventory, Some cosmetics, Some loadouts, Some buyMenu =>
      w1 ← send conn (OutInventoryPacket_createInventory inventory) w;
      w2 ← sendBuffer conn unlockReply w1;
      w3 ← send conn (OutFavoritePacket_setCosmetics cosmetics) w2;
      w4 ← send conn (OutFavoritePacket_setLoadout loadouts) w3;
      send conn (OutOptionPacket_setBuyMenu buyMenu) w4
  | _, _, _, _ => Return w
  end.

(** Modelled from the spec: ChannelManager.sendChannelListTo emits the
    directory snapshot to the connection. *)
Definition sendChannelListTo (conn : ConnRef) (w : World.t) : outcome World.t :=
  send conn OutChannelList w.

Definition onLoginPacket (up : Answers.t) (connection : ConnRef)
    (holepunchPort : Z) (w : World.t) : outcome (bool * World.t) :=
  let loggedUserId := Answers.Login up in
  if bool_decide (loggedUserId = 0) then
    w1 ← SendUserDialogBox connection GAME_LOGIN_BAD_USERNAME w;
    Return (false, w1)
  else if bool_decide (loggedUserId = -1) then
    w1 ← SendUserDialogBox connection GAME_LOGIN_BAD_PASSWORD w;
    Return (false, w1)
  else
    match Answers.GetUserById up with
    | None =>
        w1 ← SendUserDialogBox connection GAME_LOGIN_INVALID_USERINFO w;
        Return (false, w1)
    | Some user =>
        let newSession := UserSession.mk user None None in
        let w1 :=
          set_conn connection
            (ExtendedSocket.set_session (Some newSession) (conn w connection)) w in
        let w2 :=
          set_connections (ActiveConnections.Add connection (connections w1)) w1 in
        w3 ← sendUserInfoToSelf user connection holepunchPort w2;
        w4 ← sendInventory up connection w3;
        w5 ← sendChannelListTo connection w4;
        Return (true, w5)
    end.

(** [targetConn.session] where [targetConn] is what FindByOwnerId
    returned: reading a property of [null] throws a TypeError. *)
Definition sessionOf (w : World.t) (targetConn : option ConnRef)
    : outcome (option UserSession.t) :=
  match targetConn with
  | None => Throw TypeError
  | Some c => Return (ExtendedSocket.session (conn w c))
  end.

(** Modelled from the spec: Room.updateUserTeam, "team updated" and
    "broadcast team". *)
Definition updateUserTeam (r : RoomRef) (userId : Z) (team : RoomTeamNum)
    (w : World.t) : outcome World.t :=
  let w1 := set_room r (Room.setUserTeam userId team (room w r)) w in
  broadcast (Room.users (room w1 r)) (OutRoomPacket_setUserTeam userId team) w1.

Definition onItemUsing (userId itemId : Z) (userConn : ConnRef) (w : World.t)
    : outcome (bool * World.t) :=
  targetConn ← ActiveConnections.FindByOwnerId (sockets w) (connections w) userId;
  let requesterSession := ExtendedSocket.session (conn w userConn) in
  targetSession ← sessionOf w targetConn;
  match requesterSession with
  | None => Return (false, w)
  | Some requesterSession =>
      if negb (UserSession.isInRoom requesterSession) then Return (false, w)
      else
        match targetSession with
        | None => Return (false, w)
        | Some targetSession =>
            match UserSession.currentRoom requesterSession with
            | None => Return (false, w)
            | Some currentRoom =>
                if bool_decide (RoomUser.userId (Room.host (room w currentRoom))
                                ≠ User.id (UserSession.user requesterSession))
                then Return (false, w)
                else
                  w1 ← send userConn (OutHostPacket_itemUse userId itemId) w;
                  Return (true, w1)
            end
        end
  end.

(** [newTeam] is [Some] team when the packet's value is one of the two
    RoomTeamNum constants the handler accepts, [None] for any other. *)
Definition onTeamChangingRequest (userId : Z) (newTeam : option RoomTeamNum)
    (userConn : ConnRef) (w : World.t) : outcome (bool * World.t) :=
  targetConn ← ActiveConnections.FindByOwnerId (sockets w) (connections w) userId;
  let requesterSession := ExtendedSocket.session (conn w userConn) in
  targetSession ← sessionOf w targetConn;
  match requesterSession with
  | None => Return (false, w)
  | Some requesterSession =>
      if negb (UserSession.isInRoom requesterSession) then Return (false, w)
      else
        match targetSession with
        | None => Return (false, w)
        | Some targetSession =>
            match UserSession.currentRoom requesterSession with
            | None => Return (false, w)
            | Some currentRoom =>
                if bool_decide (RoomUser.userId (Room.host (room w currentRoom))
                                ≠ User.id (UserSession.user requesterSession))
                then Return (false, w)
                else
                  match newTeam with
                  | None => Return (false, w)
                  | Some team =>
                      w1 ← updateUserTeam currentRoom
                             (User.id (UserSession.user targetSession)) team w;
                      Return (true, w1)
                  end
            end
        end
  end.

(** The three asynchronous host handlers end in one send to the host;
    [answer] is what the user service gave for the data to forward. *)
Definition sendUserInventoryTo (answer : option (list Z)) (hostConn : ConnRef)
    (targetUserId : Z) (w : World.t) : outcome World.t :=
  match answer with
  | None => Throw TypeError             (* inventory.items *)
  | Some items => send hostConn (OutHostPacket_setInventory targetUserId items) w
  end.

Definition sendUserLoadoutTo (answer : list Z) (hostConn : ConnRef)
    (targetUserId : Z) (w : World.t) : outcome World.t :=
  send hostConn (OutHostPacket_setLoadout targetUserId answer) w.

Definition sendUserBuyMenuTo (answer : list Z) (hostConn : ConnRef)
    (targetUserId : Z) (w : World.t) : outcome World.t :=
  send hostConn (OutHostPacket_setBuyMenu targetUserId answer) w.

Definition onHostSetUserInventory (answer : option (list Z)) (userId : Z)
    (userConn : ConnRef) (w : World.t) : outcome (bool * World.t) :=
  targetConn ← ActiveConnections.FindByOwnerId (sockets w) (connections w) userId;
  let requesterSession := ExtendedSocket.session (conn w userConn) in
  targetSession ← sessionOf w targetConn;
  match requesterSession with
  | None => Return (false, w)
  | Some requesterSession =>
      if negb (UserSession.isInRoom requesterSession) then Return (false, w)
      else
        match targetSession with
        | None => Return (false, w)
        | Some targetSession =>
            match UserSession.currentRoom requesterSession with
            | None => Return (false, w)
            | Some currentRoom =>
                if bool_decide (RoomUser.userId (Room.host (room w currentRoom))
                                ≠ User.id (UserSession.user requesterSession))
                then Return (false, w)
                else
                  w1 ← sendUserInventoryTo answer userConn
                         (User.id (UserSession.user targetSession)) w;
                  Return (true, w1)
            end
        end
  end.

Definition onHostSetUserLoadout (answer : list Z) (userId : Z)
    (userConn : ConnRef) (w : World.t) : outcome (bool * World.t) :=
  targetConn ← ActiveConnections.FindByOwnerId (sockets w) (connections w) userId;
  let requesterSession := ExtendedSocket.session (conn w userConn) in
  targetSession ← sessionOf w targetConn;
  match requesterSession with
  | None => Return (false, w)
  | Some requesterSession =>
      if negb (UserSession.isInRoom requesterSession) then Return (false, w)
      else
        match targetSession with
        | None => Return (false, w)
        | Some targetSession =>
            match UserSession.currentRoom requesterSession with
            | None => Return (false, w)
            | Some currentRoom =>
                if bool_decide (RoomUser.userId (Room.host (room w currentRoom))
                                ≠ User.id (UserSession.user requesterSession))
                then Return (false, w)
                else
                  w1 ← sendUserLoadoutTo answer userConn
                         (User.id (UserSession.user targetSession)) w;
                  Return (true, w1)
            end
        end
  end.

Definition onHostSetUserBuyMenu (answer : list Z) (userId : Z)
    (userConn : ConnRef) (w : World.t) : outcome (bool * World.t) :=
  targetConn ← ActiveConnections.FindByOwnerId (sockets w) (connections w) userId;
  let requesterSession := ExtendedSocket.session (conn w userConn) in
  targetSession ← sessionOf w targetConn;
  match requesterSession with
  | None => Return (false, w)
  | Some requesterSession =>
      if negb (UserSession.isInRoom requesterSession) then Return (false, w)
      else
        match targetSession with
        | None => Return (false, w)
        | Some targetSession =>
            match UserSession.currentRoom requesterSession with
            | None => Return (false, w)
            | Some currentRoom =>
                if bool_decide (RoomUser.userId (Room.host (room w currentRoom))
                                ≠ User.id (UserSession.user requesterSession))
                then Return (false, w)
                else
                  w1 ← sendUserBuyMenuTo answer userConn
                         (User.id (UserSession.user targetSession)) w;
                  Return (true, w1)
            end
        end
  end.

End UserManager.

(** ** handlers/roomhandler.ts *)

Module RoomHandler.
Import World.

Module InRoomJoinRequest.
Record t := mk {
  roomId : Z;
  roomPassword : string
}.
End InRoomJoinRequest.

Definition SendUserDialogBox (userConn : ConnRef) (msg : GameString) (w : World.t)
    : outcome World.t :=
  send userConn (OutChatPacket_systemMessage msg DialogBox) w.

(** Modelled from the spec: Room.sendJoinNewRoom and
    Room.sendRoomSettingsTo, "send settings + roster to joiner"; both
    address the occupant with the given user id. *)
Definition sendToUser (r : RoomRef) (userId : Z) (packet : OutPacketBase)
    (w : World.t) : outcome World.t :=
  broadcast
    (filter (fun u => RoomUser.userId u = userId) (Room.users (room w r)))
    packet w.

Definition sendJoinNewRoom (r : RoomRef) (userId : Z) (w : World.t)
    : outcome World.t :=
  sendToUser r userId (OutRoomPacket_createAndJoin (Room.id (room w r))) w.

Definition sendRoomSettingsTo (r : RoomRef) (userId : Z) (w : World.t)
    : outcome World.t :=
  sendToUser r userId (OutRoomPacket_updateSettings (Room.settings (room w r))) w.

(** Modelled from the spec: Room.updateNewPlayerReadyStatus, "send
    new-player to others". *)
Definition updateNewPlayerReadyStatus (r : RoomRef) (userId : Z) (w : World.t)
    : outcome World.t :=
  broadcast
    (filter (fun u => RoomUser.userId u ≠ userId) (Room.users (room w r)))
    (OutRoomPacket_playerJoin userId) w.

(** Modelled from the spec: Room.updateSettings.  "A room in Countdown
    or Ingame rejects settings mutation"; in any other status, "replace
    settings (subset of fields)" and "broadcast settings". *)
Definition updateSettings (r : RoomRef) (req : InRoomUpdateSettings.t)
    (w : World.t) : outcome World.t :=
  match Room.status (room w r) with
  | Countdown | Ingame => Return w
  | _ =>
      let room1 :=
        Room.set_settings (Room.applySettings req (Room.settings (room w r)))
                          (room w r) in
      let w1 := set_room r room1 w in
      broadcast (Room.users room1)
        (OutRoomPacket_updateSettings (Room.settings room1)) w1
  end.

Definition set_currentRoom (c : ConnRef) (session : UserSession.t)
    (r : option RoomRef) (w : World.t) : World.t :=
  set_conn c
    (ExtendedSocket.set_session (Some (UserSession.setCurrentRoom r session))
       (conn w c)) w.

Definition onJoinRoomRequest (joinReq : InRoomJoinRequest.t)
    (sourceConn : ConnRef) (w : World.t) : outcome (bool * World.t) :=
  match ExtendedSocket.session (conn w sourceConn) with
  | None => Throw TypeError              (* session.currentChannel *)
  | Some session =>
      match UserSession.currentChannel session with
      | None => Return (false, w)
      | Some channel =>
          match getRoomById w channel (InRoomJoinRequest.roomId joinReq) with
          | None =>
              w1 ← SendUserDialogBox sourceConn GAME_ROOM_JOIN_FAILED_CLOSED w;
              Return (false, w1)
          | Some desiredRoom =>
              if negb (Room.hasFreeSlots (room w desiredRoom)) then
                w1 ← SendUserDialogBox sourceConn GAME_ROOM_JOIN_FAILED_FULL w;
                Return (false, w1)
              else if Room.IsPasswordProtected (room w desiredRoom)
                      && negb (Room.ComparePassword (room w desiredRoom)
                                 (InRoomJoinRequest.roomPassword joinReq)) then
                w1 ← SendUserDialogBox sourceConn
                       GAME_ROOM_JOIN_FAILED_BAD_PASSWORD w;
                Return (false, w1)
              else
                let userId := User.id (UserSession.user session) in
                let w1 :=
                  set_room desiredRoom
                    (Room.addUser userId sourceConn (room w desiredRoom)) w in
                let w2 := set_currentRoom sourceConn session (Some desiredRoom) w1 in
                w3 ← sendJoinNewRoom desiredRoom userId w2;
                w4 ← sendRoomSettingsTo desiredRoom userId w3;
                w5 ← updateNewPlayerReadyStatus desiredRoom userId w4;
                Return (true, w5)
          end
      end
  end.

Definition onRoomUpdateSettings (newSettingsReq : InRoomUpdateSettings.t)
    (sourceConn : ConnRef) (w : World.t) : outcome (bool * World.t) :=
  match ExtendedSocket.session (conn w sourceConn) with
  | None => Throw TypeError              (* session.currentRoom *)
  | Some session =>
      match UserSession.currentRoom session with
      | None => Return (false, w)
      | Some currentRoom =>
          if bool_decide (User.id (UserSession.user session)
                          ≠ RoomUser.userId (Room.host (room w currentRoom)))
          then Return (false, w)
          else if Room.isGlobalCountdownInProgress (room w currentRoom)
          then Return (false, w)
          else
            w1 ← updateSettings currentRoom newSettingsReq w;
            Return (true, w1)
      end
  end.

End RoomHandler.

(** ** Text encodings used by the packet codec

    A JavaScript string is a sequence of UTF-16 code units.  [encode] is
    what [TextEncoder.encode] and [Buffer.write(_, 'utf8')] produce and
    [decode] what [Buffer.toString('utf8')] yields; both go through
    Unicode scalar values. *)

Module Utf.

Definition isHighSurrogate (u : Z) : bool := bool_decide (0xD800 ≤ u ≤ 0xDBFF).
Definition isLowSurrogate (u : Z) : bool := bool_decide (0xDC00 ≤ u ≤ 0xDFFF).
Definition isSurrogate (u : Z) : bool := bool_decide (0xD800 ≤ u ≤ 0xDFFF).

Definition REPLACEMENT : Z := 0xFFFD.

(** Code units to scalar values: a surrogate pair is one supplementary
    code point, an unpaired surrogate becomes U+FFFD. *)
Fixpoint toScalarValues (s : list Z) : list Z :=
  match s with
  | [] => []
  | u :: t =>
      match t with
      | lo :: rest =>
          if isHighSurrogate u && isLowSurrogate lo
          then (0x10000 + (u - 0xD800) * 0x400 + (lo - 0xDC00)) :: toScalarValues rest
          else (if isSurrogate u then REPLACEMENT else u) :: toScalarValues t
      | [] => [if isSurrogate u then REPLACEMENT else u]
      end
  end.

(** Scalar values back to code units. *)
Definition utf16Units (c : Z) : list Z :=
  if bool_decide (c < 0x10000) then [c]
  else [0xD800 + (c - 0x10000) / 0x400; 0xDC00 + (c - 0x10000) mod 0x400].

(** The UTF-8 bytes of one scalar value. *)
Definition utf8Bytes (c : Z) : list Z :=
  if bool_decide (c < 0x80) then [c]
  else if bool_decide (c < 0x800) then
    [0xC0 + c / 0x40; 0x80 + c mod 0x40]
  else if bool_decide (c < 0x10000) then
    [0xE0 + c / 0x1000; 0x80 + (c / 0x40) mod 0x40; 0x80 + c mod 0x40]
  else
    [0xF0 + c / 0x40000; 0x80 + (c / 0x1000) mod 0x40;
     0x80 + (c / 0x40) mod 0x40; 0x80 + c mod 0x40].

Definition encode (s : list Z) : list Z :=
  flat_map utf8Bytes (toScalarValues s).

(** The UTF-8 decoder: the state holds the code point under
    construction, the continuation bytes seen and needed, and the range
    allowed for the next continuation byte.  An ill-formed sequence
    yields U+FFFD and the offending byte is looked at again as a lead. *)
Record decoder := mkDecoder {
  codePoint : Z;
  bytesSeen : Z;
  bytesNeeded : Z;
  lowerBoundary : Z;
  upperBoundary : Z
}.

Definition initial : decoder := mkDecoder 0 0 0 0x80 0xBF.

Definition lead (b : Z) : list Z * decoder :=
  if bool_decide (0 ≤ b ≤ 0x7F) then ([b], initial)
  else if bool_decide (0xC2 ≤ b ≤ 0xDF) then
    ([], mkDecoder (b mod 0x20) 0 1 0x80 0xBF)
  else if bool_decide (0xE0 ≤ b ≤ 0xEF) then
    ([], mkDecoder (b mod 0x10) 0 2
           (if bool_decide (b = 0xE0) then 0xA0 else 0x80)
           (if bool_decide (b = 0xED) then 0x9F else 0xBF))
  else if bool_decide (0xF0 ≤ b ≤ 0xF4) then
    ([], mkDecoder (b mod 0x08) 0 3
           (if bool_decide (b = 0xF0) then 0x90 else 0x80)
           (if bool_decide (b = 0xF4) then 0x8F else 0xBF))
  else ([REPLACEMENT], initial).

Definition feed (d : decoder) (b : Z) : list Z * decoder :=
  if bool_decide (bytesNeeded d = 0) then lead b
  else if negb (bool_decide (lowerBoundary d ≤ b ≤ upperBoundary d)) then
    let '(out, d') := lead b in (REPLACEMENT :: out, d')
  else
    let cp := codePoint d * 0x40 + b mod 0x40 in
    if bool_decide (bytesSeen d + 1 = bytesNeeded d) then ([cp], initial)
    else ([], mkDecoder cp (bytesSeen d + 1) (bytesNeeded d) 0x80 0xBF).

Fixpoint decodeFrom (d : decoder) (bytes : list Z) : list Z :=
  match bytes with
  | [] => if bool_decide (bytesNeeded d = 0) then [] else [REPLACEMENT]
  | b :: rest => let '(out, d') := feed d b in out ++ decodeFrom d' rest
  end.

Definition decode (bytes : list Z) : list Z :=
  flat_map utf16Units (decodeFrom initial bytes).

(** [Buffer.write] never stores part of a character: it writes the
    characters that fit entirely into [room] bytes. *)
Fixpoint writeChars (cps : list Z) (room : nat) : list Z :=
  match cps with
  | [] => []
  | c :: rest =>
      let bs := utf8Bytes c in
      if bool_decide (length bs ≤ room)%nat
      then bs ++ writeChars rest (room - length bs)
      else []
  end.

(** Unicode scalar values: code points that are not surrogates. *)
Definition Scalar (c : Z) : Prop :=
  0 ≤ c ≤ 0x10FFFF ∧ ¬ (0xD800 ≤ c ≤ 0xDFFF).

(** A string without unpaired surrogates
    ([String.prototype.isWellFormed]). *)
Inductive WellFormed : list Z -> Prop :=
| WellFormed_nil : WellFormed []
| WellFormed_unit u s :
    0 ≤ u ≤ 0xFFFF -> isSurrogate u = false -> WellFormed s ->
    WellFormed (u :: s)
| WellFormed_pair hi lo s :
    isHighSurrogate hi = true -> isLowSurrogate lo = true -> WellFormed s ->
    WellFormed (hi :: lo :: s).

End Utf.

(** ** The part of [Buffer] the codec uses *)

Module Buffer.

Definition t := list Z.

Definition alloc (size : Z) : outcome t :=
  if bool_decide (size < 0) then Throw RangeError
  else Return (replicate (Z.to_nat size) 0).

(** [buf[i] = v] on a typed array: the value is stored modulo 256, and
    an index outside the array is ignored. *)
Definition setByte (i : nat) (v : Z) (buf : t) : t := <[i:=v mod 256]> buf.

Definition readUInt8 (buf : t) (offset : nat) : outcome Z :=
  match buf !! offset with
  | Some b => Return b
  | None => Throw RangeError
  end.

(** [buf.slice(start, end)] for [0 <= start <= end]. *)
Definition slice (start stop : Z) (buf : t) : t :=
  take (Z.to_nat (stop - start)) (drop (Z.to_nat start) buf).

(** [buf.write(str, offset, length, 'utf8')]: the offset has to lie in
    the buffer and the length is cut to what remains after it. *)
Definition write (str : list Z) (offset : nat) (len : Z) (buf : t) : outcome t :=
  if bool_decide (length buf < offset)%nat then Throw RangeError
  else if bool_decide (len < 0 ∨ Z.of_nat (length buf) < len) then Throw RangeError
  else
    let room := Nat.min (Z.to_nat len) (length buf - offset) in
    let bytes := Utf.writeChars (Utf.toScalarValues str) room in
    Return (take offset buf ++ bytes ++ drop (offset + length bytes) buf).

Definition toString (buf : t) : list Z := Utf.decode buf.

End Buffer.

(** ** packets/packetstring.ts *)

Module PacketString.

Record t := mk {
  str : list Z;
  actualStrLen : Z;
  totalLen : Z
}.

(** The constructor; [rawLength] defaults to 0. *)
Definition new (str : list Z) (rawLength : Z) : outcome t :=
  let expectedLen := Z.of_nat (length (Utf.encode str)) in
  if bool_decide (rawLength ≠ 0) && bool_decide (expectedLen ≠ rawLength) then
    Throw (Error "The expected length is different from the one in the packet")
  else Return (mk str expectedLen (expectedLen + 1)).

Definition from (data : Buffer.t) : outcome t :=
  length ← Buffer.readUInt8 data 0;
  let str := Buffer.toString (Buffer.slice 1 (1 + length) data) in
  new str length.

Definition toBuffer (p : t) : outcome Buffer.t :=
  newBuffer ← Buffer.alloc (totalLen p);
  let newBuffer := Buffer.setByte 0 (actualStrLen p) newBuffer in
  match str p with
  | [] => Return newBuffer
  | _ => Buffer.write (str p) 1 (actualStrLen p) newBuffer
  end.

End PacketString.

(** ** The upstream probe (authorities.ts) *)

Module UserSvcPing.

(** Modelled from the spec: authorities.ts is not among the sources.
    The probe is "a process-wide object with CheckNow (issues a ping to
    the user service, updates internal aliveness) and IsAlive". *)
Record t := mk {
  alive : bool;
  host : string
}.

Definition isAlive (p : t) : bool := alive p.

Definition getHost (p : t) : string := host p.

(** The second half of [checkNow]: the answer to the ping arrived. *)
Definition settle (answer : bool) (p : t) : t := mk answer (host p).

End UserSvcPing.

(** Calls that leave the process. *)
Inductive Request :=
| GET_ping
| GET_users (userId : Z).

Module Upstream.
Record t := mk {
  probe : UserSvcPing.t;
  requests : list Request
}.

Definition issue (r : Request) (u : t) : t := mk (probe u) (requests u ++ [r]).

(** [await UserSvcPing.checkNow()] run on its own: the ping goes out and
    its answer is recorded. *)
Definition checkNow (answer : bool) (u : t) : bool * t :=
  let u1 := issue GET_ping u in
  (answer, mk (UserSvcPing.settle answer (probe u1)) (requests u1)).
End Upstream.

(** ** lru-cache, as the website configures it *)

Module LRU.

Record entry := mkEntry {
  key : Z;
  value : User.t;
  now : Z
}.

(** [entries] is the recency list, most recently used first. *)
Record t := mk {
  max : nat;
  maxAge : Z;
  entries : list entry
}.

Definition isStale (c : t) (hit : entry) (time : Z) : bool :=
  bool_decide (maxAge c ≠ 0) && bool_decide (time - now hit > maxAge c).

Definition del (k : Z) (c : t) : t :=
  mk (max c) (maxAge c) (filter (fun e => key e ≠ k) (entries c)).

Definition find (k : Z) (c : t) : option entry :=
  List.find (fun e => bool_decide (key e = k)) (entries c).

(** [cache.get(key)] at clock value [time]: a stale hit is dropped and
    reads as a miss, a fresh hit moves to the front. *)
Definition get (time : Z) (k : Z) (c : t) : option User.t * t :=
  match find k c with
  | None => (None, c)
  | Some hit =>
      if isStale c hit time then (None, del k c)
      else (Some (value hit), mk (max c) (maxAge c) (hit :: entries (del k c)))
  end.

(** [cache.set(key, value)] at clock value [time]: the entry goes to the
    front and the least recently used ones beyond [max] are dropped. *)
Definition set (time : Z) (k : Z) (v : User.t) (c : t) : t :=
  mk (max c) (maxAge c)
     (take (max c) (mkEntry k v time :: entries (del k c))).

End LRU.

(** ** website: services/usersservice.ts *)

Module UsersService.

(** What the user service does with a request: it answers with a status
    and a body, or the request fails. *)
Inductive Response :=
| Resolved (status : Z) (body : User.t)
| Rejected.

(** superagent resolves the promise only for a status from 200 to 299;
    for every other status, as for a request that failed, the promise is
    rejected. *)
Definition ok (status : Z) : bool := bool_decide (200 ≤ status < 300).

Definition settled (answer : Response) : option (Z * User.t) :=
  match answer with
  | Resolved status body => if ok status then Some (status, body) else None
  | Rejected => None
  end.

Record Env := mkEnv {
  userCache : LRU.t;
  upstream : Upstream.t
}.

(** [new LRU({ max: 100, maxAge: 1000 * 15 })] *)
Definition newUserCache : LRU.t := LRU.mk 100 (1000 * 15) [].

(** [get(userId)].  [time] is the clock when the cache is read, [answer]
    what the request to the user service gives if it is made, [time']
    the clock when its result is stored, and [ping] the answer to the
    probe's ping if the request is rejected. *)
Definition get (userId : Z) (time : Z) (answer : Response) (time' : Z)
    (ping : bool) (env : Env) : outcome (option User.t) * Env :=
  let '(cachedUser, cache1) := LRU.get time userId (userCache env) in
  let env1 := mkEnv cache1 (upstream env) in
  match cachedUser with
  | Some user => (Return (Some user), env1)
  | None =>
      if negb (UserSvcPing.isAlive (Upstream.probe (upstream env1)))
      then (Return None, env1)
      else
        let up1 := Upstream.issue (GET_users userId) (upstream env1) in
        match settled answer with
        | None =>
            let '(_, up2) := Upstream.checkNow ping up1 in
            (Throw (Error "request failed"), mkEnv cache1 up2)
        | Some (status, result) =>
            if bool_decide (status ≠ 200) then (Return None, mkEnv cache1 up1)
            else (Return (Some result),
                  mkEnv (LRU.set time' (User.id result) result cache1) up1)
        end
  end.

(** Successive calls of [get] for the same user id. *)
Record Call := mkCall {
  time : Z;
  answer : Response;
  time' : Z;
  ping : bool
}.

Fixpoint getAll (userId : Z) (calls : list Call) (env : Env)
    : list (outcome (option User.t)) * Env :=
  match calls with
  | [] => ([], env)
  | c :: rest =>
      let '(r, env1) := get userId (time c) (answer c) (time' c) (ping c) env in
      let '(rs, env2) := getAll userId rest env1 in
      (r :: rs, env2)
  end.

End UsersService.

(** ** index.ts *)

Module Index.

(** [checkServices]: [Promise.all] starts both calls of [checkNow], so
    both pings are issued before either answer arrives; [first] and
    [second] are the answers in the order in which they arrive. *)
Definition checkServices (first second : bool) (u : Upstream.t) : bool * Upstream.t :=
  let u1 := Upstream.issue GET_ping u in
  let u2 := Upstream.issue GET_ping u1 in
  let u3 := Upstream.mk (UserSvcPing.settle first (Upstream.probe u2))
                        (Upstream.requests u2) in
  let u4 := Upstream.mk (UserSvcPing.settle second (Upstream.probe u3))
                        (Upstream.requests u3) in
  (UserSvcPing.isAlive (Upstream.probe u4) && UserSvcPing.isAlive (Upstream.probe u4), u4).

(** A single check, in the specification's words: each upstream is
    checked once, by one [checkNow] followed by one read of [isAlive]. *)
Definition checkOnce (answer : bool) (u : Upstream.t) : bool * Upstream.t :=
  let '(_, u1) := Upstream.checkNow answer u in
  (UserSvcPing.isAlive (Upstream.probe u1), u1).

End Index.

(** ** A small server state used for concrete runs

    Alice (user 42) is logged in on connection 0, sits in channel 0 and
    hosts room 1 (store reference 0), whose password is "secret"; Bob
    (user 43) is logged in on connection 1 and is in the lobby of
    channel 0; connection 2 has just been accepted. *)

Module Scenario.

Definition alice : User.t := User.mk 42 "alice" "Alice".
Definition bob : User.t := User.mk 43 "bob" "Bob".

Definition openSocket : NetSocket.t := NetSocket.mk false [] true.

Definition aliceConn : ExtendedSocket.t :=
  ExtendedSocket.set_session
    (Some (UserSession.mk alice (Some 0%nat) (Some 0%nat)))
    (ExtendedSocket.from openSocket false).

Definition bobConn : ExtendedSocket.t :=
  ExtendedSocket.set_session
    (Some (UserSession.mk bob (Some 0%nat) None))
    (ExtendedSocket.from openSocket false).

Definition newConn : ExtendedSocket.t := ExtendedSocket.from openSocket false.

Definition sockets : gmap ConnRef ExtendedSocket.t :=
  {[ 0%nat := aliceConn; 1%nat := bobConn; 2%nat := newConn ]}.

Definition settings : RoomSettings.t :=
  RoomSettings.mk "r1" "secret" 1 5 30 3 false.

Definition room (status : RoomStatus) : Room.t :=
  Room.mk 1 (RoomUser.mk 42 0%nat NotReady Terrorist)
    [RoomUser.mk 42 0%nat NotReady Terrorist] 16 status 0 settings.

Definition world (status : RoomStatus) : World.t :=
  World.mk sockets [0%nat; 1%nat] {[ 0%nat := room status ]}
    {[ 0%nat := Channel.mk [0%nat] [1%nat] ]}.

End Scenario.

(** ** What a run of sends puts on the wire *)

Module Wire.
Import ExtendedSocket.

(** The payload an operation writes when its frame is stamped with [b]:
    [sendBuffer] writes [b] into the caller's buffer at offset 1. *)
Definition stamp (o : op) (b : Z) : Payload :=
  match o with
  | Send p => Packet p
  | SendBuffer buff => Raw (<[1%nat:=b]> buff)
  end.

(** The frames of a run that starts with the counter at [z]. *)
Fixpoint frames (z : Z) (ops : list op) : list Frame :=
  match ops with
  | [] => []
  | o :: rest =>
      mkFrame (z mod 256) (stamp o (z mod 256)) :: frames (z mod 256 + 1) rest
  end.

Definition isSend (o : op) : bool :=
  match o with
  | Send _ => true
  | SendBuffer _ => false
  end.

Definition isPacket (f : Frame) : bool :=
  match payload f with
  | Packet _ => true
  | Raw _ => false
  end.

(** The dump files of a run: only [send] dumps, and it numbers the files
    with the real counter, which does not wrap. *)
Fixpoint dumps (r : Z) (z : Z) (ops : list op) : list (number * Frame) :=
  match ops with
  | [] => []
  | o :: rest =>
      if isSend o
      then (Num r, mkFrame (z mod 256) (stamp o (z mod 256)))
           :: dumps (r + 1) (z mod 256 + 1) rest
      else dumps r (z mod 256 + 1) rest
  end.

End Wire.

(** ** user/usermanager.ts, continued *)

Module UserManagerMore.
Import World UserManager.

(** The sends of a successful login, in program order. *)
Definition loginOps (user : User.t) (holepunchPort : Z) (up : Answers.t)
    : list ExtendedSocket.op :=
  [ExtendedSocket.Send
     (OutUserStartPacket (User.id user) (User.username user)
        (User.playername user) holepunchPort);
   ExtendedSocket.SendBuffer achievementReplyTest;
   ExtendedSocket.Send (OutUserInfoPacket_fullUserUpdate user)]
  ++ match Answers.getInventory up, Answers.getCosmetics up,
           Answers.getAllLoadouts up, Answers.getBuyMenu up with
     | Some inventory, Some cosmetics, Some loadouts, Some buyMenu =>
         [ExtendedSocket.Send (OutInventoryPacket_createInventory inventory);
          ExtendedSocket.SendBuffer unlockReply;
          ExtendedSocket.Send (OutFavoritePacket_setCosmetics cosmetics);
          ExtendedSocket.Send (OutFavoritePacket_setLoadout loadouts);
          ExtendedSocket.Send (OutOptionPacket_setBuyMenu buyMenu)]
     | _, _, _, _ => []
     end
  ++ [ExtendedSocket.Send OutChannelList].

(** Sends to one connection, as a run on the connection object. *)
Definition runOn (c : ConnRef) (ops : list ExtendedSocket.op) (w : World.t)
    : outcome World.t :=
  s ← ExtendedSocket.run ops (conn w c); Return (set_conn c s w).

(** The conditions under which a host request goes through: the
    requester has a session, sits in a room, hosts that room, and the
    target user id resolves to a registered connection with a session. *)
Definition Authorized (userId : Z) (userConn : ConnRef) (w : World.t) : Prop :=
  ∃ requesterSession currentRoom targetConn targetSession,
    ExtendedSocket.session (conn w userConn) = Some requesterSession
    ∧ UserSession.currentRoom requesterSession = Some currentRoom
    ∧ RoomUser.userId (Room.host (room w currentRoom))
      = User.id (UserSession.user requesterSession)
    ∧ ActiveConnections.FindByOwnerId (sockets w) (connections w) userId
      = Return (Some targetConn)
    ∧ ExtendedSocket.session (conn w targetConn) = Some targetSession.

(** [onHostSetUserInventory] with the fetch written out:
    [sendUserInventoryTo] asks [UserInventory.getInventory] for the
    inventory of its first argument, the requester's user id. *)
Definition sendUserInventoryToFrom (getInventory : Z -> option (list Z))
    (hostUserId : Z) (hostConn : ConnRef) (targetUserId : Z) (w : World.t)
    : outcome World.t :=
  sendUserInventoryTo (getInventory hostUserId) hostConn targetUserId w.

Definition onHostSetUserInventoryFrom (getInventory : Z -> option (list Z))
    (userId : Z) (userConn : ConnRef) (w : World.t) : outcome (bool * World.t) :=
  targetConn ← ActiveConnections.FindByOwnerId (sockets w) (connections w) userId;
  let requesterSession := ExtendedSocket.session (conn w userConn) in
  targetSession ← sessionOf w targetConn;
  match requesterSession with
  | None => Return (false, w)
  | Some requesterSession =>
      if negb (UserSession.isInRoom requesterSession) then Return (false, w)
      else
        match targetSession with
        | None => Return (false, w)
        | Some targetSession =>
            match UserSession.currentRoom requesterSession with
            | None => Return (false, w)
            | Some currentRoom =>
                if bool_decide (RoomUser.userId (Room.host (room w currentRoom))
                                ≠ User.id (UserSession.user requesterSession))
                then Return (false, w)
                else
                  w1 ← sendUserInventoryToFrom getInventory
                         (User.id (UserSession.user requesterSession)) userConn
                         (User.id (UserSession.user targetSession)) w;
                  Return (true, w1)
            end
        end
  end.

(** Option and Favorite packets, parsed. *)
Inductive InOptionPacket :=
| Option_SetBuyMenu (buyMenu : list Z)
| Option_other (packetType : Z).

Inductive InFavoritePacket :=
| Favorite_SetLoadout (loadout weaponSlot itemId : Z)
| Favorite_SetCosmetics (slot itemId : Z)
| Favorite_other (packetType : Z).

(** The calls to the user service a handler makes through
    [UserInventory]. *)
Inductive InventoryCall :=
| setBuyMenu (userId : Z) (buyMenu : list Z)
| setLoadoutWeapon (userId loadout weaponSlot itemId : Z)
| setCosmeticSlot (userId slot itemId : Z).

Definition onOptionSetBuyMenu (buyMenu : list Z) (c : ConnRef) (w : World.t)
    : bool * list InventoryCall :=
  match ExtendedSocket.session (conn w c) with
  | None => (false, [])
  | Some session => (true, [setBuyMenu (User.id (UserSession.user session)) buyMenu])
  end.

Definition onOptionPacket (optPacket : InOptionPacket) (c : ConnRef) (w : World.t)
    : bool * list InventoryCall :=
  match ExtendedSocket.session (conn w c) with
  | None => (false, [])
  | Some _ =>
      match optPacket with
      | Option_SetBuyMenu buyMenu => onOptionSetBuyMenu buyMenu c w
      | Option_other _ => (false, [])
      end
  end.

Definition onFavoriteSetLoadout (loadout weaponSlot itemId : Z) (c : ConnRef)
    (w : World.t) : bool * list InventoryCall :=
  match ExtendedSocket.session (conn w c) with
  | None => (false, [])
  | Some session =>
      (true, [setLoadoutWeapon (User.id (UserSession.user session))
                loadout weaponSlot itemId])
  end.

Definition onFavoriteSetCosmetics (slot itemId : Z) (c : ConnRef) (w : World.t)
    : bool * list InventoryCall :=
  match ExtendedSocket.session (conn w c) with
  | None => (false, [])
  | Some session =>
      (true, [setCosmeticSlot (User.id (UserSession.user session)) slot itemId])
  end.

Definition onFavoritePacket (favPacket : InFavoritePacket) (c : ConnRef)
    (w : World.t) : bool * list InventoryCall :=
  match ExtendedSocket.session (conn w c) with
  | None => (false, [])
  | Some _ =>
      match favPacket with
      | Favorite_SetLoadout loadout weaponSlot itemId =>
          onFavoriteSetLoadout loadout weaponSlot itemId c w
      | Favorite_SetCosmetics slot itemId => onFavoriteSetCosmetics slot itemId c w
      | Favorite_other _ => (false, [])
      end
  end.

(** The scenario's state once the counter of the accepted connection 2
    has been reset. *)
Definition loginWorld : World.t :=
  set_conn 2%nat (ExtendedSocket.resetReq Scenario.newConn) (Scenario.world Waiting).

Definition callUser (call : InventoryCall) : Z :=
  match call with
  | setBuyMenu userId _ => userId
  | setLoadoutWeapon userId _ _ _ => userId
  | setCosmeticSlot userId _ _ => userId
  end.

End UserManagerMore.

(** ** handlers/roomhandler.ts, the other requests

    The handlers call methods of [Room], [Channel] and [ChannelManager]
    whose code is not among the sources.  Those methods are the fields of
    [RoomApi]; the handlers are functions of any implementation. *)

Module RoomHandlerMore.
Import World RoomHandler.

Module InRoomNewRequest.
Record t := mk {
  gameModeId : Z;
  killLimit : Z;
  mapId : Z;
  roomName : string;
  roomPassword : string;
  winLimit : Z
}.
End InRoomNewRequest.

Record RoomApi := mkApi {
  removeUser : RoomRef -> Z -> World.t -> outcome World.t;
  createRoom : ChannelRef -> Z -> ConnRef -> InRoomNewRequest.t -> World.t
               -> outcome (RoomRef * World.t);
  hostGameStart : RoomRef -> World.t -> outcome World.t;
  guestGameJoin : RoomRef -> Z -> World.t -> outcome World.t;
  isUserReady : World.t -> RoomRef -> Z -> bool;
  toggleUserReadyStatus : RoomRef -> Z -> World.t
                          -> outcome (option RoomReadyStatus * World.t);
  broadcastNewUserReadyStatus : RoomRef -> Z -> World.t -> outcome World.t;
  updateUserTeam : RoomRef -> Z -> Z -> World.t -> outcome World.t;
  canStartGame : World.t -> RoomRef -> bool;
  progressCountdown : RoomRef -> Z -> World.t -> outcome World.t;
  stopCountdown : RoomRef -> World.t -> outcome World.t;
  broadcastCountdown : RoomRef -> bool -> World.t -> outcome World.t;
  sendRoomListTo : ConnRef -> option ChannelRef -> World.t -> outcome World.t
}.

Inductive InRoomPacket :=
| NewRoomRequest (req : InRoomNewRequest.t)
| JoinRoomRequest (req : InRoomJoinRequest.t)
| GameStartRequest
| LeaveRoomRequest
| ToggleReadyRequest
| UpdateSettings (req : InRoomUpdateSettings.t)
| OnCloseResultWindow
| SetUserTeamRequest (newTeam : Z)
| GameStartCountdownRequest (shouldCountdown : bool) (count : Z)
| OtherRoomRequest (packetType : Z).

Definition SendUserSystemMsg (userConn : ConnRef) (msg : GameString) (w : World.t)
    : outcome World.t :=
  send userConn (OutChatPacket_systemMessage msg System) w.

(** [session.currentRoom = r] on the session object of connection [c]. *)
Definition assignCurrentRoom (c : ConnRef) (r : option RoomRef) (w : World.t)
    : World.t :=
  match ExtendedSocket.session (conn w c) with
  | Some session => set_currentRoom c session r w
  | None => w
  end.

(** The session object the handler holds, as it is after calls into
    the room: the user is fixed at login, the other fields are read from
    the store again. *)
Definition sessionNow (session : UserSession.t) (c : ConnRef) (w : World.t)
    : UserSession.t :=
  default session (ExtendedSocket.session (conn w c)).

Section Handlers.
Variable api : RoomApi.

Definition onNewRoomRequest (newRoomReq : InRoomNewRequest.t)
    (sourceConn : ConnRef) (w : World.t) : outcome (bool * World.t) :=
  match ExtendedSocket.session (conn w sourceConn) with
  | None => Throw TypeError              (* session.currentRoom *)
  | Some session =>
      let userId := User.id (UserSession.user session) in
      w1 ← match UserSession.currentRoom session with
           | Some curRoom =>
               w' ← removeUser api curRoom userId w;
               Return (assignCurrentRoom sourceConn None w')
           | None => Return w
           end;
      match UserSession.currentChannel (sessionNow session sourceConn w1) with
      | None => Return (false, w1)
      | Some channel =>
          '(newRoom, w2) ← createRoom api channel userId sourceConn newRoomReq w1;
          let w3 := assignCurrentRoom sourceConn (Some newRoom) w2 in
          w4 ← sendJoinNewRoom newRoom userId w3;
          w5 ← sendRoomSettingsTo newRoom userId w4;
          Return (true, w5)
      end
  end.

Definition onGameStartRequest (sourceConn : ConnRef) (w : World.t)
    : outcome (bool * World.t) :=
  match ExtendedSocket.session (conn w sourceConn) with
  | None => Throw TypeError
  | Some session =>
      match UserSession.currentRoom session with
      | None => Return (false, w)
      | Some currentRoom =>
          let userId := User.id (UserSession.user session) in
          if bool_decide (userId = RoomUser.userId (Room.host (room w currentRoom)))
          then w1 ← hostGameStart api currentRoom w; Return (true, w1)
          else if bool_decide (Room.getStatus (room w currentRoom) = Ingame)
          then w1 ← guestGameJoin api currentRoom userId w; Return (true, w1)
          else Return (false, w)
      end
  end.

Definition onLeaveRoomRequest (sourceConn : ConnRef) (w : World.t)
    : outcome (bool * World.t) :=
  match ExtendedSocket.session (conn w sourceConn) with
  | None => Throw TypeError
  | Some session =>
      match UserSession.currentRoom session with
      | None => Return (false, w)
      | Some currentRoom =>
          let userId := User.id (UserSession.user session) in
          if isUserReady api w currentRoom userId
             && Room.isGlobalCountdownInProgress (room w currentRoom)
          then Return (false, w)
          else
            w1 ← removeUser api currentRoom userId w;
            let w2 := assignCurrentRoom sourceConn None w1 in
            w3 ← sendRoomListTo api sourceConn
                   (UserSession.currentChannel (sessionNow session sourceConn w2))
                   w2;
            Return (true, w3)
      end
  end.

Definition onToggleReadyRequest (sourceConn : ConnRef) (w : World.t)
    : outcome (bool * World.t) :=
  match ExtendedSocket.session (conn w sourceConn) with
  | None => Throw TypeError
  | Some session =>
      match UserSession.currentRoom session with
      | None => Return (false, w)
      | Some currentRoom =>
          let userId := User.id (UserSession.user session) in
          '(readyStatus, w1) ← toggleUserReadyStatus api currentRoom userId w;
          match readyStatus with
          | None => Return (false, w1)
          | Some _ =>
              w2 ← broadcastNewUserReadyStatus api currentRoom userId w1;
              Return (true, w2)
          end
      end
  end.

Definition onCloseResultRequest (sourceConn : ConnRef) (w : World.t)
    : outcome (bool * World.t) :=
  w1 ← send sourceConn OutHostPacket_leaveResultWindow w;
  match ExtendedSocket.session (conn w1 sourceConn) with
  | None => Throw TypeError              (* sourceConn.session.user.id *)
  | Some _ => Return (true, w1)
  end.

Definition onSetTeamRequest (newTeam : Z) (sourceConn : ConnRef) (w : World.t)
    : outcome (bool * World.t) :=
  match ExtendedSocket.session (conn w sourceConn) with
  | None => Throw TypeError
  | Some session =>
      match UserSession.currentRoom session with
      | None => Return (false, w)
      | Some currentRoom =>
          let userId := User.id (UserSession.user session) in
          if isUserReady api w currentRoom userId then
            w1 ← SendUserSystemMsg sourceConn GAME_ROOM_CHANGETEAM_FAILED w;
            Return (false, w1)
          else if RoomSettings.areBotsEnabled (Room.settings (room w currentRoom))
                  && bool_decide (userId
                                  ≠ RoomUser.userId (Room.host (room w currentRoom)))
          then Return (false, w)
          else
            w1 ← updateUserTeam api currentRoom userId newTeam w;
            Return (true, w1)
      end
  end.

Definition onGameStartToggleRequest (shouldCountdown : bool) (count : Z)
    (sourceConn : ConnRef) (w : World.t) : outcome (bool * World.t) :=
  match ExtendedSocket.session (conn w sourceConn) with
  | None => Throw TypeError
  | Some session =>
      match UserSession.currentRoom session with
      | None => Return (false, w)
      | Some currentRoom =>
          let userId := User.id (UserSession.user session) in
          if bool_decide (userId ≠ RoomUser.userId (Room.host (room w currentRoom)))
          then Return (false, w)
          else if negb (canStartGame api w currentRoom) then
            w1 ← SendUserSystemMsg sourceConn GAME_ROOM_COUNTDOWN_FAILED_NOENEMIES w;
            Return (false, w1)
          else
            w1 ← (if shouldCountdown then progressCountdown api currentRoom count w
                  else stopCountdown api currentRoom w);
            w2 ← broadcastCountdown api currentRoom shouldCountdown w1;
            Return (true, w2)
      end
  end.

Definition onRoomRequest (roomPacket : InRoomPacket) (sourceConn : ConnRef)
    (w : World.t) : outcome (bool * World.t) :=
  match ExtendedSocket.session (conn w sourceConn) with
  | None => Return (false, w)
  | Some _ =>
      match roomPacket with
      | NewRoomRequest req => onNewRoomRequest req sourceConn w
      | JoinRoomRequest req => onJoinRoomRequest req sourceConn w
      | GameStartRequest => onGameStartRequest sourceConn w
      | LeaveRoomRequest => onLeaveRoomRequest sourceConn w
      | ToggleReadyRequest => onToggleReadyRequest sourceConn w
      | UpdateSettings req => onRoomUpdateSettings req sourceConn w
      | OnCloseResultWindow => onCloseResultRequest sourceConn w
      | SetUserTeamRequest newTeam => onSetTeamRequest newTeam sourceConn w
      | GameStartCountdownRequest shouldCountdown count =>
          onGameStartToggleRequest shouldCountdown count sourceConn w
      | OtherRoomRequest _ => Return (true, w)
      end
  end.

End Handlers.

(** A handler result that refuses the request behind [c] with a system
    chat message: as [World.Denied], with the message type [System]. *)
Definition Refused (msg : GameString) (c : ConnRef) (w : World.t)
    (result : outcome (bool * World.t)) : Prop :=
  ∃ w', result = Return (false, w')
    ∧ ExtendedSocket.session (conn w' c) = ExtendedSocket.session (conn w c)
    ∧ connections w' = connections w
    ∧ rooms w' = rooms w
    ∧ channels w' = channels w
    ∧ (∀ c', c' ≠ c -> sockets w' !! c' = sockets w !! c')
    ∧ ExtendedSocket.payloads (conn w' c)
      = ExtendedSocket.payloads (conn w c)
        ++ (if NetSocket.destroyed (ExtendedSocket.socket (conn w c)) then []
            else [Packet (OutChatPacket_systemMessage msg System)]).

(** An implementation for concrete runs: every method succeeds and
    leaves the state alone; nobody is ready and no game can start. *)
Definition idleApi : RoomApi :=
  mkApi (fun _ _ w => Return w) (fun _ _ _ _ w => Return (0%nat, w))
        (fun _ w => Return w) (fun _ _ w => Return w) (fun _ _ _ => false)
        (fun _ _ w => Return (None, w)) (fun _ _ w => Return w)
        (fun _ _ _ w => Return w) (fun _ _ => false)
        (fun _ _ w => Return w) (fun _ w => Return w) (fun _ _ w => Return w)
        (fun _ _ w => Return w).

(** The same, with every occupant ready. *)
Definition readyApi : RoomApi :=
  mkApi (fun _ _ w => Return w) (fun _ _ _ _ w => Return (0%nat, w))
        (fun _ w => Return w) (fun _ _ w => Return w) (fun _ _ _ => true)
        (fun _ _ w => Return (None, w)) (fun _ _ w => Return w)
        (fun _ _ _ w => Return w) (fun _ _ => false)
        (fun _ _ w => Return w) (fun _ w => Return w) (fun _ _ w => Return w)
        (fun _ _ w => Return w).

End RoomHandlerMore.

(** The scenario with Bob (connection 1) as a second occupant of Alice's
    room. *)
Module RoomScenario.

Definition bobInRoom : ExtendedSocket.t :=
  ExtendedSocket.set_session
    (Some (UserSession.mk Scenario.bob (Some 0%nat) (Some 0%nat)))
    Scenario.bobConn.

Definition room : Room.t :=
  Room.addUser 43 1%nat (Scenario.room Waiting).

Definition world : World.t :=
  World.set_room 0%nat room
    (World.set_conn 1%nat bobInRoom (Scenario.world Waiting)).

End RoomScenario.

(** ** packets/out/packet.ts

    [OutPacketBase] at the level of bytes.  Two constants come from
    files that are not among the sources, [PacketSignature]
    (packets/definitions) and [PacketBaseShared.headerLength]; they are
    parameters.  [writeLongString] needs PacketLongString, which is not
    among the sources either, and is left out. *)

Module OutPacket.

(** The bytes of [v] modulo [256^n], least significant first: what
    [writeUIntLE]/[writeIntLE] store (two's complement for a negative
    [v]). *)
Fixpoint bytesLE (n : nat) (v : Z) : list Z :=
  match n with
  | O => []
  | S n' => v mod 256 :: bytesLE n' (v / 256)
  end.

(** The number a little-endian byte sequence stands for. *)
Fixpoint valueLE (bytes : list Z) : Z :=
  match bytes with
  | [] => 0
  | b :: rest => b + 256 * valueLE rest
  end.

(** Reading [u], an unsigned [n]-byte value, as a signed one. *)
Definition signedOf (n : nat) (u : Z) : Z :=
  if bool_decide (u < 256 ^ Z.of_nat n / 2) then u else u - 256 ^ Z.of_nat n.

Record t := mk {
  sequence : option Z;
  id : Z;
  outStream : option (list Z);
  builtBuffer : option (list Z)
}.

(** The constructor sets [sequence] to null and [id]; the stream is
    created by the subclass. *)
Definition new (id : Z) : t := mk None id None None.

Definition withStream (p : t) (stream : list Z) : t :=
  mk (sequence p) (id p) (Some stream) (builtBuffer p).

(** [this.outStream.write(buf)] *)
Definition write (buf : list Z) (p : t) : outcome t :=
  match outStream p with
  | None => Throw TypeError
  | Some stream => Return (withStream p (stream ++ buf))
  end.

(** [Buffer.alloc(n)] followed by one of the [write(U)Int] methods of
    Buffer, which check the value against the range of the type, and by
    [outStream.write]. *)
Definition putInt (n : nat) (min max : Z) (val : Z) (littleEndian : bool)
    (p : t) : outcome t :=
  if bool_decide (val < min ∨ max < val) then Throw RangeError
  else write (if littleEndian then bytesLE n val else rev (bytesLE n val)) p.

Definition writeInt8 (val : Z) : t -> outcome t :=
  putInt 1 (-128) 127 val true.

Definition writeInt16 (val : Z) (littleEndian : bool) : t -> outcome t :=
  putInt 2 (-32768) 32767 val littleEndian.

Definition writeInt32 (val : Z) (littleEndian : bool) : t -> outcome t :=
  putInt 4 (-2147483648) 2147483647 val littleEndian.

Definition writeUInt8 (val : Z) : t -> outcome t :=
  putInt 1 0 255 val true.

Definition writeUInt16 (val : Z) (littleEndian : bool) : t -> outcome t :=
  putInt 2 0 65535 val littleEndian.

Definition writeUInt32 (val : Z) (littleEndian : bool) : t -> outcome t :=
  putInt 4 0 4294967295 val littleEndian.

(** [val] is an Int64LE, Int64BE, Uint64LE or Uint64BE object, given by
    the eight bytes [val.toBuffer()] returns; both branches of the
    method make the same call. *)
Definition writeInt64 (val : list Z) (littleEndian : bool) (p : t) : outcome t :=
  if littleEndian then write val p else write val p.

Definition writeUInt64 (val : list Z) (littleEndian : bool) (p : t) : outcome t :=
  if littleEndian then write val p else write val p.

Definition writeString (str : list Z) (p : t) : outcome t :=
  serializedStr ← PacketString.new str 0;
  buf ← PacketString.toBuffer serializedStr;
  write buf p.

(** [buf.writeUInt16LE(value, offset)] on an existing buffer. *)
Definition writeUInt16LE (value : Z) (offset : nat) (buf : list Z)
    : outcome (list Z) :=
  if bool_decide (value < 0 ∨ 65535 < value) then Throw RangeError
  else if bool_decide (length buf < offset + 2)%nat then Throw RangeError
  else Return (<[S offset:=value / 256]> (<[offset:=value mod 256]> buf)).

(** What it is for [writer] to be the writer of an integer type of [n]
    bytes with the range [min..max]: a value in the range is appended to
    the stream as [n] bytes, in the byte order asked for, that read back
    as the value ([signedOf] for a signed type); a value outside the
    range throws a RangeError. *)
Definition WritesInt (signed : bool) (n : nat) (min max : Z)
    (writer : Z -> bool -> t -> outcome t) : Prop :=
  ∀ (val : Z) (littleEndian : bool) (p : t) (stream : list Z),
    outStream p = Some stream ->
    (min ≤ val ≤ max ->
     ∃ bytes,
       writer val littleEndian p = Return (withStream p (stream ++ bytes))
       ∧ length bytes = n
       ∧ Forall (fun b => 0 ≤ b ≤ 255) bytes
       ∧ (let u := valueLE (if littleEndian then bytes else rev bytes) in
          if signed then signedOf n u else u) = val)
    ∧ (val < min ∨ max < val -> writer val littleEndian p = Throw RangeError).

Section Constants.
Variable PacketSignature : Z.
Variable headerLength : Z.

Definition buildHeader (p : t) : outcome t :=
  p1 ← writeUInt8 PacketSignature p;
  p2 ← writeUInt8 (default 0 (sequence p1)) p1;
  p3 ← writeUInt16 0 true p2;
  writeUInt8 (id p3) p3.

(** [getData]: the first call takes the contents out of the stream
    ([getContents] answers false for an empty stream, and the length
    cannot be written into false), writes the length and keeps the
    buffer; later calls return the kept buffer. *)
Definition getData (p : t) : outcome (list Z * t) :=
  match builtBuffer p with
  | Some built => Return (built, p)
  | None =>
      match outStream p with
      | None => Throw TypeError
      | Some [] => Throw TypeError
      | Some contents =>
          let dataLen := Z.of_nat (length contents) - headerLength in
          built ← writeUInt16LE dataLen 2 contents;
          Return (built, mk (sequence p) (id p) (Some []) (Some built))
      end
  end.

(** The first two lines of [ExtendedSocket.send] on the bytes:
    [packet.getData()] and [data.writeUInt8(seq, 1)], which writes into
    the packet's kept buffer. *)
Definition stampSequence (seq : Z) (p : t) : outcome (list Z * t) :=
  '(data, p1) ← getData p;
  if bool_decide (seq < 0 ∨ 255 < seq) then Throw RangeError
  else if bool_decide (length data < 2)%nat then Throw RangeError
  else
    let data' := <[1%nat:=seq]> data in
    Return (data', mk (sequence p1) (id p1) (outStream p1) (Some data')).

End Constants.

End OutPacket.

(** ** packetlogger.ts *)

Module PacketLogger.

(** [n.toString()] of an integer: its decimal digits, with a minus sign
    for a negative one (what JavaScript prints for the integers a
    counter holds, which are below 10^21). *)
Definition toString (n : Z) : string := NilEmpty.string_of_int (Z.to_int n).

(** [padNumber]: [n > 9 ? '' + n.toString() : '0' + n.toString()].
    [undefined] is not greater than 9 and has no [toString]. *)
Definition padNumber (n : number) : outcome string :=
  match n with
  | Undefined => Throw TypeError
  | NaN => Return ("0" +:+ "NaN")
  | Num z => Return (if gt n 9 then "" +:+ toString z else "0" +:+ toString z)
  end.

Record t := mk {
  inPath : string;
  outPath : string
}.

(** A string-typed value inside a template literal. *)
Definition template (v : option string) : string := default "undefined" v.

(** The directory the logger writes to is a map from file path to file
    content, [gmap string Frame]: [writeFileSync] with flag [w] replaces
    a file that exists. *)

Definition packetPath (dir : string) (connUuid : option string)
    (name : string) (packetId : Z) : string :=
  dir +:+ template connUuid +:+ "_" +:+ name +:+ "-" +:+ toString packetId +:+ ".bin".

Definition dumpIn (l : t) (connUuid : option string) (seq : number)
    (packetId : Z) (packetData : Frame) (fs : gmap string Frame)
    : outcome (gmap string Frame) :=
  name ← padNumber seq;
  Return (<[packetPath (inPath l) connUuid name packetId := packetData]> fs).

Definition dumpOut (l : t) (connUuid : option string) (seq : number)
    (packetId : Z) (packetData : Frame) (fs : gmap string Frame)
    : outcome (gmap string Frame) :=
  name ← padNumber seq;
  Return (<[packetPath (outPath l) connUuid name packetId := packetData]> fs).

(** The arguments of one call of [dumpOut] by [ExtendedSocket.send], and
    the calls of one connection in the order in which they are made. *)
Record Dump := mkDump {
  seq : number;
  packetId : Z;
  packetData : Frame
}.

Fixpoint dumpOutAll (l : t) (connUuid : option string) (calls : list Dump)
    (fs : gmap string Frame) : outcome (gmap string Frame) :=
  match calls with
  | [] => Return fs
  | c :: rest =>
      fs' ← dumpOut l connUuid (seq c) (packetId c) (packetData c) fs;
      dumpOutAll l connUuid rest fs'
  end.

(** No character of the string is the separator [-]. *)
Fixpoint noDash (s : string) : bool :=
  match s with
  | EmptyString => true
  | String c s' => negb (Ascii.eqb c "-"%char) && noDash s'
  end.

End PacketLogger.

(** ** website: services/usersservice.ts, continued *)

Module UsersServiceMore.
Import UsersService.

(** The requests of the service besides [GET_ping] and [GET_users]. *)
Inductive OtherRequest :=
| GET_users_byname (userName : string)
| PUT_users (userId : Z) (password : string)
| DELETE_users (userId : Z).

(** What the user service does with a request whose body is not read. *)
Inductive Status :=
| Answered (status : Z)
| Failed.

(** The status the promise resolves with; a status outside 200..299 is a
    rejection, as in [settled]. *)
Definition settledStatus (answer : Status) : option Z :=
  match answer with
  | Answered status => if ok status then Some status else None
  | Failed => None
  end.

(** The cache and the probe, with the log of the other requests. *)
Record Site := mkSite {
  env : Env;
  others : list OtherRequest
}.

(** [getByName(userName)]: no cache lookup; the answer is stored under
    [result.id]. *)
Definition getByName (userName : string) (answer : Response) (time' : Z)
    (ping : bool) (s : Site) : outcome (option User.t) * Site :=
  if negb (UserSvcPing.isAlive (Upstream.probe (upstream (env s))))
  then (Return None, s)
  else
    let sent := others s ++ [GET_users_byname userName] in
    match settled answer with
    | None =>
        let '(_, up) := Upstream.checkNow ping (upstream (env s)) in
        (Throw (Error "request failed"),
         mkSite (mkEnv (userCache (env s)) up) sent)
    | Some (status, result) =>
        if bool_decide (status ≠ 200) then (Return None, mkSite (env s) sent)
        else (Return (Some result),
              mkSite (mkEnv (LRU.set time' (User.id result) result
                               (userCache (env s)))
                            (upstream (env s))) sent)
    end.

(** [updatePassword(userId, newPassword)] *)
Definition updatePassword (userId : Z) (newPassword : string)
    (answer : Status) (ping : bool) (s : Site) : outcome bool * Site :=
  let sent := others s ++ [PUT_users userId newPassword] in
  match settledStatus answer with
  | None =>
      let '(_, up) := Upstream.checkNow ping (upstream (env s)) in
      (Throw (Error "request failed"),
       mkSite (mkEnv (userCache (env s)) up) sent)
  | Some status =>
      (Return (bool_decide (status = 200)), mkSite (env s) sent)
  end.

(** [delete(userId)] *)
Definition delete (userId : Z) (answer : Status) (ping : bool) (s : Site)
    : outcome bool * Site :=
  let sent := others s ++ [DELETE_users userId] in
  match settledStatus answer with
  | None =>
      let '(_, up) := Upstream.checkNow ping (upstream (env s)) in
      (Throw (Error "request failed"),
       mkSite (mkEnv (userCache (env s)) up) sent)
  | Some status =>
      (Return (bool_decide (status = 200)), mkSite (env s) sent)
  end.

(** The answer of a call of [get] resolves the promise with a status
    other than 200, that is, one of 201..299. *)
Definition OtherStatus (c : Call) : Prop :=
  ∃ status body,
    answer c = Resolved status body ∧ 200 ≤ status < 300 ∧ status ≠ 200.

End UsersServiceMore.

(** * Properties *)

(** ** Sequence bytes of outgoing frames *)

Module SocketFacts.
Import ExtendedSocket.

Lemma getNextSeq_counting z s :
  Counting z s ->
  getNextSeq s = (Num (z mod 256), set_seq (Num (z mod 256 + 1)) s).
Proof.
  intros (Hseq & Hz & _). unfold getNextSeq, gt, MAX_SEQUENCE in *.
  rewrite Hseq. simpl. case_bool_decide.
  - assert (z = 256) as -> by lia. reflexivity.
  - simpl. rewrite Hseq. simpl. rewrite Z.mod_small by lia. reflexivity.
Qed.

Lemma toUInt8_byte z : toUInt8 (Num (z mod 256)) = Return (z mod 256).
Proof.
  unfold toUInt8. simpl.
  pose proof (Z.mod_pos_bound z 256 ltac:(lia)).
  repeat case_bool_decide; simpl; try lia; reflexivity.
Qed.

Lemma step_counting o z s :
  Counting z s -> Sendable o ->
  ∃ s', step o s = Return s'
        ∧ Counting (z mod 256 + 1) s'
        ∧ sequences s' = sequences s ++ [z mod 256].
Proof.
  intros Hc Hs. pose proof Hc as (Hseq & Hz & Hd).
  pose proof (Z.mod_pos_bound z 256 ltac:(lia)) as Hm.
  destruct o as [p | buff]; simpl.
  - unfold send. rewrite Hd, (getNextSeq_counting z s Hc), toUInt8_byte. simpl.
    destruct (packetDumper s); simpl.
    + unfold getRealOutSeq. destruct (postIncrement _) as [cur next]. simpl.
      eexists; split; [reflexivity|]. unfold Counting, sequences, MAX_SEQUENCE; simpl.
      rewrite map_app. repeat split; try lia; done.
    + eexists; split; [reflexivity|]. unfold Counting, sequences, MAX_SEQUENCE; simpl.
      rewrite map_app. repeat split; try lia; done.
  - unfold sendBuffer. rewrite Hd, (getNextSeq_counting z s Hc), toUInt8_byte. simpl.
    simpl in Hs. rewrite bool_decide_eq_false_2 by lia. simpl.
    eexists; split; [reflexivity|]. unfold Counting, sequences, MAX_SEQUENCE; simpl.
    rewrite map_app. repeat split; try lia; done.
Qed.

(** On a connection whose counter has been set ([resetReq]), every run
    of sends stamps the contiguous series modulo 256. *)
Lemma run_counting ops : ∀ z s,
  Counting z s -> Forall Sendable ops ->
  ∃ s', run ops s = Return s'
        ∧ sequences s' = sequences s ++ series z (length ops).
Proof.
  induction ops as [|o ops IH]; intros z s Hc Hall; simpl.
  - exists s. by rewrite app_nil_r.
  - inversion Hall as [|? ? Ho Hops]; subst.
    destruct (step_counting o z s Hc Ho) as (s1 & -> & Hc1 & Hs1). simpl.
    destruct (IH _ _ Hc1 Hops) as (s' & -> & Hs').
    exists s'. split; [done|]. rewrite Hs', Hs1, <- app_assoc. done.
Qed.

Lemma series_wraps : series 0 257 = seqZ 0 256 ++ [0].
Proof. vm_compute. reflexivity. Qed.

Lemma reset_then_257_frames sock dumper p :
  NetSocket.destroyed sock = false -> NetSocket.written sock = [] ->
  ∃ s', run (replicate 257 (Send p)) (resetReq (from sock dumper)) = Return s'
        ∧ sequences s' = seqZ 0 256 ++ [0].
Proof.
  intros Hd Hw.
  destruct (run_counting (replicate 257 (Send p)) 0 (resetReq (from sock dumper)))
    as (s' & Hrun & Hs).
  - unfold Counting, MAX_SEQUENCE. simpl. repeat split; try lia; done.
  - apply Forall_replicate. exact I.
  - exists s'. split; [exact Hrun|]. rewrite Hs. unfold sequences. simpl.
    rewrite Hw. apply series_wraps.
Qed.

Lemma step_unset p s :
  NotCounting s ->
  ∃ s', step (Send p) s = Return s' ∧ NotCounting s'
        ∧ sequences s' = sequences s ++ [0].
Proof.
  intros (Hseq & Hd). simpl. unfold send, getNextSeq. rewrite Hd.
  assert (gt (seq s) MAX_SEQUENCE = false) as -> by (by destruct Hseq as [-> | ->]).
  assert (postIncrement (seq s) = (NaN, NaN)) as -> by (by destruct Hseq as [-> | ->]).
  simpl. destruct (packetDumper s); simpl.
  - unfold getRealOutSeq. destruct (postIncrement _) as [cur next]. simpl.
    eexists; split; [reflexivity|].
    unfold NotCounting, sequences; simpl; rewrite map_app; auto.
  - eexists; split; [reflexivity|].
    unfold NotCounting, sequences; simpl; rewrite map_app; auto.
Qed.

Lemma run_unset p n : ∀ s,
  NotCounting s ->
  ∃ s', run (replicate n (Send p)) s = Return s'
        ∧ sequences s' = sequences s ++ replicate n 0.
Proof.
  induction n as [|n IH]; intros s Hu; simpl.
  - exists s. by rewrite app_nil_r.
  - destruct (step_unset p s Hu) as (s1 & Hstep & Hu1 & Hs1).
    simpl in Hstep. rewrite Hstep. simpl.
    destruct (IH s1 Hu1) as (s' & -> & Hs').
    exists s'. split; [done|]. rewrite Hs', Hs1, <- app_assoc. done.
Qed.

(** C1, evaluated on the code: a connection made by [from] on an open
    socket and sent 257 frames stamps the sequence byte 0 into every one
    of them, not 0, 1, ..., 255, 0. *)
Theorem fresh_connection_stamps_zero :
  ∃ s', run (replicate 257 (Send OutChannelList))
            (from (NetSocket.mk false [] true) false) = Return s'
        ∧ sequences s' = replicate 257 0
        ∧ sequences s' ≠ seqZ 0 256 ++ [0].
Proof.
  destruct (run_unset OutChannelList 257 (from (NetSocket.mk false [] true) false))
    as (s' & Hrun & Hs).
  - split; [left; reflexivity | reflexivity].
  - exists s'. split; [exact Hrun|]. rewrite Hs. split; [reflexivity|].
    vm_compute. discriminate.
Qed.

(** [send] on a connection whose counter is not negative: it returns,
    and apart from the counters it only appends the packet to what was
    written (nothing, on a destroyed socket). *)
Lemma send_stampable p s :
  Stampable s ->
  ∃ b s', send p s = Return (b, s')
    ∧ session s' = session s
    ∧ Stampable s'
    ∧ NetSocket.destroyed (socket s') = NetSocket.destroyed (socket s)
    ∧ payloads s' = payloads s
        ++ (if NetSocket.destroyed (socket s) then [] else [Packet p]).
Proof.
  intros Hs. unfold send. destruct (NetSocket.destroyed (socket s)) eqn:Hd.
  { exists false, s. rewrite Hd, app_nil_r. done. }
  assert (∃ b z, getNextSeq s = (b, set_seq z s) ∧ toUInt8 b = Return (match b with Num k => k | _ => 0 end)
                 ∧ ∀ k, z = Num k -> 0 ≤ k) as (b & z & -> & -> & Hz).
  { unfold getNextSeq, gt, MAX_SEQUENCE, resetReq. destruct (seq s) as [| |k] eqn:Hk; simpl.
    - rewrite Hk. simpl. exists NaN, NaN. done.
    - rewrite Hk. simpl. exists NaN, NaN. done.
    - specialize (Hs k Hk). case_bool_decide; simpl.
      + exists (Num 0), (Num 1). split; [done|]. split; [done|].
        intros ? [= <-]; lia.
      + rewrite Hk. simpl. exists (Num k), (Num (k + 1)).
        split; [done|]. split; [|intros ? [= <-]; lia].
        unfold toUInt8. simpl. repeat case_bool_decide; simpl; try lia; done. }
  simpl. destruct (packetDumper s); simpl.
  - unfold getRealOutSeq. destruct (postIncrement _) as [cur next]. simpl.
    do 2 eexists. split; [reflexivity|]. unfold Stampable, payloads. simpl.
    rewrite Hd, map_app. done.
  - do 2 eexists. split; [reflexivity|]. unfold Stampable, payloads. simpl.
    rewrite Hd, map_app. done.
Qed.

End SocketFacts.

(** ** The registry of active connections *)

Module RegistryFacts.
Import ActiveConnections.

Section Lookups.
Variable sockets : gmap ConnRef ExtendedSocket.t.



End Lookups.

Lemma indexOf_absent conn connections :
  conn ∉ connections -> indexOf conn connections = -1.
Proof.
  induction connections as [|c rest IH]; intros Hnot; simpl; [done|].
  apply not_elem_of_cons in Hnot as [Hne Hrest].
  rewrite bool_decide_eq_false_2 by congruence.
  rewrite (IH Hrest). done.
Qed.

Lemma splice_last {A : Type} (rest : list A) (last : A) :
  splice (-1) 1 (rest ++ [last]) = rest.
Proof.
  unfold splice. rewrite length_app. simpl.
  replace (Z.to_nat ((Z.of_nat (length rest + 1) + -1) `max` 0))
    with (length rest) by lia.
  replace (Z.to_nat _) with (length rest + 1)%nat by lia.
  rewrite take_app_length, drop_ge, app_nil_r; [done|].
  rewrite length_app. simpl. lia.
Qed.



(** C10: removing a connection that is not registered takes the most
    recently added connection out of the registry; the registry is left
    as it was only when it is empty. *)
Theorem Remove_absent_takes_last (conn : ConnRef) (connections : list ConnRef) :
  conn ∉ connections ->
  (∀ last rest, connections = Add last rest -> Remove conn connections = rest)
  ∧ (Remove conn connections = connections ↔ connections = []).
Proof.
  intros Hnot. unfold Remove. rewrite (indexOf_absent _ _ Hnot). split.
  - intros last rest ->. apply splice_last.
  - split; [|by intros ->].
    destruct connections as [|c l _] using rev_ind; [done|].
    rewrite splice_last. intros Heq.
    apply (f_equal length) in Heq. rewrite length_app in Heq. simpl in Heq. lia.
Qed.



Lemma Remove_absent_takes_last_witness :
  (3%nat ∉ [1%nat; 2%nat]) ∧ Remove 3%nat [1%nat; 2%nat] = [1%nat].
Proof.
  assert (3%nat ∉ [1%nat; 2%nat]) as Hnot.
  { intros H. apply elem_of_cons in H as [H | H]; [discriminate|].
    apply list_elem_of_singleton in H. discriminate. }
  split; [exact Hnot|].
  exact (proj1 (Remove_absent_takes_last 3%nat [1%nat; 2%nat] Hnot)
           2%nat [1%nat] eq_refl).
Defined.

End RegistryFacts.

(** ** The user manager's handlers *)

Module UserManagerFacts.
Import World UserManager.

(** Sending a dialog and returning false denies the request. *)
Lemma dialog_denied msg c w :
  ExtendedSocket.Stampable (conn w c) ->
  Denied msg c w
    (w1 ← send c (OutChatPacket_systemMessage msg DialogBox) w; Return (false, w1)).
Proof.
  intros Hs. unfold send.
  destruct (SocketFacts.send_stampable (OutChatPacket_systemMessage msg DialogBox) _ Hs)
    as (b & s' & -> & Hsess & _ & _ & Hpay).
  simpl. exists (set_conn c s' w). split; [done|].
  unfold conn, set_conn in *. simpl.
  rewrite lookup_total_insert_eq.
  repeat split; try done.
  intros c' Hne. by rewrite lookup_insert_ne.
Qed.

(** C4: the three failures of a login are answered each with its own
    dialog and with false; the connection gets no session and is not
    registered. *)
Theorem onLoginPacket_failures (up : Answers.t) (connection : ConnRef)
    (holepunchPort : Z) (w : World.t) :
  ExtendedSocket.Stampable (conn w connection) ->
  (Answers.Login up = 0 ->
   Denied GAME_LOGIN_BAD_USERNAME connection w
     (onLoginPacket up connection holepunchPort w))
  ∧ (Answers.Login up = -1 ->
     Denied GAME_LOGIN_BAD_PASSWORD connection w
       (onLoginPacket up connection holepunchPort w))
  ∧ (Answers.Login up ≠ 0 -> Answers.Login up ≠ -1 ->
     Answers.GetUserById up = None ->
     Denied GAME_LOGIN_INVALID_USERINFO connection w
       (onLoginPacket up connection holepunchPort w)).
Proof.
  intros Hs. unfold onLoginPacket, SendUserDialogBox. repeat split.
  - intros ->. simpl. by apply dialog_denied.
  - intros ->. simpl. by apply dialog_denied.
  - intros H0 H1 ->.
    rewrite !bool_decide_eq_false_2 by done. by apply dialog_denied.
Qed.

Lemma Scenario_newConn_stampable :
  ExtendedSocket.Stampable (conn (Scenario.world Waiting) 2%nat).
Proof. intros z Hz. discriminate Hz. Defined.

Lemma onLoginPacket_failures_witness :
  ExtendedSocket.Stampable (conn (Scenario.world Waiting) 2%nat)
  ∧ Denied GAME_LOGIN_BAD_USERNAME 2%nat (Scenario.world Waiting)
      (onLoginPacket (Answers.mk 0 None None None None None) 2%nat 30002
         (Scenario.world Waiting))
  ∧ Denied GAME_LOGIN_BAD_PASSWORD 2%nat (Scenario.world Waiting)
      (onLoginPacket (Answers.mk (-1) None None None None None) 2%nat 30002
         (Scenario.world Waiting))
  ∧ Denied GAME_LOGIN_INVALID_USERINFO 2%nat (Scenario.world Waiting)
      (onLoginPacket (Answers.mk 44 None None None None None) 2%nat 30002
         (Scenario.world Waiting)).
Proof.
  split; [exact Scenario_newConn_stampable|]. split; [|split].
  - apply (onLoginPacket_failures (Answers.mk 0 None None None None None)
             2%nat 30002 _ Scenario_newConn_stampable). reflexivity.
  - apply (onLoginPacket_failures (Answers.mk (-1) None None None None None)
             2%nat 30002 _ Scenario_newConn_stampable). reflexivity.
  - apply (onLoginPacket_failures (Answers.mk 44 None None None None None)
             2%nat 30002 _ Scenario_newConn_stampable); simpl; [lia | lia | reflexivity].
Defined.

(** A successful login, for comparison: the session is attached and the
    connection registered. *)
Example onLoginPacket_success :
  ∃ w', onLoginPacket
          (Answers.mk 44 (Some (User.mk 44 "carol" "Carol")) None None None None)
          2%nat 30002 (Scenario.world Waiting) = Return (true, w')
        ∧ connections w' = [0%nat; 1%nat; 2%nat]
        ∧ ExtendedSocket.session (conn w' 2%nat)
          = Some (UserSession.mk (User.mk 44 "carol" "Carol") None None).
Proof. eexists. split; [vm_compute; reflexivity|]. split; reflexivity. Qed.

(** When the registry has no connection for the target user id, reading
    [targetConn.session] throws before any of the checks that deny. *)
Lemma sessionOf_unresolved w : sessionOf w None = Throw TypeError.
Proof. reflexivity. Qed.

Lemma onHostSetUserInventory_unresolved answer userId userConn w :
  ActiveConnections.FindByOwnerId (sockets w) (connections w) userId = Return None ->
  onHostSetUserInventory answer userId userConn w = Throw TypeError.
Proof. intros H. unfold onHostSetUserInventory. rewrite H. reflexivity. Qed.

Lemma onHostSetUserLoadout_unresolved answer userId userConn w :
  ActiveConnections.FindByOwnerId (sockets w) (connections w) userId = Return None ->
  onHostSetUserLoadout answer userId userConn w = Throw TypeError.
Proof. intros H. unfold onHostSetUserLoadout. rewrite H. reflexivity. Qed.

Lemma onHostSetUserBuyMenu_unresolved answer userId userConn w :
  ActiveConnections.FindByOwnerId (sockets w) (connections w) userId = Return None ->
  onHostSetUserBuyMenu answer userId userConn w = Throw TypeError.
Proof. intros H. unfold onHostSetUserBuyMenu. rewrite H. reflexivity. Qed.

Lemma onItemUsing_unresolved userId itemId userConn w :
  ActiveConnections.FindByOwnerId (sockets w) (connections w) userId = Return None ->
  onItemUsing userId itemId userConn w = Throw TypeError.
Proof. intros H. unfold onItemUsing. rewrite H. reflexivity. Qed.

Lemma onTeamChangingRequest_unresolved userId newTeam userConn w :
  ActiveConnections.FindByOwnerId (sockets w) (connections w) userId = Return None ->
  onTeamChangingRequest userId newTeam userConn w = Throw TypeError.
Proof. intros H. unfold onTeamChangingRequest. rewrite H. reflexivity. Qed.

(** C2, evaluated on the code: Alice hosts a room and sends each of the
    five host requests for user 99, who has no connection.  The lookup
    returns null and every handler throws a TypeError instead of
    returning false. *)
Theorem host_requests_for_unknown_user_throw :
  ActiveConnections.FindByOwnerId (sockets (Scenario.world Waiting))
    (connections (Scenario.world Waiting)) 99 = Return None
  ∧ onTeamChangingRequest 99 (Some Terrorist) 0%nat (Scenario.world Waiting)
    = Throw TypeError
  ∧ onItemUsing 99 5 0%nat (Scenario.world Waiting) = Throw TypeError
  ∧ onHostSetUserInventory (Some [1; 2]) 99 0%nat (Scenario.world Waiting)
    = Throw TypeError
  ∧ onHostSetUserLoadout [1; 2] 99 0%nat (Scenario.world Waiting)
    = Throw TypeError
  ∧ onHostSetUserBuyMenu [1; 2] 99 0%nat (Scenario.world Waiting)
    = Throw TypeError.
Proof.
  assert (ActiveConnections.FindByOwnerId (sockets (Scenario.world Waiting))
            (connections (Scenario.world Waiting)) 99 = Return None) as H
    by reflexivity.
  split; [exact H|].
  split; [by apply onTeamChangingRequest_unresolved|].
  split; [by apply onItemUsing_unresolved|].
  split; [by apply onHostSetUserInventory_unresolved|].
  split; [by apply onHostSetUserLoadout_unresolved|].
  by apply onHostSetUserBuyMenu_unresolved.
Qed.

(** The same requests for Bob, who is connected, go through. *)
Example onItemUsing_resolved :
  ∃ w', onItemUsing 43 5 0%nat (Scenario.world Waiting) = Return (true, w')
        ∧ ExtendedSocket.payloads (conn w' 0%nat) = [Packet (OutHostPacket_itemUse 43 5)].
Proof. eexists. split; [vm_compute; reflexivity | reflexivity]. Qed.

End UserManagerFacts.

(** ** The room handler *)

Module RoomHandlerFacts.
Import World RoomHandler.

(** C5: a join request for an existing room with a free slot and a
    password, carrying a different password, is denied with the
    bad-password dialog: false is returned, the requester's session
    (its current room included) and every room (occupants included) are
    as before. *)
Theorem onJoinRoomRequest_wrong_password (joinReq : InRoomJoinRequest.t)
    (sourceConn : ConnRef) (w : World.t) (session : UserSession.t)
    (channel : ChannelRef) (desiredRoom : RoomRef) :
  ExtendedSocket.session (conn w sourceConn) = Some session ->
  UserSession.currentChannel session = Some channel ->
  getRoomById w channel (InRoomJoinRequest.roomId joinReq) = Some desiredRoom ->
  Room.hasFreeSlots (room w desiredRoom) = true ->
  RoomSettings.roomPassword (Room.settings (room w desiredRoom)) ≠ "" ->
  InRoomJoinRequest.roomPassword joinReq
    ≠ RoomSettings.roomPassword (Room.settings (room w desiredRoom)) ->
  ExtendedSocket.Stampable (conn w sourceConn) ->
  Denied GAME_ROOM_JOIN_FAILED_BAD_PASSWORD sourceConn w
    (onJoinRoomRequest joinReq sourceConn w)
  ∧ ∀ b w', onJoinRoomRequest joinReq sourceConn w = Return (b, w') ->
      b = false
      ∧ (UserSession.currentRoom <$> ExtendedSocket.session (conn w' sourceConn))
        = Some (UserSession.currentRoom session)
      ∧ Room.users (room w' desiredRoom) = Room.users (room w desiredRoom).
Proof.
  intros Hsess Hchan Hroom Hfree Hprot Hdiff Hs.
  assert (Denied GAME_ROOM_JOIN_FAILED_BAD_PASSWORD sourceConn w
            (onJoinRoomRequest joinReq sourceConn w)) as Hdenied.
  { unfold onJoinRoomRequest, SendUserDialogBox.
    rewrite Hsess, Hchan, Hroom, Hfree. simpl.
    unfold Room.IsPasswordProtected, Room.ComparePassword.
    rewrite bool_decide_eq_true_2 by done.
    rewrite bool_decide_eq_false_2 by congruence. simpl.
    by apply UserManagerFacts.dialog_denied. }
  split; [exact Hdenied|].
  destruct Hdenied as (w1 & -> & Hsess1 & _ & Hrooms & _).
  intros b w' [= <- <-]. split; [done|]. split.
  - by rewrite Hsess1, Hsess.
  - unfold room. by rewrite Hrooms.
Qed.

Lemma onJoinRoomRequest_wrong_password_witness :
  ExtendedSocket.session (conn (Scenario.world Waiting) 1%nat)
    = Some (UserSession.mk Scenario.bob (Some 0%nat) None)
  ∧ getRoomById (Scenario.world Waiting) 0%nat 1 = Some 0%nat
  ∧ Denied GAME_ROOM_JOIN_FAILED_BAD_PASSWORD 1%nat (Scenario.world Waiting)
      (onJoinRoomRequest (InRoomJoinRequest.mk 1 "x") 1%nat (Scenario.world Waiting)).
Proof.
  split; [reflexivity|]. split; [reflexivity|].
  apply (onJoinRoomRequest_wrong_password (InRoomJoinRequest.mk 1 "x") 1%nat
           (Scenario.world Waiting) (UserSession.mk Scenario.bob (Some 0%nat) None)
           0%nat 0%nat); try reflexivity.
  - simpl. discriminate.
  - simpl. discriminate.
  - intros z Hz. discriminate Hz.
Defined.

(** With the right password Bob joins. *)
Example onJoinRoomRequest_right_password :
  ∃ w', onJoinRoomRequest (InRoomJoinRequest.mk 1 "secret") 1%nat
          (Scenario.world Waiting) = Return (true, w')
        ∧ map RoomUser.userId (Room.users (room w' 0%nat)) = [42; 43]
        ∧ (UserSession.currentRoom <$> ExtendedSocket.session (conn w' 1%nat))
          = Some (Some 0%nat).
Proof. eexists. split; [vm_compute; reflexivity|]. split; reflexivity. Qed.






(** In a room that is waiting the host's request is applied. *)
Example onRoomUpdateSettings_waiting_applies :
  ∃ w', onRoomUpdateSettings
          (InRoomUpdateSettings.mk (Some "r2") None None None None None None)
          0%nat (Scenario.world Waiting) = Return (true, w')
        ∧ RoomSettings.roomName (Room.settings (room w' 0%nat)) = "r2".
Proof. eexists. split; [vm_compute; reflexivity | reflexivity]. Qed.

End RoomHandlerFacts.

(** ** The packet string codec *)

Module PacketStringFacts.
Import Utf.

Ltac arith := Z.div_mod_to_equations; lia.

Ltac decide_bytes :=
  repeat (case_bool_decide; simpl; try (exfalso; arith)).

(** Decoding the bytes of one scalar value gives it back and leaves the
    decoder in its initial state. *)
Lemma decodeFrom_utf8Bytes c rest :
  Scalar c ->
  decodeFrom initial (utf8Bytes c ++ rest) = c :: decodeFrom initial rest.
Proof.
  intros [Hrange Hsur]. unfold utf8Bytes.
  case_bool_decide as H1; [|case_bool_decide as H2; [|case_bool_decide as H3]].
  - simpl. unfold feed, lead. simpl. decide_bytes. done.
  - simpl. unfold feed, lead. simpl. decide_bytes.
    do 2 f_equal. arith.
  - simpl. unfold feed, lead. simpl. decide_bytes; do 2 f_equal; arith.
  - simpl. unfold feed, lead. simpl. decide_bytes; do 2 f_equal; arith.
Qed.

Lemma decodeFrom_encoded cps :
  Forall Scalar cps -> decodeFrom initial (flat_map utf8Bytes cps) = cps.
Proof.
  induction 1 as [|c cps Hc _ IH]; simpl; [done|].
  by rewrite decodeFrom_utf8Bytes, IH.
Qed.

Lemma toScalarValues_unit u s :
  isSurrogate u = false -> toScalarValues (u :: s) = u :: toScalarValues s.
Proof.
  intros Hu. simpl. rewrite Hu.
  assert (isHighSurrogate u = false) as ->.
  { unfold isSurrogate, isHighSurrogate in *.
    apply bool_decide_eq_false in Hu. apply bool_decide_eq_false. lia. }
  by destruct s.
Qed.

Lemma toScalarValues_pair hi lo s :
  isHighSurrogate hi = true -> isLowSurrogate lo = true ->
  toScalarValues (hi :: lo :: s)
  = (0x10000 + (hi - 0xD800) * 0x400 + (lo - 0xDC00)) :: toScalarValues s.
Proof. intros Hhi Hlo. simpl. by rewrite Hhi, Hlo. Qed.

(** A well-formed string is a sequence of scalar values, and turning
    these back into code units gives the string. *)
Lemma toScalarValues_wellformed s :
  WellFormed s ->
  Forall Scalar (toScalarValues s)
  ∧ flat_map utf16Units (toScalarValues s) = s.
Proof.
  induction 1 as [|u s Hu Hns _ [IHs IHu]|hi lo s Hhi Hlo _ [IHs IHu]].
  - by split.
  - rewrite toScalarValues_unit by done.
    unfold isSurrogate in Hns. apply bool_decide_eq_false in Hns. split.
    + constructor; [|done]. unfold Scalar. lia.
    + simpl. rewrite IHu. unfold utf16Units.
      by rewrite bool_decide_eq_true_2 by lia.
  - rewrite toScalarValues_pair by done.
    unfold isHighSurrogate in Hhi. unfold isLowSurrogate in Hlo.
    apply bool_decide_eq_true in Hhi. apply bool_decide_eq_true in Hlo. split.
    + constructor; [|done]. unfold Scalar. lia.
    + simpl. rewrite IHu. unfold utf16Units.
      rewrite bool_decide_eq_false_2 by lia. simpl. do 2 f_equal; arith.
Qed.

Lemma decode_encode s : WellFormed s -> decode (encode s) = s.
Proof.
  intros [Hs Hu]%toScalarValues_wellformed. unfold decode, encode.
  by rewrite decodeFrom_encoded.
Qed.

(** With room for exactly the whole encoding, [Buffer.write] stores it. *)
Lemma writeChars_exact cps :
  writeChars cps (length (flat_map utf8Bytes cps)) = flat_map utf8Bytes cps.
Proof.
  induction cps as [|c cps IH]; simpl; [done|].
  rewrite length_app. rewrite bool_decide_eq_true_2 by lia.
  replace (length (utf8Bytes c) + length (flat_map utf8Bytes cps)
           - length (utf8Bytes c))%nat
    with (length (flat_map utf8Bytes cps)) by lia.
  by rewrite IH.
Qed.

Lemma encode_nil_inv s : encode s = [] -> s = [].
Proof.
  destruct s as [|u [|lo rest]]; [done| |]; unfold encode; simpl.
  - unfold utf8Bytes. repeat case_bool_decide; discriminate.
  - destruct (isHighSurrogate u && isLowSurrogate lo); simpl;
      unfold utf8Bytes; repeat case_bool_decide; discriminate.
Qed.

(** What [toBuffer] produces for a string that fits the length byte:
    the byte count of the encoding, then the encoding. *)
Lemma toBuffer_new s :
  (length (encode s) ≤ 255)%nat ->
  (p ← PacketString.new s 0; PacketString.toBuffer p)
  = Return (Z.of_nat (length (encode s)) :: encode s).
Proof.
  intros Hlen. unfold PacketString.new. simpl.
  unfold PacketString.toBuffer, Buffer.alloc. simpl.
  case_bool_decide; [lia|]. simpl.
  replace (Z.to_nat (Z.of_nat (length (encode s)) + 1))
    with (S (length (encode s))) by lia.
  simpl. unfold Buffer.setByte. simpl.
  rewrite Z.mod_small by lia.
  destruct s as [|u s'] eqn:Hs; [done|]. rewrite <- Hs in *.
  unfold Buffer.write. simpl. rewrite length_replicate.
  rewrite bool_decide_eq_false_2 by lia.
  replace (Z.to_nat (Z.of_nat (length (encode s))) `min` (length (encode s) - 0))%nat
    with (length (flat_map utf8Bytes (toScalarValues s)))
    by (unfold encode; lia).
  rewrite writeChars_exact.
  rewrite drop_ge by (rewrite length_replicate; unfold encode; lia).
  by rewrite app_nil_r.
Qed.

Lemma from_encoded s :
  WellFormed s -> (length (encode s) ≤ 255)%nat ->
  PacketString.from (Z.of_nat (length (encode s)) :: encode s)
  = Return (PacketString.mk s (Z.of_nat (length (encode s)))
              (Z.of_nat (length (encode s)) + 1)).
Proof.
  intros Hwf Hlen. unfold PacketString.from. simpl.
  unfold Buffer.slice, Buffer.toString. simpl.
  replace (Z.to_nat (1 + Z.of_nat (length (encode s)) - 1))
    with (length (encode s)) by lia.
  rewrite drop_0, take_ge by lia. rewrite decode_encode by done.
  unfold PacketString.new.
  rewrite (bool_decide_eq_false_2 (_ ≠ Z.of_nat _)) by (intros H; by apply H).
  by rewrite andb_false_r.
Qed.

(** C7, as stated, fails for a string with an unpaired surrogate: the
    encoder stores U+FFFD for it, and that is what the decoder returns. *)
Lemma PacketString_unpaired_surrogate :
  length (encode [0xD800]) = 3%nat
  ∧ (p ← PacketString.new [0xD800] 0; PacketString.toBuffer p)
    = Return [3; 0xEF; 0xBF; 0xBD]
  ∧ PacketString.from [3; 0xEF; 0xBF; 0xBD]
    = Return (PacketString.mk [0xFFFD] 3 4)
  ∧ PacketString.str (PacketString.mk [0xFFFD] 3 4) ≠ [0xD800].
Proof. repeat split; try reflexivity. discriminate. Qed.

(** C7, amended: for every string without unpaired surrogates whose
    UTF-8 encoding has at most 255 bytes, [toBuffer] writes the byte
    count of the encoding as the length prefix, and [from] on that buffer
    returns, without throwing, a packet string holding the string. *)
Theorem PacketString_roundtrip (s : list Z) :
  WellFormed s -> (length (encode s) ≤ 255)%nat ->
  ∃ buf p,
    (p ← PacketString.new s 0; PacketString.toBuffer p) = Return buf
    ∧ buf !! 0%nat = Some (Z.of_nat (length (encode s)))
    ∧ drop 1 buf = encode s
    ∧ PacketString.from buf = Return p
    ∧ PacketString.str p = s
    ∧ PacketString.actualStrLen p = Z.of_nat (length (encode s)).
Proof.
  intros Hwf Hlen. do 2 eexists.
  split; [by apply toBuffer_new|].
  split; [done|]. split; [done|].
  split; [by apply from_encoded|]. done.
Qed.

(** "héllo€" followed by U+1F600 as a surrogate pair. *)
Lemma PacketString_roundtrip_witness :
  WellFormed [0x68; 0xE9; 0x6C; 0x6C; 0x6F; 0x20AC; 0xD83D; 0xDE00]
  ∧ length (encode [0x68; 0xE9; 0x6C; 0x6C; 0x6F; 0x20AC; 0xD83D; 0xDE00]) = 13%nat
  ∧ ∃ buf p,
      (p ← PacketString.new [0x68; 0xE9; 0x6C; 0x6C; 0x6F; 0x20AC; 0xD83D; 0xDE00] 0;
       PacketString.toBuffer p) = Return buf
      ∧ buf !! 0%nat = Some 13
      ∧ PacketString.from buf = Return p
      ∧ PacketString.str p = [0x68; 0xE9; 0x6C; 0x6C; 0x6F; 0x20AC; 0xD83D; 0xDE00].
Proof.
  assert (WellFormed [0x68; 0xE9; 0x6C; 0x6C; 0x6F; 0x20AC; 0xD83D; 0xDE00]) as Hwf.
  { do 6 (apply WellFormed_unit; [lia | reflexivity |]).
    apply WellFormed_pair; [reflexivity | reflexivity | apply WellFormed_nil]. }
  split; [exact Hwf|]. split; [reflexivity|].
  destruct (PacketString_roundtrip
              [0x68; 0xE9; 0x6C; 0x6C; 0x6F; 0x20AC; 0xD83D; 0xDE00] Hwf)
    as (buf & p & Hbuf & Hlen & _ & Hfrom & Hstr & _).
  { simpl. lia. }
  exists buf, p. split; [exact Hbuf|]. split; [exact Hlen|].
  split; [exact Hfrom | exact Hstr].
Defined.

(** Beyond 255 bytes the length byte wraps: 256 letters are written with
    the prefix 0 and read back as the empty string. *)
Example PacketString_256_bytes :
  (p ← PacketString.new (replicate 256 0x61) 0;
   buf ← PacketString.toBuffer p;
   p' ← PacketString.from buf;
   Return (buf !! 0%nat, PacketString.str p'))
  = Return (Some 0, []).
Proof. vm_compute. reflexivity. Qed.

End PacketStringFacts.

(** ** The website's user service client *)

Module UsersServiceFacts.
Import UsersService.

Lemma LRU_get_absent time k c :
  LRU.find k c = None -> LRU.get time k c = (None, c).
Proof. intros H. unfold LRU.get. by rewrite H. Qed.

Lemma get_absent_offline userId time answer time' ping env :
  LRU.find userId (userCache env) = None ->
  UserSvcPing.isAlive (Upstream.probe (upstream env)) = false ->
  get userId time answer time' ping env = (Return None, env).
Proof.
  intros Hmiss Hdown. unfold get. rewrite (LRU_get_absent _ _ _ Hmiss).
  simpl. rewrite Hdown. simpl. by destruct env.
Qed.

Lemma get_fresh_hit userId time answer time' ping env hit :
  LRU.find userId (userCache env) = Some hit ->
  LRU.isStale (userCache env) hit time = false ->
  ∃ env', get userId time answer time' ping env = (Return (Some (LRU.value hit)), env')
          ∧ upstream env' = upstream env.
Proof.
  intros Hhit Hfresh. unfold get, LRU.get. rewrite Hhit, Hfresh.
  eexists. split; reflexivity.
Qed.

(** C8: for a user id that is not in the cache, while the probe reports
    not-alive every call of [get] returns null, issues no request and
    leaves the cache and the probe as they are; an entry that is in the
    cache and not older than 15 seconds is returned whatever the probe
    says, again with no request.  The cache holds 100 entries. *)
Theorem get_short_circuits (userId : Z) (env : Env) :
  (LRU.find userId (userCache env) = None ->
   UserSvcPing.isAlive (Upstream.probe (upstream env)) = false ->
   ∀ calls,
     getAll userId calls env = (replicate (length calls) (Return None), env))
  ∧ (∀ hit time answer time' ping,
       LRU.find userId (userCache env) = Some hit ->
       LRU.isStale (userCache env) hit time = false ->
       ∃ env',
         get userId time answer time' ping env
         = (Return (Some (LRU.value hit)), env')
         ∧ upstream env' = upstream env)
  ∧ LRU.max newUserCache = 100%nat
  ∧ LRU.maxAge newUserCache = 15000.
Proof.
  split; [|split; [|done]].
  - intros Hmiss Hdown calls.
    induction calls as [|c calls IH]; simpl; [done|].
    rewrite get_absent_offline by done. by rewrite IH.
  - intros hit time answer time' ping Hhit Hfresh. by apply get_fresh_hit.
Qed.

Lemma get_short_circuits_witness :
  getAll 99
    [mkCall 1000 Rejected 1001 false;
     mkCall 2000 (Resolved 200 (User.mk 99 "dave" "Dave")) 2001 true]
    (mkEnv newUserCache (Upstream.mk (UserSvcPing.mk false "users:30100") []))
  = ([Return None; Return None],
     mkEnv newUserCache (Upstream.mk (UserSvcPing.mk false "users:30100") []))
  ∧ ∃ env',
      get 42 16000 Rejected 16001 false
        (mkEnv (LRU.set 1000 42 Scenario.alice newUserCache)
           (Upstream.mk (UserSvcPing.mk false "users:30100") []))
      = (Return (Some Scenario.alice), env')
      ∧ upstream env' = Upstream.mk (UserSvcPing.mk false "users:30100") [].
Proof.
  split.
  - apply (get_short_circuits 99
             (mkEnv newUserCache (Upstream.mk (UserSvcPing.mk false "users:30100") [])));
      reflexivity.
  - apply (proj1 (proj2 (get_short_circuits 42
             (mkEnv (LRU.set 1000 42 Scenario.alice newUserCache)
                (Upstream.mk (UserSvcPing.mk false "users:30100") []))))
             (LRU.mkEntry 42 Scenario.alice 1000)); reflexivity.
Defined.

(** When the probe reports alive, a miss goes to the network; a refused
    request re-checks the probe and is rethrown. *)
Example get_refused :
  get 99 1000 Rejected 1001 false
    (mkEnv newUserCache (Upstream.mk (UserSvcPing.mk true "users:30100") []))
  = (Throw (Error "request failed"),
     mkEnv newUserCache
       (Upstream.mk (UserSvcPing.mk false "users:30100") [GET_users 99; GET_ping])).
Proof. reflexivity. Qed.

(** An entry older than 15 seconds reads as a miss. *)
Example get_stale :
  get 42 16001 Rejected 16002 false
    (mkEnv (LRU.set 1000 42 Scenario.alice newUserCache)
       (Upstream.mk (UserSvcPing.mk false "users:30100") []))
  = (Return None,
     mkEnv newUserCache (Upstream.mk (UserSvcPing.mk false "users:30100") [])).
Proof. reflexivity. Qed.

End UsersServiceFacts.

(** ** Start-up check of the user service *)

Module IndexFacts.
Import Index.

(** C9: [checkServices] gives the boolean and leaves the probe in the
    state of a single check, namely the check whose ping is answered
    like the later of the two answers. *)
Theorem checkServices_as_single_check (first second : bool) (u : Upstream.t) :
  fst (checkServices first second u) = fst (checkOnce second u)
  ∧ Upstream.probe (snd (checkServices first second u))
    = Upstream.probe (snd (checkOnce second u)).
Proof.
  unfold checkServices, checkOnce, Upstream.checkNow, UserSvcPing.isAlive.
  simpl. split; [apply andb_diag | reflexivity].
Qed.

(** What differs is the traffic: two pings instead of one. *)
Lemma checkServices_pings_twice first second u :
  Upstream.requests (snd (checkServices first second u))
  = Upstream.requests u ++ [GET_ping; GET_ping]
  ∧ Upstream.requests (snd (checkOnce second u))
    = Upstream.requests u ++ [GET_ping].
Proof.
  unfold checkServices, checkOnce, Upstream.checkNow, Upstream.issue. simpl.
  by rewrite <- app_assoc.
Qed.

End IndexFacts.

(** ** Runs of sends on one connection *)

Module WireFacts.
Import ExtendedSocket Wire.

Lemma step_frames o z s :
  Counting z s -> Sendable o ->
  ∃ s', step o s = Return s'
        ∧ Counting (z mod 256 + 1) s'
        ∧ NetSocket.written (socket s')
          = NetSocket.written (socket s) ++ [mkFrame (z mod 256) (stamp o (z mod 256))]
        ∧ packetDumper s' = packetDumper s
        ∧ session s' = session s
        ∧ (packetDumper s = false -> dumped s' = dumped s ∧ realOutSeq s' = realOutSeq s)
        ∧ (∀ r, packetDumper s = true -> realOutSeq s = Num r ->
             if isSend o
             then dumped s' = dumped s ++ [(Num r, mkFrame (z mod 256) (stamp o (z mod 256)))]
                  ∧ realOutSeq s' = Num (r + 1)
             else dumped s' = dumped s ∧ realOutSeq s' = Num r).
Proof.
  intros Hc Hs. pose proof Hc as (Hseq & Hz & Hd).
  pose proof (Z.mod_pos_bound z 256 ltac:(lia)) as Hm.
  destruct o as [p | buff]; simpl.
  - unfold send.
    rewrite Hd, (SocketFacts.getNextSeq_counting z s Hc), SocketFacts.toUInt8_byte.
    simpl. destruct (packetDumper s) eqn:Hdump; simpl.
    + unfold getRealOutSeq. simpl.
      destruct (postIncrement (realOutSeq s)) as [cur next] eqn:Hpost. simpl.
      eexists; split; [reflexivity|]. unfold Counting, MAX_SEQUENCE; simpl.
      split_and!; try lia; try done.
      intros r _ Hr. rewrite Hr in Hpost. simpl in Hpost.
      injection Hpost as <- <-. done.
    + eexists; split; [reflexivity|]. unfold Counting, MAX_SEQUENCE; simpl.
      split_and!; try lia; try done.
  - unfold sendBuffer.
    rewrite Hd, (SocketFacts.getNextSeq_counting z s Hc), SocketFacts.toUInt8_byte.
    simpl. simpl in Hs. rewrite bool_decide_eq_false_2 by lia. simpl.
    eexists; split; [reflexivity|]. unfold Counting, MAX_SEQUENCE; simpl.
    split_and!; try lia; try done.
Qed.

Lemma run_frames ops : ∀ z s,
  Counting z s -> Forall Sendable ops ->
  ∃ s', run ops s = Return s'
        ∧ NetSocket.written (socket s') = NetSocket.written (socket s) ++ frames z ops
        ∧ session s' = session s
        ∧ (∀ r, packetDumper s = true -> realOutSeq s = Num r ->
             dumped s' = dumped s ++ dumps r z ops).
Proof.
  induction ops as [|o ops IH]; intros z s Hc Hall; simpl.
  - exists s. rewrite app_nil_r. repeat split; try done.
    intros r _ _. by rewrite app_nil_r.
  - inversion Hall as [|? ? Ho Hops]; subst.
    destruct (step_frames o z s Hc Ho)
      as (s1 & -> & Hc1 & Hw1 & Hp1 & Hsess1 & _ & Hd1). simpl.
    destruct (IH _ _ Hc1 Hops) as (s' & -> & Hw' & Hsess' & Hd').
    exists s'. split; [done|]. split; [by rewrite Hw', Hw1, <- app_assoc|].
    split; [congruence|].
    intros r Hdump Hr. specialize (Hd1 r Hdump Hr).
    destruct (isSend o); destruct Hd1 as [Hdumped Hreal].
    + rewrite (Hd' (r + 1)), Hdumped, <- app_assoc by congruence. done.
    + rewrite (Hd' r), Hdumped by congruence. done.
Qed.

Lemma frames_lookup ops : ∀ z i o,
  ops !! i = Some o ->
  frames z ops !! i
  = Some (mkFrame ((z + Z.of_nat i) mod 256) (stamp o ((z + Z.of_nat i) mod 256))).
Proof.
  induction ops as [|o' ops IH]; intros z i o; [done|].
  destruct i as [|i]; simpl.
  - intros [= ->]. by rewrite Z.add_0_r.
  - intros Hi. rewrite (IH _ _ _ Hi).
    replace ((z mod 256 + 1 + Z.of_nat i) mod 256)
      with ((z + Z.pos (Pos.of_succ_nat i)) mod 256); [done|].
    rewrite <- (Zplus_mod_idemp_l z). f_equal. lia.
Qed.

Lemma frames_length ops : ∀ z, length (frames z ops) = length ops.
Proof. induction ops as [|o ops IH]; intros z; simpl; [done|]. by rewrite IH. Qed.

(** X1: once the counter holds a number in 0..256, a run of [send] and
    [sendBuffer] calls on an open socket writes one frame per call, in
    the order of the calls, and frame number [i] of the run carries the
    sequence byte [(z + i) mod 256]. *)
Theorem run_writes_contiguous_frames (ops : list op) (z : Z) (s : t) :
  Counting z s -> Forall Sendable ops ->
  ∃ s', run ops s = Return s'
        ∧ length (NetSocket.written (socket s'))
          = (length (NetSocket.written (socket s)) + length ops)%nat
        ∧ ∀ i o, ops !! i = Some o ->
            NetSocket.written (socket s') !! (length (NetSocket.written (socket s)) + i)%nat
            = Some (mkFrame ((z + Z.of_nat i) mod 256)
                      (stamp o ((z + Z.of_nat i) mod 256))).
Proof.
  intros Hc Hall. destruct (run_frames ops z s Hc Hall) as (s' & Hrun & Hw & _).
  exists s'. split; [done|]. rewrite Hw. split.
  - by rewrite length_app, frames_length.
  - intros i o Hi. rewrite lookup_app_r by lia.
    replace (length (NetSocket.written (socket s)) + i
             - length (NetSocket.written (socket s)))%nat with i by lia.
    by apply frames_lookup.
Qed.

Lemma Scenario_reset_counting :
  Counting 0 (resetReq (from Scenario.openSocket true)).
Proof. unfold Counting, MAX_SEQUENCE. simpl. repeat split; lia. Defined.

Lemma run_writes_contiguous_frames_witness :
  Counting 0 (resetReq (from Scenario.openSocket true))
  ∧ ∃ s', run [Send OutChannelList; SendBuffer [0x55; 0x12; 0x21]; Send OutChannelList]
              (resetReq (from Scenario.openSocket true)) = Return s'
          ∧ NetSocket.written (socket s') !! 1%nat
            = Some (mkFrame 1 (Raw [0x55; 1; 0x21])).
Proof.
  split; [exact Scenario_reset_counting|].
  destruct (run_writes_contiguous_frames
              [Send OutChannelList; SendBuffer [0x55; 0x12; 0x21]; Send OutChannelList]
              0 (resetReq (from Scenario.openSocket true)) Scenario_reset_counting)
    as (s' & Hrun & _ & Hi).
  { repeat constructor. }
  exists s'. split; [exact Hrun|].
  exact (Hi 1%nat (SendBuffer [0x55; 0x12; 0x21]) eq_refl).
Defined.

(** X2: on a destroyed socket no call writes a frame or advances a
    counter: any run leaves the connection exactly as it was. *)
Theorem run_on_destroyed_socket (ops : list op) (s : t) :
  NetSocket.destroyed (socket s) = true -> run ops s = Return s.
Proof.
  intros Hd. induction ops as [|o ops IH]; simpl; [done|].
  destruct o; simpl; unfold send, sendBuffer; rewrite Hd; simpl; exact IH.
Qed.

Lemma run_on_destroyed_socket_witness :
  run [Send OutChannelList; SendBuffer []]
    (from (NetSocket.mk true [] true) true)
  = Return (from (NetSocket.mk true [] true) true).
Proof.
  apply (run_on_destroyed_socket [Send OutChannelList; SendBuffer []]
           (from (NetSocket.mk true [] true) true)).
  reflexivity.
Defined.

(** [getNextSeq] on a counter that is not a negative number: what it
    returns can be stamped, and the counter stays that way. *)
Lemma getNextSeq_stampable s :
  Stampable s ->
  ∃ n next b, getNextSeq s = (n, set_seq next s)
              ∧ toUInt8 n = Return b
              ∧ ∀ k, next = Num k -> 0 ≤ k.
Proof.
  intros Hs. unfold getNextSeq, gt, MAX_SEQUENCE, resetReq.
  destruct (seq s) as [| |k] eqn:Hk; simpl.
  - rewrite Hk. simpl. by exists NaN, NaN, 0.
  - rewrite Hk. simpl. by exists NaN, NaN, 0.
  - specialize (Hs k Hk). case_bool_decide; simpl.
    + exists (Num 0), (Num 1), 0. split; [done|]. split; [done|].
      intros ? [= <-]; lia.
    + rewrite Hk. simpl. exists (Num k), (Num (k + 1)), k.
      split; [done|]. split; [|intros ? [= <-]; lia].
      unfold toUInt8. simpl. repeat case_bool_decide; simpl; try lia; done.
Qed.

(** One call on an open socket, whatever the sequence counter holds. *)
Lemma step_open o s :
  Stampable s -> Sendable o -> NetSocket.destroyed (socket s) = false ->
  ∃ s' b, step o s = Return s'
    ∧ Stampable s'
    ∧ NetSocket.destroyed (socket s') = false
    ∧ session s' = session s
    ∧ packetDumper s' = packetDumper s
    ∧ NetSocket.written (socket s')
      = NetSocket.written (socket s) ++ [mkFrame b (stamp o b)]
    ∧ (∀ r, packetDumper s = true -> realOutSeq s = Num r ->
         if isSend o
         then dumped s' = dumped s ++ [(Num r, mkFrame b (stamp o b))]
              ∧ realOutSeq s' = Num (r + 1)
         else dumped s' = dumped s ∧ realOutSeq s' = Num r).
Proof.
  intros Hs Ho Hd.
  destruct (getNextSeq_stampable s Hs) as (n & next & b & Hnext & Hb & Hpos).
  destruct o as [p | buff]; simpl.
  - unfold send. rewrite Hd, Hnext, Hb. simpl.
    destruct (packetDumper s) eqn:Hdump; simpl.
    + unfold getRealOutSeq. simpl.
      destruct (postIncrement (realOutSeq s)) as [cur nxt] eqn:Hpost. simpl.
      eexists _, b. split; [reflexivity|]. unfold Stampable. simpl.
      split_and!; try done.
      intros r _ Hr. rewrite Hr in Hpost. simpl in Hpost.
      injection Hpost as <- <-. done.
    + eexists _, b. split; [reflexivity|]. unfold Stampable. simpl.
      split_and!; try done.
  - unfold sendBuffer. rewrite Hd, Hnext, Hb. simpl.
    simpl in Ho. rewrite bool_decide_eq_false_2 by lia. simpl.
    eexists _, b. split; [reflexivity|]. unfold Stampable. simpl.
    split_and!; try done.
Qed.

(** One call on any socket: it returns and keeps the session. *)
Lemma step_returns o s :
  Stampable s -> Sendable o ->
  ∃ s', step o s = Return s' ∧ Stampable s' ∧ session s' = session s.
Proof.
  intros Hs Ho. destruct (NetSocket.destroyed (socket s)) eqn:Hd.
  - exists s. split; [|done].
    destruct o; simpl; unfold send, sendBuffer; by rewrite Hd.
  - destruct (step_open o s Hs Ho Hd) as (s' & b & Hstep & Hs' & _ & Hsess & _).
    by exists s'.
Qed.

Lemma run_returns ops : ∀ s,
  Stampable s -> Forall Sendable ops ->
  ∃ s', run ops s = Return s' ∧ Stampable s' ∧ session s' = session s.
Proof.
  induction ops as [|o ops IH]; intros s Hs Hall; simpl.
  - by exists s.
  - inversion Hall as [|? ? Ho Hops]; subst.
    destruct (step_returns o s Hs Ho) as (s1 & -> & Hs1 & Hsess1). simpl.
    destruct (IH s1 Hs1 Hops) as (s' & -> & Hs' & Hsess').
    exists s'. split; [done|]. split; [done | congruence].
Qed.

(** X3: on an open socket with a packet dumper, whatever the sequence
    counter holds (also unset, as [from] leaves it), a run writes one
    frame per call, and its dump files are the frames written by [send],
    in order, numbered by the real counter from its value [r] upwards
    without wrapping; frames written by [sendBuffer] are not dumped and
    do not advance the real counter.  The real counter is a double, so
    this is stated for runs that keep it within 2^53. *)
Theorem run_dumps_sent_frames (ops : list op) (r : Z) (s : t) :
  NetSocket.destroyed (socket s) = false ->
  Stampable s -> Forall Sendable ops ->
  packetDumper s = true -> realOutSeq s = Num r ->
  0 ≤ r -> r + Z.of_nat (length (filter isSend ops)) ≤ 2 ^ 53 ->
  ∃ s' fs new,
    run ops s = Return s'
    ∧ NetSocket.written (socket s') = NetSocket.written (socket s) ++ fs
    ∧ Forall2 (fun o f => payload f = stamp o (sequence f)) ops fs
    ∧ dumped s' = dumped s ++ new
    ∧ new.*1 = Num <$> seqZ r (Z.of_nat (length (filter isSend ops)))
    ∧ new.*2 = filter isPacket fs.
Proof.
  intros Hd Hs Hall Hdump Hr _ _. revert r s Hd Hs Hdump Hr.
  induction Hall as [|o ops Ho Hall IH]; intros r s Hd Hs Hdump Hr.
  - exists s, [], []. simpl. rewrite !app_nil_r. split_and!; done.
  - destruct (step_open o s Hs Ho Hd)
      as (s1 & b & Hstep & Hs1 & Hd1 & _ & Hdump1 & Hw1 & Hreal).
    specialize (Hreal r Hdump Hr). rewrite Hdump in Hdump1.
    assert (isPacket (mkFrame b (stamp o b)) = isSend o) as Hkind
      by (by destruct o).
    cbn [run]. rewrite Hstep. simpl.
    destruct (isSend o) eqn:Hsend; destruct Hreal as [Hdumped Hreal].
    + destruct (IH (r + 1) s1 Hd1 Hs1 Hdump1 Hreal)
        as (s' & fs & new & -> & Hw & Hfs & Hnew & Hnum & Hfr).
      exists s', (mkFrame b (stamp o b) :: fs),
        ((Num r, mkFrame b (stamp o b)) :: new).
      split; [done|]. split; [by rewrite Hw, Hw1, <- app_assoc|].
      split; [by constructor|].
      split; [by rewrite Hnew, Hdumped, <- app_assoc|].
      rewrite filter_cons_True by (by rewrite Hsend).
      rewrite filter_cons_True by (by rewrite Hkind).
      rewrite !fmap_cons. cbn [fst snd length]. split; [|by rewrite Hfr].
      rewrite (seqZ_cons r) by lia. rewrite fmap_cons. f_equal.
      replace (Z.pred (Z.of_nat (S (length (filter isSend ops)))))
        with (Z.of_nat (length (filter isSend ops))) by lia.
      replace (Z.succ r) with (r + 1) by lia. exact Hnum.
    + destruct (IH r s1 Hd1 Hs1 Hdump1 Hreal)
        as (s' & fs & new & -> & Hw & Hfs & Hnew & Hnum & Hfr).
      exists s', (mkFrame b (stamp o b) :: fs), new.
      split; [done|]. split; [by rewrite Hw, Hw1, <- app_assoc|].
      split; [by constructor|].
      split; [by rewrite Hnew, Hdumped|].
      rewrite filter_cons_False by (rewrite Hsend; auto).
      rewrite filter_cons_False by (rewrite Hkind; auto).
      done.
Qed.

(** A connection as [from] makes it, with its counter unset. *)
Lemma run_dumps_sent_frames_witness :
  ∃ s', run [Send OutChannelList; SendBuffer [0x55; 0x12; 0x21]; Send OutChannelList]
            (from Scenario.openSocket true) = Return s'
        ∧ dumped s'
          = [(Num 0, mkFrame 0 (Packet OutChannelList));
             (Num 1, mkFrame 0 (Packet OutChannelList))].
Proof.
  destruct (run_dumps_sent_frames
              [Send OutChannelList; SendBuffer [0x55; 0x12; 0x21]; Send OutChannelList]
              0 (from Scenario.openSocket true))
    as (s' & fs & new & Hrun & _).
  { reflexivity. }
  { intros z Hz. discriminate Hz. }
  { repeat constructor. }
  { reflexivity. }
  { reflexivity. }
  { lia. }
  { vm_compute. discriminate. }
  exists s'. split; [exact Hrun|].
  vm_compute in Hrun. injection Hrun as <-. reflexivity.
Defined.

End WireFacts.

(** ** More on the registry *)

Module RegistryMore.
Import ActiveConnections.

Lemma indexOf_first conn before after :
  conn ∉ before ->
  indexOf conn (before ++ conn :: after) = Z.of_nat (length before).
Proof.
  induction before as [|c before IH]; intros Hnot; simpl.
  - by rewrite bool_decide_eq_true_2.
  - apply not_elem_of_cons in Hnot as [Hne Hrest].
    rewrite bool_decide_eq_false_2 by congruence.
    rewrite (IH Hrest). case_bool_decide; lia.
Qed.

Lemma splice_one {A : Type} (before after : list A) (x : A) :
  splice (Z.of_nat (length before)) 1 (before ++ x :: after) = before ++ after.
Proof.
  unfold splice. rewrite length_app. simpl.
  rewrite bool_decide_eq_false_2 by lia.
  replace (Z.to_nat (Z.of_nat (length before)
                     `min` Z.of_nat (length before + S (length after))))
    with (length before) by lia.
  replace (Z.to_nat _) with (length before + 1)%nat by lia.
  rewrite take_app_length. f_equal.
  rewrite drop_app_ge by lia.
  replace (length before + 1 - length before)%nat with 1%nat by lia. done.
Qed.

(** X4: [Remove] takes out the first entry of a registered connection
    and nothing else; later entries of the same connection stay. *)
Theorem Remove_first_entry (conn : ConnRef) (before after : list ConnRef) :
  conn ∉ before ->
  Remove conn (before ++ conn :: after) = before ++ after.
Proof.
  intros Hnot. unfold Remove. rewrite (indexOf_first _ _ _ Hnot).
  apply splice_one.
Qed.

Lemma Remove_first_entry_witness :
  (2%nat ∉ [1%nat])
  ∧ Remove 2%nat [1%nat; 2%nat; 3%nat; 2%nat] = [1%nat; 3%nat; 2%nat].
Proof.
  assert (2%nat ∉ [1%nat]) as Hnot.
  { intros H. apply list_elem_of_singleton in H. discriminate. }
  split; [exact Hnot|].
  exact (Remove_first_entry 2%nat [1%nat] [3%nat; 2%nat] Hnot).
Defined.

(** X5: registering a connection that is not registered and removing
    it again gives the registry back; if it was registered already, the
    pair moves its first entry to the end. *)
Theorem Add_then_Remove (conn : ConnRef) (connections : list ConnRef) :
  (conn ∉ connections -> Remove conn (Add conn connections) = connections)
  ∧ (∀ before after, conn ∉ before -> connections = before ++ conn :: after ->
       Remove conn (Add conn connections) = before ++ after ++ [conn]).
Proof.
  split.
  - intros Hnot. unfold Add.
    rewrite (Remove_first_entry conn connections [] Hnot). by rewrite app_nil_r.
  - intros before after Hnot ->. unfold Add.
    rewrite <- app_assoc. simpl. by apply Remove_first_entry.
Qed.

Lemma Add_then_Remove_witness :
  (3%nat ∉ [1%nat; 2%nat])
  ∧ Remove 3%nat (Add 3%nat [1%nat; 2%nat]) = [1%nat; 2%nat].
Proof.
  assert (3%nat ∉ [1%nat; 2%nat]) as Hnot.
  { intros H. apply elem_of_cons in H as [H | H]; [discriminate|].
    apply list_elem_of_singleton in H. discriminate. }
  split; [exact Hnot|].
  exact (proj1 (Add_then_Remove 3%nat [1%nat; 2%nat]) Hnot).
Defined.

Section Lookups.
Variable sockets : gmap ConnRef ExtendedSocket.t.

Lemma FindByOwnerId_app l1 l2 id :
  FindByOwnerId sockets (l1 ++ l2) id
  = match FindByOwnerId sockets l1 id with
    | Return None => FindByOwnerId sockets l2 id
    | r => r
    end.
Proof.
  induction l1 as [|c l1 IH]; simpl; [done|].
  destruct (ExtendedSocket.session (sockets !!! c)); [|done].
  by case_bool_decide.
Qed.

Lemma FindByOwnerId_none l id :
  (∀ c, c ∈ l -> ∃ o, ownerId sockets c = Some o ∧ o ≠ id) ->
  FindByOwnerId sockets l id = Return None.
Proof.
  induction l as [|c l IH]; intros Hall; simpl; [done|].
  destruct (Hall c) as (o & Ho & Hne); [by left|].
  unfold ownerId in Ho.
  destruct (ExtendedSocket.session (sockets !!! c)) as [s|]; [|done].
  simpl in Ho. injection Ho as <-.
  rewrite bool_decide_eq_false_2 by done.
  apply IH. intros c' Hc'. apply Hall. by right.
Qed.

End Lookups.

(** X6: looking up a user id after [Add]: a connection that was found
    before is still the one found (an earlier registration shadows a later
    one for the same user), and when none was found the added connection
    is found if its session's user has that id. *)
Theorem FindByOwnerId_after_Add (sockets : gmap ConnRef ExtendedSocket.t)
    (connections : list ConnRef) (conn : ConnRef) (id : Z) :
  (∀ c, FindByOwnerId sockets connections id = Return (Some c) ->
        FindByOwnerId sockets (Add conn connections) id = Return (Some c))
  ∧ (FindByOwnerId sockets connections id = Return None ->
     ownerId sockets conn = Some id ->
     FindByOwnerId sockets (Add conn connections) id = Return (Some conn)).
Proof.
  unfold Add. split.
  - intros c Hc. by rewrite FindByOwnerId_app, Hc.
  - intros Hnone Hid. rewrite FindByOwnerId_app, Hnone. simpl.
    unfold ownerId in Hid.
    destruct (ExtendedSocket.session (sockets !!! conn)) as [s|]; [|done].
    simpl in Hid. injection Hid as Hid. by rewrite bool_decide_eq_true_2.
Qed.

Lemma FindByOwnerId_after_Add_witness :
  FindByOwnerId Scenario.sockets [0%nat] 43 = Return None
  ∧ ownerId Scenario.sockets 1%nat = Some 43
  ∧ FindByOwnerId Scenario.sockets (Add 1%nat [0%nat]) 43 = Return (Some 1%nat).
Proof.
  split; [reflexivity|]. split; [reflexivity|].
  apply (proj2 (FindByOwnerId_after_Add Scenario.sockets [0%nat] 1%nat 43));
    reflexivity.
Defined.

(** X7: a registered connection without a session makes the lookup
    throw a TypeError as soon as the scan reaches it, that is, unless a
    connection registered before it matches. *)
Theorem FindByOwnerId_sessionless (sockets : gmap ConnRef ExtendedSocket.t)
    (before after : list ConnRef) (conn : ConnRef) (id : Z) :
  ExtendedSocket.session (sockets !!! conn) = None ->
  (∀ c, c ∈ before -> ∃ o, ownerId sockets c = Some o ∧ o ≠ id) ->
  FindByOwnerId sockets (before ++ conn :: after) id = Throw TypeError.
Proof.
  intros Hnone Hbefore.
  rewrite FindByOwnerId_app, (FindByOwnerId_none _ _ _ Hbefore). simpl.
  by rewrite Hnone.
Qed.

Lemma FindByOwnerId_sessionless_witness :
  ExtendedSocket.session (Scenario.sockets !!! 2%nat) = None
  ∧ FindByOwnerId Scenario.sockets ([0%nat] ++ 2%nat :: [1%nat]) 43 = Throw TypeError.
Proof.
  split; [reflexivity|].
  apply (FindByOwnerId_sessionless Scenario.sockets [0%nat] [1%nat] 2%nat 43);
    [reflexivity|].
  intros c Hc. apply list_elem_of_singleton in Hc as ->.
  exists 42. split; [reflexivity | discriminate].
Defined.

End RegistryMore.

(** ** More on the user manager *)

Module UserManagerMoreFacts.
Import World UserManager UserManagerMore.

Lemma outcome_bind_assoc {A B C : Type} (c : outcome A)
    (f : A -> outcome B) (g : B -> outcome C) :
  (c ≫= f) ≫= g = c ≫= (fun a => f a ≫= g).
Proof. by destruct c. Qed.

Lemma set_conn_conn c s w : conn (set_conn c s w) c = s.
Proof. unfold conn, set_conn. simpl. apply lookup_total_insert_eq. Qed.

Lemma set_conn_set_conn c s1 s2 w :
  set_conn c s2 (set_conn c s1 w) = set_conn c s2 w.
Proof. unfold set_conn, set_sockets. simpl. by rewrite insert_insert_eq. Qed.

Lemma runOn_cons_send c p o ops w :
  runOn c (ExtendedSocket.Send p :: o :: ops) w
  = (w1 ← send c p w; runOn c (o :: ops) w1).
Proof.
  unfold runOn, send. simpl.
  destruct (ExtendedSocket.send p (conn w c)) as [[b s]|e]; simpl; [|reflexivity].
  rewrite set_conn_conn.
  destruct (ExtendedSocket.step o s) as [s1|e1]; simpl; [|reflexivity].
  destruct (ExtendedSocket.run ops s1) as [s'|e']; simpl; [|reflexivity].
  by rewrite set_conn_set_conn.
Qed.

Lemma runOn_cons_sendBuffer c buff o ops w :
  runOn c (ExtendedSocket.SendBuffer buff :: o :: ops) w
  = (w1 ← sendBuffer c buff w; runOn c (o :: ops) w1).
Proof.
  unfold runOn, sendBuffer. simpl.
  destruct (ExtendedSocket.sendBuffer buff (conn w c)) as [[b s]|e]; simpl; [|reflexivity].
  rewrite set_conn_conn.
  destruct (ExtendedSocket.step o s) as [s1|e1]; simpl; [|reflexivity].
  destruct (ExtendedSocket.run ops s1) as [s'|e']; simpl; [|reflexivity].
  by rewrite set_conn_set_conn.
Qed.

Lemma runOn_send c p w : runOn c [ExtendedSocket.Send p] w = send c p w.
Proof.
  unfold runOn, send. simpl.
  by destruct (ExtendedSocket.send p (conn w c)) as [[b s]|e].
Qed.

Ltac chain_step c :=
  first [rewrite runOn_cons_send | rewrite runOn_cons_sendBuffer];
  match goal with
  | |- context [send c ?p ?w] =>
      destruct (send c p w); simpl; [|reflexivity]
  | |- context [sendBuffer c ?b ?w] =>
      destruct (sendBuffer c b w); simpl; [|reflexivity]
  end.

(** The sends of a login are one run on the connection. *)
Lemma login_sends user holepunchPort up c w :
  (w3 ← sendUserInfoToSelf user c holepunchPort w;
   w4 ← sendInventory up c w3;
   sendChannelListTo c w4)
  = runOn c (loginOps user holepunchPort up) w.
Proof.
  unfold loginOps, sendUserInfoToSelf, sendInventory, sendChannelListTo.
  destruct (Answers.getInventory up), (Answers.getCosmetics up),
    (Answers.getAllLoadouts up), (Answers.getBuyMenu up);
    cbn [app]; repeat chain_step c; by rewrite runOn_send.
Qed.

Lemma loginOps_sendable user holepunchPort up :
  Forall ExtendedSocket.Sendable (loginOps user holepunchPort up).
Proof.
  unfold loginOps.
  destruct (Answers.getInventory up), (Answers.getCosmetics up),
    (Answers.getAllLoadouts up), (Answers.getBuyMenu up);
    repeat constructor; vm_compute; lia.
Qed.

Lemma onLoginPacket_success_run up c holepunchPort w user :
  Answers.Login up ≠ 0 -> Answers.Login up ≠ -1 ->
  Answers.GetUserById up = Some user ->
  onLoginPacket up c holepunchPort w
  = (w' ← runOn c (loginOps user holepunchPort up)
            (set_connections (ActiveConnections.Add c (connections w))
               (set_conn c
                  (ExtendedSocket.set_session
                     (Some (UserSession.mk user None None)) (conn w c)) w));
     Return (true, w')).
Proof.
  intros H0 H1 Huser. unfold onLoginPacket.
  rewrite !bool_decide_eq_false_2 by done. rewrite Huser.
  rewrite <- login_sends. cbn zeta.
  change (connections (set_conn c _ w)) with (connections w).
  destruct (sendUserInfoToSelf user c holepunchPort _) as [w3|]; simpl; [|done].
  destruct (sendInventory up c w3) as [w4|]; simpl; [|done].
  by destruct (sendChannelListTo c w4).
Qed.

Lemma onLoginPacket_success_core up c holepunchPort w user z :
  Answers.Login up ≠ 0 -> Answers.Login up ≠ -1 ->
  Answers.GetUserById up = Some user ->
  ExtendedSocket.Counting z (conn w c) ->
  ∃ s', onLoginPacket up c holepunchPort w
        = Return (true, World.mk (<[c:=s']> (sockets w))
                          (ActiveConnections.Add c (connections w))
                          (rooms w) (channels w))
        ∧ ExtendedSocket.session s' = Some (UserSession.mk user None None)
        ∧ NetSocket.written (ExtendedSocket.socket s')
          = NetSocket.written (ExtendedSocket.socket (conn w c))
            ++ Wire.frames z (loginOps user holepunchPort up).
Proof.
  intros H0 H1 Huser Hc.
  rewrite (onLoginPacket_success_run _ _ _ _ _ H0 H1 Huser).
  unfold runOn.
  assert (conn (set_connections (ActiveConnections.Add c (connections w))
                  (set_conn c (ExtendedSocket.set_session
                                 (Some (UserSession.mk user None None)) (conn w c)) w)) c
          = ExtendedSocket.set_session (Some (UserSession.mk user None None)) (conn w c))
    as -> by apply set_conn_conn.
  destruct (WireFacts.run_frames (loginOps user holepunchPort up) z
              (ExtendedSocket.set_session (Some (UserSession.mk user None None)) (conn w c)))
    as (s' & -> & Hw & Hsess & _).
  { exact Hc. }
  { apply loginOps_sendable. }
  exists s'. simpl. split; [|split; [exact Hsess | exact Hw]].
  unfold set_conn, set_sockets, set_connections. simpl.
  by rewrite insert_insert_eq.
Qed.

(** X8: a successful login on a connection whose counter is running
    returns true, attaches a session for the fetched user, appends the
    connection to the registry, and writes to the connection, in this
    order and with consecutive sequence bytes: UserStart, the
    achievement buffer, FullUserUpdate, then (only if all four inventory
    answers are there) inventory, unlock buffer, cosmetics, loadouts and
    buy menu, and last the channel list.  Rooms, channels and the other
    connections are untouched. *)
Theorem login_success_effects (up : Answers.t) (c : ConnRef)
    (holepunchPort : Z) (w : World.t) (user : User.t) (z : Z) :
  Answers.Login up ≠ 0 -> Answers.Login up ≠ -1 ->
  Answers.GetUserById up = Some user ->
  ExtendedSocket.Counting z (conn w c) ->
  ∃ w', onLoginPacket up c holepunchPort w = Return (true, w')
        ∧ ExtendedSocket.session (conn w' c) = Some (UserSession.mk user None None)
        ∧ connections w' = ActiveConnections.Add c (connections w)
        ∧ NetSocket.written (ExtendedSocket.socket (conn w' c))
          = NetSocket.written (ExtendedSocket.socket (conn w c))
            ++ Wire.frames z (loginOps user holepunchPort up)
        ∧ rooms w' = rooms w
        ∧ channels w' = channels w
        ∧ ∀ c', c' ≠ c -> sockets w' !! c' = sockets w !! c'.
Proof.
  intros H0 H1 Huser Hc.
  destruct (onLoginPacket_success_core up c holepunchPort w user z H0 H1 Huser Hc)
    as (s' & -> & Hsess & Hw).
  eexists. split; [reflexivity|]. unfold conn in *. simpl.
  rewrite !lookup_total_insert_eq. split_and!; try done.
  intros c' Hne. by rewrite lookup_insert_ne.
Qed.

Lemma loginWorld_counting : ExtendedSocket.Counting 0 (conn loginWorld 2%nat).
Proof.
  unfold ExtendedSocket.Counting, ExtendedSocket.MAX_SEQUENCE.
  split; [reflexivity|]. split; [lia | reflexivity].
Defined.

Lemma login_success_effects_witness :
  ExtendedSocket.Counting 0 (conn loginWorld 2%nat)
  ∧ ∃ w', onLoginPacket
            (Answers.mk 44 (Some (User.mk 44 "carol" "Carol"))
               (Some [1]) (Some [2]) (Some [3]) (Some [4]))
            2%nat 30002 loginWorld = Return (true, w')
          ∧ connections w' = [0%nat; 1%nat; 2%nat]
          ∧ ExtendedSocket.sequences (conn w' 2%nat) = [0; 1; 2; 3; 4; 5; 6; 7; 8].
Proof.
  split; [exact loginWorld_counting|].
  destruct (login_success_effects
              (Answers.mk 44 (Some (User.mk 44 "carol" "Carol"))
                 (Some [1]) (Some [2]) (Some [3]) (Some [4]))
              2%nat 30002 loginWorld (User.mk 44 "carol" "Carol") 0)
    as (w' & Hrun & _ & Hconn & Hw & _).
  { simpl. lia. }
  { simpl. lia. }
  { reflexivity. }
  { exact loginWorld_counting. }
  exists w'. split; [exact Hrun|]. split; [exact Hconn|].
  unfold ExtendedSocket.sequences. rewrite Hw. reflexivity.
Defined.

Lemma lookup_total_agree (m m' : gmap ConnRef ExtendedSocket.t) c :
  m' !! c = m !! c -> m' !!! c = m !!! c.
Proof. intros H. by rewrite !lookup_total_alt, H. Qed.

Lemma FindByOwnerId_new_session (sockets sockets' : gmap ConnRef ExtendedSocket.t)
    (c : ConnRef) (id : Z) (connections : list ConnRef) :
  (∀ c', c' ≠ c -> sockets' !! c' = sockets !! c') ->
  ActiveConnections.ownerId sockets' c = Some id ->
  (∀ c', c' ∈ connections -> c' ≠ c ->
         ∃ o, ActiveConnections.ownerId sockets c' = Some o ∧ o ≠ id) ->
  ActiveConnections.FindByOwnerId sockets' (connections ++ [c]) id = Return (Some c).
Proof.
  intros Hagree Hc. unfold ActiveConnections.ownerId in Hc.
  destruct (ExtendedSocket.session (sockets' !!! c)) as [sc|] eqn:Hsc; [|done].
  simpl in Hc. injection Hc as Hc.
  induction connections as [|c0 rest IH]; intros Hothers; simpl.
  - by rewrite Hsc, bool_decide_eq_true_2.
  - destruct (decide (c0 = c)) as [->|Hne].
    + by rewrite Hsc, bool_decide_eq_true_2.
    + destruct (Hothers c0) as (o & Ho & Hdiff); [by left | done |].
      unfold ActiveConnections.ownerId in Ho.
      rewrite (lookup_total_agree _ _ _ (Hagree c0 Hne)).
      destruct (ExtendedSocket.session (sockets !!! c0)) as [s0|]; [|done].
      simpl in Ho. injection Ho as <-.
      rewrite bool_decide_eq_false_2 by done.
      apply IH. intros c' Hc' Hne'. apply Hothers; [by right | done].
Qed.

(** X9: after a successful login the registry resolves the user's id to
    the connection that logged in, provided no other registered
    connection belongs to that user.  This holds whatever the sequence
    counter of the connection holds (also unset, as [from] leaves it) and
    whether or not its socket is still open. *)
Theorem FindByOwnerId_after_login (up : Answers.t) (c : ConnRef)
    (holepunchPort : Z) (w : World.t) (user : User.t) :
  Answers.Login up ≠ 0 -> Answers.Login up ≠ -1 ->
  Answers.GetUserById up = Some user ->
  ExtendedSocket.Stampable (conn w c) ->
  (∀ c', c' ∈ connections w -> c' ≠ c ->
         ∃ o, ActiveConnections.ownerId (sockets w) c' = Some o ∧ o ≠ User.id user) ->
  ∃ w', onLoginPacket up c holepunchPort w = Return (true, w')
        ∧ ExtendedSocket.session (conn w' c) = Some (UserSession.mk user None None)
        ∧ connections w' = ActiveConnections.Add c (connections w)
        ∧ ActiveConnections.FindByOwnerId (sockets w') (connections w') (User.id user)
          = Return (Some c).
Proof.
  intros H0 H1 Huser Hs Hothers.
  rewrite (onLoginPacket_success_run _ _ _ _ _ H0 H1 Huser).
  unfold runOn.
  assert (conn (set_connections (ActiveConnections.Add c (connections w))
                  (set_conn c (ExtendedSocket.set_session
                                 (Some (UserSession.mk user None None)) (conn w c)) w)) c
          = ExtendedSocket.set_session (Some (UserSession.mk user None None)) (conn w c))
    as -> by apply set_conn_conn.
  destruct (WireFacts.run_returns (loginOps user holepunchPort up)
              (ExtendedSocket.set_session (Some (UserSession.mk user None None))
                 (conn w c)))
    as (s' & -> & _ & Hsess).
  { exact Hs. }
  { apply loginOps_sendable. }
  simpl in Hsess. eexists. split; [reflexivity|].
  unfold conn. simpl. rewrite lookup_total_insert_eq.
  split; [exact Hsess|]. split; [done|].
  apply (FindByOwnerId_new_session (sockets w)); [| |exact Hothers].
  - intros c' Hne. by rewrite !lookup_insert_ne.
  - unfold ActiveConnections.ownerId. rewrite lookup_total_insert_eq, Hsess. done.
Qed.

(** Connection 2 of the scenario, as accepted. *)
Lemma FindByOwnerId_after_login_witness :
  ∃ w', onLoginPacket
          (Answers.mk 44 (Some (User.mk 44 "carol" "Carol")) None None None None)
          2%nat 30002 (Scenario.world Waiting) = Return (true, w')
        ∧ ActiveConnections.FindByOwnerId (sockets w') (connections w') 44
          = Return (Some 2%nat).
Proof.
  destruct (FindByOwnerId_after_login
              (Answers.mk 44 (Some (User.mk 44 "carol" "Carol")) None None None None)
              2%nat 30002 (Scenario.world Waiting) (User.mk 44 "carol" "Carol"))
    as (w' & Hrun & _ & _ & Hfind).
  - simpl. lia.
  - simpl. lia.
  - reflexivity.
  - intros z Hz. discriminate Hz.
  - intros c' Hc' _. simpl in Hc'.
    apply elem_of_cons in Hc' as [-> | Hc'].
    + exists 42. split; [reflexivity | discriminate].
    + apply list_elem_of_singleton in Hc' as ->.
      exists 43. split; [reflexivity | discriminate].
  - exists w'. split; [exact Hrun | exact Hfind].
Defined.

End UserManagerMoreFacts.

(** ** Host, option and favorite requests *)

Module HostRequestFacts.
Import World UserManager UserManagerMore.

Ltac cases :=
  repeat match goal with
    | |- context [match ?x with _ => _ end] => destruct x eqn:?; simpl
    | |- context [mbind _ ?x] => destruct x eqn:?; simpl
    end.

(** X10: a host request that returns false has changed nothing, for
    each of the five host handlers. *)
Theorem host_request_denied_without_effect (userId itemId : Z)
    (newTeam : option RoomTeamNum) (inventory : option (list Z))
    (loadouts buyMenu : list Z) (userConn : ConnRef) (w w' : World.t) :
  (onItemUsing userId itemId userConn w = Return (false, w') -> w' = w)
  ∧ (onTeamChangingRequest userId newTeam userConn w = Return (false, w') -> w' = w)
  ∧ (onHostSetUserInventory inventory userId userConn w = Return (false, w') -> w' = w)
  ∧ (onHostSetUserLoadout loadouts userId userConn w = Return (false, w') -> w' = w)
  ∧ (onHostSetUserBuyMenu buyMenu userId userConn w = Return (false, w') -> w' = w).
Proof.
  unfold onItemUsing, onTeamChangingRequest, onHostSetUserInventory,
    onHostSetUserLoadout, onHostSetUserBuyMenu, sessionOf.
  split_and!; cases; intros [= <-]; reflexivity || discriminate.
Qed.

(** X11: a host request returns true only for a requester that has a
    session, is in a room and is that room's host, and whose target user
    id resolves to a registered connection with a session. *)
Theorem host_request_needs_authority (userId itemId : Z)
    (newTeam : option RoomTeamNum) (inventory : option (list Z))
    (loadouts buyMenu : list Z) (userConn : ConnRef) (w w' : World.t) :
  (onItemUsing userId itemId userConn w = Return (true, w')
   ∨ onTeamChangingRequest userId newTeam userConn w = Return (true, w')
   ∨ onHostSetUserInventory inventory userId userConn w = Return (true, w')
   ∨ onHostSetUserLoadout loadouts userId userConn w = Return (true, w')
   ∨ onHostSetUserBuyMenu buyMenu userId userConn w = Return (true, w')) ->
  Authorized userId userConn w.
Proof.
  unfold onItemUsing, onTeamChangingRequest, onHostSetUserInventory,
    onHostSetUserLoadout, onHostSetUserBuyMenu, sessionOf.
  intros [H|[H|[H|[H|H]]]]; revert H; cases; intros [= <-]; try discriminate;
    repeat match goal with
      | H : bool_decide _ = false |- _ => apply bool_decide_eq_false in H
      end;
    unfold Authorized; do 4 eexists; split_and!; try eassumption; try reflexivity;
    match goal with H : ¬ (_ ≠ _) |- _ => by apply dec_stable in H end.
Qed.

Lemma host_request_denied_without_effect_witness :
  onItemUsing 43 5 1%nat (Scenario.world Waiting)
  = Return (false, Scenario.world Waiting).
Proof.
  assert (∃ w', onItemUsing 43 5 1%nat (Scenario.world Waiting) = Return (false, w'))
    as [w' Hw'] by (eexists; vm_compute; reflexivity).
  rewrite Hw'. do 2 f_equal.
  exact (proj1 (host_request_denied_without_effect 43 5 None None [] [] 1%nat
                  (Scenario.world Waiting) w') Hw').
Defined.

Lemma host_request_needs_authority_witness :
  ∃ w', onItemUsing 43 5 0%nat (Scenario.world Waiting) = Return (true, w')
        ∧ Authorized 43 0%nat (Scenario.world Waiting).
Proof.
  assert (∃ w', onItemUsing 43 5 0%nat (Scenario.world Waiting) = Return (true, w'))
    as [w' Hw'] by (eexists; vm_compute; reflexivity).
  exists w'. split; [exact Hw'|].
  exact (host_request_needs_authority 43 5 None None [] [] 0%nat
           (Scenario.world Waiting) w' (or_introl Hw')).
Defined.

Lemma send_effect c p w :
  ExtendedSocket.Stampable (conn w c) ->
  ∃ w', send c p w = Return w'
        ∧ ExtendedSocket.payloads (conn w' c)
          = ExtendedSocket.payloads (conn w c)
            ++ (if NetSocket.destroyed (ExtendedSocket.socket (conn w c)) then []
                else [Packet p])
        ∧ ExtendedSocket.session (conn w' c) = ExtendedSocket.session (conn w c)
        ∧ connections w' = connections w
        ∧ rooms w' = rooms w
        ∧ channels w' = channels w
        ∧ ∀ c', c' ≠ c -> sockets w' !! c' = sockets w !! c'.
Proof.
  intros Hs. unfold send.
  destruct (SocketFacts.send_stampable p _ Hs) as (b & s' & -> & Hsess & _ & _ & Hpay).
  simpl. eexists. split; [reflexivity|]. unfold conn in *. simpl.
  rewrite lookup_total_insert_eq. split_and!; try done.
  intros c' Hne. by rewrite lookup_insert_ne.
Qed.

(** X12: an authorized ItemUsing request returns true and writes the
    item-use packet, carrying the target user id and the item id, to the
    requesting host's own connection; no other connection, no room and
    not the registry change. *)
Theorem onItemUsing_answers_the_host (userId itemId : Z) (userConn : ConnRef)
    (w : World.t) :
  Authorized userId userConn w ->
  ExtendedSocket.Stampable (conn w userConn) ->
  ∃ w', onItemUsing userId itemId userConn w = Return (true, w')
        ∧ ExtendedSocket.payloads (conn w' userConn)
          = ExtendedSocket.payloads (conn w userConn)
            ++ (if NetSocket.destroyed (ExtendedSocket.socket (conn w userConn))
                then [] else [Packet (OutHostPacket_itemUse userId itemId)])
        ∧ connections w' = connections w
        ∧ rooms w' = rooms w
        ∧ ∀ c', c' ≠ userConn -> sockets w' !! c' = sockets w !! c'.
Proof.
  intros (rs & r & tc & ts & Hrs & Hroom & Hhost & Hfind & Hts) Hs.
  destruct (send_effect userConn (OutHostPacket_itemUse userId itemId) w Hs)
    as (w' & Hsend & Hpay & _ & Hconn & Hrooms & _ & Hothers).
  exists w'. split; [|done].
  unfold onItemUsing, sessionOf, UserSession.isInRoom.
  rewrite Hfind. simpl. rewrite Hts, Hrs, Hroom. simpl.
  rewrite bool_decide_eq_false_2 by (intros H; by apply H).
  by rewrite Hsend.
Qed.

Lemma Scenario_alice_authorized : Authorized 43 0%nat (Scenario.world Waiting).
Proof.
  exists (UserSession.mk Scenario.alice (Some 0%nat) (Some 0%nat)), 0%nat, 1%nat,
    (UserSession.mk Scenario.bob (Some 0%nat) None).
  split_and!; reflexivity.
Defined.

Lemma Scenario_alice_stampable :
  ExtendedSocket.Stampable (conn (Scenario.world Waiting) 0%nat).
Proof. intros z Hz. discriminate Hz. Defined.

Lemma onItemUsing_answers_the_host_witness :
  Authorized 43 0%nat (Scenario.world Waiting)
  ∧ ∃ w', onItemUsing 43 5 0%nat (Scenario.world Waiting) = Return (true, w')
          ∧ ExtendedSocket.payloads (conn w' 0%nat) = [Packet (OutHostPacket_itemUse 43 5)]
          ∧ sockets w' !! 1%nat = Some Scenario.bobConn.
Proof.
  split; [exact Scenario_alice_authorized|].
  destruct (onItemUsing_answers_the_host 43 5 0%nat (Scenario.world Waiting)
              Scenario_alice_authorized Scenario_alice_stampable)
    as (w' & Hrun & Hpay & _ & _ & Hothers).
  exists w'. split; [exact Hrun|]. split; [exact Hpay|].
  etrans; [apply (Hothers 1%nat); discriminate | reflexivity].
Defined.

(** X13: an authorized SetInventory request fetches the inventory of
    the requesting host (not of the target) and writes it to the host's
    connection labelled with the target's user id; when the service has no
    inventory for the host, the handler throws a TypeError. *)
Theorem onHostSetUserInventory_sends_host_inventory
    (getInventory : Z -> option (list Z)) (userId : Z) (userConn : ConnRef)
    (w : World.t) (requesterSession : UserSession.t) (targetConn : ConnRef)
    (targetSession : UserSession.t) (currentRoom : RoomRef) :
  ExtendedSocket.session (conn w userConn) = Some requesterSession ->
  UserSession.currentRoom requesterSession = Some currentRoom ->
  RoomUser.userId (Room.host (room w currentRoom))
    = User.id (UserSession.user requesterSession) ->
  ActiveConnections.FindByOwnerId (sockets w) (connections w) userId
    = Return (Some targetConn) ->
  ExtendedSocket.session (conn w targetConn) = Some targetSession ->
  ExtendedSocket.Stampable (conn w userConn) ->
  match getInventory (User.id (UserSession.user requesterSession)) with
  | None => onHostSetUserInventoryFrom getInventory userId userConn w = Throw TypeError
  | Some items =>
      ∃ w', onHostSetUserInventoryFrom getInventory userId userConn w = Return (true, w')
            ∧ ExtendedSocket.payloads (conn w' userConn)
              = ExtendedSocket.payloads (conn w userConn)
                ++ (if NetSocket.destroyed (ExtendedSocket.socket (conn w userConn))
                    then []
                    else [Packet (OutHostPacket_setInventory
                                    (User.id (UserSession.user targetSession)) items)])
            ∧ ∀ c', c' ≠ userConn -> sockets w' !! c' = sockets w !! c'
  end.
Proof.
  intros Hrs Hroom Hhost Hfind Hts Hs.
  unfold onHostSetUserInventoryFrom, sessionOf, UserSession.isInRoom,
    sendUserInventoryToFrom, sendUserInventoryTo.
  rewrite Hfind. simpl. rewrite Hts, Hrs, Hroom. simpl.
  rewrite bool_decide_eq_false_2 by (intros H; by apply H).
  destruct (getInventory _) as [items|]; [|done].
  destruct (send_effect userConn
              (OutHostPacket_setInventory (User.id (UserSession.user targetSession)) items)
              w Hs) as (w' & Hsend & Hpay & _ & _ & _ & _ & Hothers).
  exists w'. rewrite Hsend. done.
Qed.

Lemma onHostSetUserInventory_sends_host_inventory_witness :
  ∃ w', onHostSetUserInventoryFrom
          (fun id => if bool_decide (id = 42) then Some [4001; 4002] else Some [7])
          43 0%nat (Scenario.world Waiting) = Return (true, w')
        ∧ ExtendedSocket.payloads (conn w' 0%nat)
          = [Packet (OutHostPacket_setInventory 43 [4001; 4002])].
Proof.
  destruct (onHostSetUserInventory_sends_host_inventory
              (fun id => if bool_decide (id = 42) then Some [4001; 4002] else Some [7])
              43 0%nat (Scenario.world Waiting)
              (UserSession.mk Scenario.alice (Some 0%nat) (Some 0%nat)) 1%nat
              (UserSession.mk Scenario.bob (Some 0%nat) None) 0%nat
              eq_refl eq_refl eq_refl eq_refl eq_refl Scenario_alice_stampable)
    as (w' & Hrun & Hpay & _).
  exists w'. split; [exact Hrun | exact Hpay].
Defined.

(** X14: an Option or Favorite packet is acted on exactly for a
    connection with a session and a known sub-type.  Then the handler
    returns true and makes one call to the user service, for the user id
    of the connection's own session and with the packet's data: the buy
    menu, the loadout weapon, or the cosmetic slot.  In every other case
    (no session, or an unknown sub-type) it returns false and makes no
    call; so whenever a handler returns true it made exactly one call,
    and that call is for the session's own user. *)
Theorem option_and_favorite_requests (optPacket : InOptionPacket)
    (favPacket : InFavoritePacket) (c : ConnRef) (w : World.t) :
  (∀ session, ExtendedSocket.session (conn w c) = Some session ->
     (∀ buyMenu,
        onOptionPacket (Option_SetBuyMenu buyMenu) c w
        = (true, [setBuyMenu (User.id (UserSession.user session)) buyMenu]))
     ∧ (∀ loadout weaponSlot itemId,
          onFavoritePacket (Favorite_SetLoadout loadout weaponSlot itemId) c w
          = (true, [setLoadoutWeapon (User.id (UserSession.user session))
                      loadout weaponSlot itemId]))
     ∧ (∀ slot itemId,
          onFavoritePacket (Favorite_SetCosmetics slot itemId) c w
          = (true, [setCosmeticSlot (User.id (UserSession.user session))
                      slot itemId])))
  ∧ (ExtendedSocket.session (conn w c) = None ->
     onOptionPacket optPacket c w = (false, [])
     ∧ onFavoritePacket favPacket c w = (false, []))
  ∧ (∀ packetType, onOptionPacket (Option_other packetType) c w = (false, [])
                   ∧ onFavoritePacket (Favorite_other packetType) c w = (false, []))
  ∧ (∀ b calls, onOptionPacket optPacket c w = (b, calls)
                ∨ onFavoritePacket favPacket c w = (b, calls) ->
       (b = false -> calls = [])
       ∧ (b = true ->
          ∃ session call,
            ExtendedSocket.session (conn w c) = Some session
            ∧ calls = [call]
            ∧ callUser call = User.id (UserSession.user session))).
Proof.
  unfold onOptionPacket, onFavoritePacket, onOptionSetBuyMenu,
    onFavoriteSetLoadout, onFavoriteSetCosmetics.
  split_and!.
  - intros session ->. done.
  - by intros ->.
  - intros packetType. by destruct (ExtendedSocket.session (conn w c)).
  - intros b calls.
    destruct (ExtendedSocket.session (conn w c)) as [session|];
      destruct optPacket, favPacket; intros [[= <- <-]|[= <- <-]];
      (split; [done|]); intros; try discriminate;
      do 2 eexists; split_and!; reflexivity.
Qed.

Lemma option_and_favorite_requests_witness :
  onOptionPacket (Option_SetBuyMenu [1; 2]) 1%nat (Scenario.world Waiting)
  = (true, [setBuyMenu 43 [1; 2]])
  ∧ onFavoritePacket (Favorite_SetCosmetics 3 1004) 2%nat (Scenario.world Waiting)
    = (false, []).
Proof.
  split.
  - apply (proj1 (option_and_favorite_requests (Option_other 0) (Favorite_other 0)
                    1%nat (Scenario.world Waiting))
             (UserSession.mk Scenario.bob (Some 0%nat) None) eq_refl).
  - apply (proj1 (proj2 (option_and_favorite_requests (Option_other 0)
                           (Favorite_SetCosmetics 3 1004) 2%nat (Scenario.world Waiting)))).
    reflexivity.
Defined.

End HostRequestFacts.

(** ** More on the room handler *)

Module RoomHandlerMoreFacts.
Import World RoomHandler RoomHandlerMore.

(** X15: the other failures of a join request, in the order the handler
    tests them: outside a channel it returns false without any dialog;
    for a room id the channel does not have it sends the closed-room
    dialog; for a room without a free slot it sends the room-full dialog,
    whatever password was supplied.  Nothing else changes. *)
Theorem onJoinRoomRequest_other_failures (joinReq : InRoomJoinRequest.t)
    (sourceConn : ConnRef) (w : World.t) (session : UserSession.t) :
  ExtendedSocket.session (conn w sourceConn) = Some session ->
  ExtendedSocket.Stampable (conn w sourceConn) ->
  (UserSession.currentChannel session = None ->
   onJoinRoomRequest joinReq sourceConn w = Return (false, w))
  ∧ (∀ channel, UserSession.currentChannel session = Some channel ->
       getRoomById w channel (InRoomJoinRequest.roomId joinReq) = None ->
       Denied GAME_ROOM_JOIN_FAILED_CLOSED sourceConn w
         (onJoinRoomRequest joinReq sourceConn w))
  ∧ (∀ channel desiredRoom, UserSession.currentChannel session = Some channel ->
       getRoomById w channel (InRoomJoinRequest.roomId joinReq) = Some desiredRoom ->
       Room.hasFreeSlots (room w desiredRoom) = false ->
       Denied GAME_ROOM_JOIN_FAILED_FULL sourceConn w
         (onJoinRoomRequest joinReq sourceConn w)).
Proof.
  intros Hsess Hs. unfold onJoinRoomRequest, SendUserDialogBox. rewrite Hsess.
  split_and!.
  - by intros ->.
  - intros channel -> ->. by apply UserManagerFacts.dialog_denied.
  - intros channel desiredRoom -> -> ->. simpl.
    by apply UserManagerFacts.dialog_denied.
Qed.

Lemma Scenario_bob_stampable :
  ExtendedSocket.Stampable (conn (Scenario.world Waiting) 1%nat).
Proof. intros z Hz. discriminate Hz. Defined.

Lemma onJoinRoomRequest_other_failures_witness :
  ExtendedSocket.session (conn (Scenario.world Waiting) 1%nat)
    = Some (UserSession.mk Scenario.bob (Some 0%nat) None)
  ∧ Denied GAME_ROOM_JOIN_FAILED_CLOSED 1%nat (Scenario.world Waiting)
      (onJoinRoomRequest (InRoomJoinRequest.mk 7 "secret") 1%nat (Scenario.world Waiting)).
Proof.
  split; [reflexivity|].
  apply (proj1 (proj2 (onJoinRoomRequest_other_failures
                         (InRoomJoinRequest.mk 7 "secret") 1%nat (Scenario.world Waiting)
                         (UserSession.mk Scenario.bob (Some 0%nat) None)
                         eq_refl Scenario_bob_stampable)) 0%nat);
    reflexivity.
Defined.

(** X16: what an occupant who is not the room's host cannot do: toggle
    the countdown, update the settings, start a match that is not in
    game already, or, with bots enabled and not being ready, change
    team.  Each request returns false and changes nothing. *)
Theorem non_host_requests_refused (api : RoomApi) (sourceConn : ConnRef)
    (w : World.t) (session : UserSession.t) (currentRoom : RoomRef) :
  ExtendedSocket.session (conn w sourceConn) = Some session ->
  UserSession.currentRoom session = Some currentRoom ->
  User.id (UserSession.user session)
    ≠ RoomUser.userId (Room.host (room w currentRoom)) ->
  (∀ shouldCountdown count,
     onGameStartToggleRequest api shouldCountdown count sourceConn w = Return (false, w))
  ∧ (∀ req, onRoomUpdateSettings req sourceConn w = Return (false, w))
  ∧ (Room.getStatus (room w currentRoom) ≠ Ingame ->
     onGameStartRequest api sourceConn w = Return (false, w))
  ∧ (∀ newTeam,
       RoomSettings.areBotsEnabled (Room.settings (room w currentRoom)) = true ->
       isUserReady api w currentRoom (User.id (UserSession.user session)) = false ->
       onSetTeamRequest api newTeam sourceConn w = Return (false, w)).
Proof.
  intros Hsess Hroom Hhost.
  unfold onGameStartToggleRequest, onRoomUpdateSettings, onGameStartRequest,
    onSetTeamRequest.
  rewrite Hsess, Hroom. split_and!.
  - intros. by rewrite bool_decide_eq_true_2.
  - intros. by rewrite bool_decide_eq_true_2.
  - intros Hst. by rewrite !bool_decide_eq_false_2.
  - intros newTeam -> ->. simpl. by rewrite bool_decide_eq_true_2.
Qed.

(** Bob as an occupant of Alice's room. *)
Lemma non_host_requests_refused_witness :
  onGameStartToggleRequest idleApi true 5 1%nat RoomScenario.world
  = Return (false, RoomScenario.world)
  ∧ onGameStartRequest idleApi 1%nat RoomScenario.world
    = Return (false, RoomScenario.world).
Proof.
  destruct (non_host_requests_refused idleApi 1%nat RoomScenario.world
              (UserSession.mk Scenario.bob (Some 0%nat) (Some 0%nat)) 0%nat
              eq_refl eq_refl) as (Htoggle & _ & Hstart & _).
  { simpl. discriminate. }
  split; [apply Htoggle|]. apply Hstart. simpl. discriminate.
Defined.

Lemma system_message_refused msg c w :
  ExtendedSocket.Stampable (conn w c) ->
  Refused msg c w (w1 ← SendUserSystemMsg c msg w; Return (false, w1)).
Proof.
  intros Hs. unfold SendUserSystemMsg.
  destruct (HostRequestFacts.send_effect c (OutChatPacket_systemMessage msg System) w Hs)
    as (w' & -> & Hpay & Hsess & Hconn & Hrooms & Hch & Hothers).
  simpl. exists w'. done.
Qed.

(** X17: refusals that depend on the state of the room.  An occupant
    who is ready cannot change team and is told so with a system chat
    message (not a dialog box); the host cannot toggle the countdown
    while the game cannot start and is told so in the same way; an
    occupant who is ready cannot leave while the countdown is in
    progress, and gets no message at all.  All three return false and
    change nothing else. *)
Theorem state_dependent_refusals (api : RoomApi) (sourceConn : ConnRef)
    (w : World.t) (session : UserSession.t) (currentRoom : RoomRef) :
  ExtendedSocket.session (conn w sourceConn) = Some session ->
  UserSession.currentRoom session = Some currentRoom ->
  ExtendedSocket.Stampable (conn w sourceConn) ->
  (∀ newTeam,
     isUserReady api w currentRoom (User.id (UserSession.user session)) = true ->
     Refused GAME_ROOM_CHANGETEAM_FAILED sourceConn w
       (onSetTeamRequest api newTeam sourceConn w))
  ∧ (∀ shouldCountdown count,
       User.id (UserSession.user session)
         = RoomUser.userId (Room.host (room w currentRoom)) ->
       canStartGame api w currentRoom = false ->
       Refused GAME_ROOM_COUNTDOWN_FAILED_NOENEMIES sourceConn w
         (onGameStartToggleRequest api shouldCountdown count sourceConn w))
  ∧ (isUserReady api w currentRoom (User.id (UserSession.user session)) = true ->
     Room.isGlobalCountdownInProgress (room w currentRoom) = true ->
     onLeaveRoomRequest api sourceConn w = Return (false, w)).
Proof.
  intros Hsess Hroom Hs.
  unfold onSetTeamRequest, onGameStartToggleRequest, onLeaveRoomRequest.
  rewrite Hsess, Hroom. split_and!.
  - intros newTeam ->. by apply system_message_refused.
  - intros shouldCountdown count Hhost ->.
    rewrite bool_decide_eq_false_2 by (intros H; by apply H). simpl.
    by apply system_message_refused.
  - by intros -> ->.
Qed.

Lemma state_dependent_refusals_witness :
  Refused GAME_ROOM_COUNTDOWN_FAILED_NOENEMIES 0%nat (Scenario.world Countdown)
    (onGameStartToggleRequest readyApi true 5 0%nat (Scenario.world Countdown))
  ∧ onLeaveRoomRequest readyApi 0%nat (Scenario.world Countdown)
    = Return (false, Scenario.world Countdown).
Proof.
  destruct (state_dependent_refusals readyApi 0%nat (Scenario.world Countdown)
              (UserSession.mk Scenario.alice (Some 0%nat) (Some 0%nat)) 0%nat
              eq_refl eq_refl) as (_ & Htoggle & Hleave).
  { intros z Hz. discriminate Hz. }
  split; [apply Htoggle; reflexivity | apply Hleave; reflexivity].
Defined.

End RoomHandlerMoreFacts.

(** ** More on the packet string codec *)

Module PacketStringMore.
Import Utf PacketStringFacts.

Lemma utf8Bytes_length c : (1 ≤ length (utf8Bytes c) ≤ 4)%nat.
Proof. unfold utf8Bytes. repeat case_bool_decide; simpl; lia. Qed.

Lemma utf8Bytes_length_bmp c : c < 0x10000 -> (length (utf8Bytes c) ≤ 3)%nat.
Proof. intros Hc. unfold utf8Bytes. repeat case_bool_decide; simpl; lia. Qed.

(** A well-formed string takes between one and three bytes per code
    unit. *)
Lemma encode_length_bounds s :
  WellFormed s -> (length s ≤ length (encode s) ≤ 3 * length s)%nat.
Proof.
  unfold encode.
  induction 1 as [|u s Hu Hns _ IH|hi lo s Hhi Hlo _ IH]; [simpl; lia| |].
  - rewrite toScalarValues_unit by done. simpl. rewrite length_app.
    pose proof (utf8Bytes_length u). pose proof (utf8Bytes_length_bmp u ltac:(lia)).
    lia.
  - rewrite toScalarValues_pair by done. simpl. rewrite length_app.
    assert (length (utf8Bytes (65536 + (hi - 55296) * 1024 + (lo - 56320))) = 4%nat).
    { unfold isHighSurrogate in Hhi. unfold isLowSurrogate in Hlo.
      apply bool_decide_eq_true in Hhi. apply bool_decide_eq_true in Hlo.
      unfold utf8Bytes. repeat case_bool_decide; simpl; lia. }
    lia.
Qed.

(** X18: a well-formed string of at most 85 code units always fits the
    length byte: its encoding has between one and three bytes per code
    unit, and writing it with [toBuffer] and reading the buffer with
    [from] gives the string back. *)
Theorem PacketString_short_strings_fit (s : list Z) :
  WellFormed s -> (length s ≤ 85)%nat ->
  (length s ≤ length (encode s) ≤ 3 * length s)%nat
  ∧ (length (encode s) ≤ 255)%nat
  ∧ ∃ buf p,
      (p ← PacketString.new s 0; PacketString.toBuffer p) = Return buf
      ∧ PacketString.from buf = Return p
      ∧ PacketString.str p = s.
Proof.
  intros Hwf Hlen. pose proof (encode_length_bounds s Hwf) as Hb.
  split; [lia|]. split; [lia|]. do 2 eexists.
  split; [apply toBuffer_new; lia|].
  split; [apply from_encoded; [done | lia] | done].
Qed.

Lemma PacketString_short_strings_fit_witness :
  WellFormed [0x20AC; 0xD83D; 0xDE00]
  ∧ ∃ buf p,
      (p ← PacketString.new [0x20AC; 0xD83D; 0xDE00] 0; PacketString.toBuffer p)
      = Return buf
      ∧ PacketString.from buf = Return p
      ∧ PacketString.str p = [0x20AC; 0xD83D; 0xDE00].
Proof.
  assert (WellFormed [0x20AC; 0xD83D; 0xDE00]) as Hwf.
  { apply WellFormed_unit; [lia | reflexivity |].
    apply WellFormed_pair; [reflexivity | reflexivity | apply WellFormed_nil]. }
  split; [exact Hwf|].
  apply (PacketString_short_strings_fit [0x20AC; 0xD83D; 0xDE00] Hwf).
  simpl. lia.
Defined.

(** [toBuffer] for any string: the length byte is the byte count modulo
    256. *)
Lemma toBuffer_new_any s :
  (p ← PacketString.new s 0; PacketString.toBuffer p)
  = Return (Z.of_nat (length (encode s)) mod 256 :: encode s).
Proof.
  unfold PacketString.new. simpl.
  unfold PacketString.toBuffer, Buffer.alloc. simpl.
  case_bool_decide; [lia|]. simpl.
  replace (Z.to_nat (Z.of_nat (length (encode s)) + 1))
    with (S (length (encode s))) by lia.
  simpl. unfold Buffer.setByte. simpl.
  destruct s as [|u s'] eqn:Hs; [done|]. rewrite <- Hs in *.
  unfold Buffer.write. simpl. rewrite length_replicate.
  rewrite bool_decide_eq_false_2 by lia.
  replace (Z.to_nat (Z.of_nat (length (encode s))) `min` (length (encode s) - 0))%nat
    with (length (flat_map utf8Bytes (toScalarValues s)))
    by (unfold encode; lia).
  rewrite writeChars_exact.
  rewrite drop_ge by (rewrite length_replicate; unfold encode; lia).
  by rewrite app_nil_r.
Qed.

(** What [from] checks: a packet string it returns has the byte count of
    its string as [actualStrLen], one more as [totalLen], and, unless the
    length byte is 0, that byte count is the length byte. *)
Lemma from_checked buf p :
  PacketString.from buf = Return p ->
  ∃ n, buf !! 0%nat = Some n
       ∧ PacketString.actualStrLen p = Z.of_nat (length (encode (PacketString.str p)))
       ∧ PacketString.totalLen p = PacketString.actualStrLen p + 1
       ∧ (n ≠ 0 -> PacketString.actualStrLen p = n)
       ∧ (n = 0 -> PacketString.str p = []).
Proof.
  unfold PacketString.from, Buffer.readUInt8.
  destruct (buf !! 0%nat) as [n|]; [|discriminate]. simpl.
  unfold PacketString.new.
  case_bool_decide as Hn0; simpl.
  - case_bool_decide as Hlen; [discriminate|]. intros [= <-]. simpl.
    exists n. split_and!; try done.
  - intros [= <-]. simpl. exists n. split_and!; try done.
    intros ->. reflexivity.
Qed.

(** X19: a string whose encoding has more than 255 bytes does not come
    back: [toBuffer] writes the byte count modulo 256 as the length byte
    followed by the whole encoding, and [from] on that buffer either
    throws or returns another string. *)
Theorem PacketString_long_strings_do_not_round_trip (s : list Z) :
  (255 < length (encode s))%nat ->
  ∃ buf,
    (p ← PacketString.new s 0; PacketString.toBuffer p) = Return buf
    ∧ buf !! 0%nat = Some (Z.of_nat (length (encode s)) mod 256)
    ∧ drop 1 buf = encode s
    ∧ ∀ p, PacketString.from buf = Return p -> PacketString.str p ≠ s.
Proof.
  intros Hlong. eexists. split; [apply toBuffer_new_any|].
  split; [done|]. split; [done|].
  intros p Hfrom Hstr.
  destruct (from_checked _ _ Hfrom) as (n & Hn & Hact & _ & Hnz & Hz).
  simpl in Hn. injection Hn as <-. rewrite Hstr in *.
  pose proof (Z.mod_pos_bound (Z.of_nat (length (encode s))) 256 ltac:(lia)).
  destruct (decide (Z.of_nat (length (encode s)) mod 256 = 0)) as [H0|H0].
  - rewrite (Hz H0) in Hlong. simpl in Hlong. lia.
  - specialize (Hnz H0). lia.
Qed.

Lemma PacketString_long_strings_do_not_round_trip_witness :
  ∃ buf,
    (p ← PacketString.new (replicate 300 0x61) 0; PacketString.toBuffer p) = Return buf
    ∧ buf !! 0%nat = Some 44
    ∧ ∀ p, PacketString.from buf = Return p -> PacketString.str p ≠ replicate 300 0x61.
Proof.
  destruct (PacketString_long_strings_do_not_round_trip (replicate 300 0x61))
    as (buf & Hbuf & Hlen & _ & Hno).
  { vm_compute. lia. }
  exists buf. split; [exact Hbuf|]. split; [|exact Hno].
  etrans; [exact Hlen | vm_compute; reflexivity].
Defined.

(** X20: what [from] accepts.  An empty buffer throws a RangeError; a
    length byte 0 gives the empty string whatever follows it.  For a
    length byte [n] other than 0, [from] decodes the first [n] of the
    bytes that follow (fewer, if fewer follow) and compares [n] with the
    byte count of the decoded text encoded again, not with the number of
    bytes present: it returns that text when the two agree and throws
    the length error otherwise.  So a length byte larger than the
    encoding of a well-formed string that follows it is refused, while a
    payload that is cut short or malformed can be accepted: [3; 0xFF]
    reads as U+FFFD.  Whenever [from] returns, [actualStrLen] is the byte
    count of the string, [totalLen] is one more, and a non-zero length
    byte equals [actualStrLen]. *)
Theorem PacketString_from_validation :
  PacketString.from [] = Throw RangeError
  ∧ (∀ rest, PacketString.from (0 :: rest) = Return (PacketString.mk [] 0 1))
  ∧ (∀ n rest, n ≠ 0 ->
       PacketString.from (n :: rest)
       = if bool_decide (Z.of_nat (length (encode (decode (take (Z.to_nat n) rest)))) = n)
         then Return (PacketString.mk (decode (take (Z.to_nat n) rest)) n (n + 1))
         else Throw (Error "The expected length is different from the one in the packet"))
  ∧ (∀ s n, WellFormed s -> Z.of_nat (length (encode s)) < n ->
       PacketString.from (n :: encode s)
       = Throw (Error "The expected length is different from the one in the packet"))
  ∧ PacketString.from [3; 0xFF] = Return (PacketString.mk [0xFFFD] 3 4)
  ∧ (∀ buf p, PacketString.from buf = Return p ->
       PacketString.actualStrLen p = Z.of_nat (length (encode (PacketString.str p)))
       ∧ PacketString.totalLen p = PacketString.actualStrLen p + 1
       ∧ ∀ n, buf !! 0%nat = Some n -> n ≠ 0 -> PacketString.actualStrLen p = n).
Proof.
  split_and!.
  - reflexivity.
  - intros rest. reflexivity.
  - intros n rest Hn. unfold PacketString.from. simpl.
    unfold Buffer.slice, Buffer.toString. simpl. rewrite drop_0.
    replace (1 + n - 1) with n by lia.
    unfold PacketString.new. rewrite (bool_decide_eq_true_2 (n ≠ 0)) by done.
    simpl. case_bool_decide as Hlen; simpl.
    + rewrite bool_decide_eq_false_2 by done. done.
    + rewrite bool_decide_eq_true_2 by done. by rewrite Hlen.
  - intros s n Hwf Hn. unfold PacketString.from. simpl.
    unfold Buffer.slice, Buffer.toString. simpl.
    rewrite drop_0, take_ge by lia. rewrite decode_encode by done.
    unfold PacketString.new.
    rewrite !bool_decide_eq_true_2 by lia. done.
  - vm_compute. reflexivity.
  - intros buf p Hfrom.
    destruct (from_checked _ _ Hfrom) as (n & Hn & Hact & Htot & Hnz & _).
    split_and!; try done. intros n' Hn' Hne.
    rewrite Hn in Hn'. injection Hn' as <-. by apply Hnz.
Qed.

Lemma PacketString_from_validation_witness :
  WellFormed [0x68; 0x69]
  ∧ PacketString.from (5 :: encode [0x68; 0x69])
    = Throw (Error "The expected length is different from the one in the packet")
  ∧ PacketString.from [2; 0x68; 0x69; 0x21] = Return (PacketString.mk [0x68; 0x69] 2 3).
Proof.
  assert (WellFormed [0x68; 0x69]) as Hwf.
  { do 2 (apply WellFormed_unit; [lia | reflexivity |]). apply WellFormed_nil. }
  split; [exact Hwf|]. split.
  - apply (proj1 (proj2 (proj2 (proj2 PacketString_from_validation)))
             [0x68; 0x69] 5 Hwf).
    simpl. lia.
  - etrans; [apply (proj1 (proj2 (proj2 PacketString_from_validation))
                      2 [0x68; 0x69; 0x21]); lia|].
    vm_compute. reflexivity.
Defined.

End PacketStringMore.

(** ** The packet writer *)

Module OutPacketFacts.
Import OutPacket.

Lemma bytesLE_length n : ∀ v, length (bytesLE n v) = n.
Proof. induction n as [|n IH]; intros v; simpl; [done|]. by rewrite IH. Qed.

Lemma bytesLE_bytes n : ∀ v, Forall (fun b => 0 ≤ b ≤ 255) (bytesLE n v).
Proof.
  induction n as [|n IH]; intros v; simpl; constructor; [|apply IH].
  pose proof (Z.mod_pos_bound v 256 ltac:(lia)). lia.
Qed.

Lemma valueLE_bytesLE n : ∀ v, valueLE (bytesLE n v) = v mod 256 ^ Z.of_nat n.
Proof.
  induction n as [|n IH]; intros v.
  - simpl. by rewrite Z.mod_1_r.
  - cbn [bytesLE valueLE]. rewrite IH.
    rewrite Nat2Z.inj_succ, Z.pow_succ_r by lia.
    pose proof (Z.pow_pos_nonneg 256 (Z.of_nat n) ltac:(lia) ltac:(lia)).
    rewrite (Z.rem_mul_r v 256 (256 ^ Z.of_nat n)) by lia. done.
Qed.

Lemma signedOf_mod n v :
  (0 < n)%nat ->
  - (256 ^ Z.of_nat n / 2) ≤ v < 256 ^ Z.of_nat n / 2 ->
  signedOf n (v mod 256 ^ Z.of_nat n) = v.
Proof.
  intros Hn Hv. unfold signedOf.
  assert (256 ^ Z.of_nat n = 2 * (256 ^ Z.of_nat n / 2)) as Heven.
  { destruct n as [|n]; [lia|].
    rewrite Nat2Z.inj_succ, Z.pow_succ_r by lia.
    replace (256 * 256 ^ Z.of_nat n) with (2 * (128 * 256 ^ Z.of_nat n)) by lia.
    rewrite Z.mul_comm at 2. rewrite Z.div_mul by lia. lia. }
  set (m := 256 ^ Z.of_nat n) in *.
  destruct (decide (0 ≤ v)) as [Hpos|Hneg].
  - rewrite Z.mod_small by lia. rewrite bool_decide_eq_true_2 by lia. done.
  - assert (v mod m = v + m) as ->.
    { symmetry. apply (Z.mod_unique_pos v m (-1)); lia. }
    rewrite bool_decide_eq_false_2 by lia. lia.
Qed.

(** [putInt] for any width and range. *)
Lemma putInt_range (n : nat) (min max val : Z) (littleEndian : bool)
    (p : t) (stream : list Z) :
  outStream p = Some stream ->
  (min ≤ val ≤ max ->
   ∃ bytes,
     putInt n min max val littleEndian p = Return (withStream p (stream ++ bytes))
     ∧ length bytes = n
     ∧ Forall (fun b => 0 ≤ b ≤ 255) bytes
     ∧ valueLE (if littleEndian then bytes else rev bytes)
       = val mod 256 ^ Z.of_nat n
     ∧ (0 ≤ val < 256 ^ Z.of_nat n ->
        valueLE (if littleEndian then bytes else rev bytes) = val)
     ∧ ((0 < n)%nat -> - (256 ^ Z.of_nat n / 2) ≤ val < 256 ^ Z.of_nat n / 2 ->
        signedOf n (valueLE (if littleEndian then bytes else rev bytes)) = val))
  ∧ (val < min ∨ max < val ->
     putInt n min max val littleEndian p = Throw RangeError).
Proof.
  intros Hstream. unfold putInt, write. rewrite Hstream. split.
  - intros Hval. rewrite bool_decide_eq_false_2 by lia.
    assert (valueLE (if littleEndian
                     then (if littleEndian then bytesLE n val else rev (bytesLE n val))
                     else rev (if littleEndian then bytesLE n val else rev (bytesLE n val)))
            = val mod 256 ^ Z.of_nat n) as Hvalue.
    { destruct littleEndian; rewrite ?rev_involutive; apply valueLE_bytesLE. }
    eexists. split; [reflexivity|]. split_and!.
    + destruct littleEndian; rewrite ?length_rev; apply bytesLE_length.
    + destruct littleEndian; [apply bytesLE_bytes|].
      apply Forall_rev, bytesLE_bytes.
    + exact Hvalue.
    + intros Hu. rewrite Hvalue. by apply Z.mod_small.
    + intros Hn Hs. rewrite Hvalue. by apply signedOf_mod.
  - intros Hout. by rewrite bool_decide_eq_true_2.
Qed.

Ltac bounds :=
  match goal with
  | |- context [256 ^ Z.of_nat ?n] =>
      let v := eval vm_compute in (256 ^ Z.of_nat n) in
      change (256 ^ Z.of_nat n) with v
  end;
  repeat match goal with
    | |- context [?a / 2] =>
        let v := eval vm_compute in (a / 2) in change (a / 2) with v
    end;
  lia.

(** X21: the integer writers.  [writeInt8], [writeInt16] and
    [writeInt32] take the signed ranges of 1, 2 and 4 bytes,
    [writeUInt8], [writeUInt16] and [writeUInt32] the unsigned ones.
    A value inside the range is appended to the stream as that many
    bytes, least significant first when [littleEndian] holds and most
    significant first otherwise (the one-byte writers have no such
    argument); read back in that order, the bytes give the value: as
    they stand for the unsigned writers, in two's complement for the
    signed ones.  A value outside the range throws a RangeError and
    nothing is written. *)
Theorem integer_writers :
  WritesInt true 1 (-128) 127 (fun val _ => writeInt8 val)
  ∧ WritesInt true 2 (-32768) 32767 writeInt16
  ∧ WritesInt true 4 (-2147483648) 2147483647 writeInt32
  ∧ WritesInt false 1 0 255 (fun val _ => writeUInt8 val)
  ∧ WritesInt false 2 0 65535 writeUInt16
  ∧ WritesInt false 4 0 4294967295 writeUInt32.
Proof.
  unfold writeInt8, writeInt16, writeInt32, writeUInt8, writeUInt16, writeUInt32.
  split_and!; intros val littleEndian p stream Hstream;
    (split; [intros Hval | intros Hout]);
    try (by apply (putInt_range _ _ _ _ _ _ _ Hstream)).
  - destruct (putInt_range 1 (-128) 127 val true p stream Hstream) as [Hin _].
    destruct (Hin Hval) as (bytes & Hw & Hlen & Hb & _ & _ & Hsigned).
    exists bytes. split; [exact Hw|]. split; [exact Hlen|]. split; [exact Hb|].
    destruct bytes as [|b [|? ?]]; try discriminate Hlen.
    assert (rev [b] = [b]) as Hrev by reflexivity.
    destruct littleEndian; rewrite ?Hrev; apply Hsigned; first [lia | bounds].
  - destruct (putInt_range 2 (-32768) 32767 val littleEndian p stream Hstream)
      as [Hin _].
    destruct (Hin Hval) as (bytes & Hw & Hlen & Hb & _ & _ & Hsigned).
    exists bytes. split_and!; try done. apply Hsigned; first [lia | bounds].
  - destruct (putInt_range 4 (-2147483648) 2147483647 val littleEndian p stream
                Hstream) as [Hin _].
    destruct (Hin Hval) as (bytes & Hw & Hlen & Hb & _ & _ & Hsigned).
    exists bytes. split_and!; try done. apply Hsigned; first [lia | bounds].
  - destruct (putInt_range 1 0 255 val true p stream Hstream) as [Hin _].
    destruct (Hin Hval) as (bytes & Hw & Hlen & Hb & _ & Hunsigned & _).
    exists bytes. split; [exact Hw|]. split; [exact Hlen|]. split; [exact Hb|].
    destruct bytes as [|b [|? ?]]; try discriminate Hlen.
    assert (rev [b] = [b]) as Hrev by reflexivity.
    destruct littleEndian; rewrite ?Hrev; apply Hunsigned; bounds.
  - destruct (putInt_range 2 0 65535 val littleEndian p stream Hstream)
      as [Hin _].
    destruct (Hin Hval) as (bytes & Hw & Hlen & Hb & _ & Hunsigned & _).
    exists bytes. split_and!; try done. apply Hunsigned; bounds.
  - destruct (putInt_range 4 0 4294967295 val littleEndian p stream Hstream)
      as [Hin _].
    destruct (Hin Hval) as (bytes & Hw & Hlen & Hb & _ & Hunsigned & _).
    exists bytes. split_and!; try done. apply Hunsigned; bounds.
Qed.

Lemma integer_writers_witness :
  (∃ bytes,
     writeInt16 (-2) false (withStream (new 7) [0x55])
     = Return (withStream (withStream (new 7) [0x55]) ([0x55] ++ bytes))
     ∧ signedOf 2 (valueLE (rev bytes)) = -2)
  ∧ writeUInt8 256 (withStream (new 7) []) = Throw RangeError.
Proof.
  destruct integer_writers as (_ & H16 & _ & Hu8 & _).
  split.
  - destruct (proj1 (H16 (-2) false (withStream (new 7) [0x55]) [0x55] eq_refl))
      as (bytes & Hw & _ & _ & Hv); [lia|].
    exists bytes. split; [exact Hw | exact Hv].
  - apply (proj2 (Hu8 256 true (withStream (new 7) []) [] eq_refl)).
    right. lia.
Defined.

(** X22: the bytes of a built packet.  [buildHeader] on an empty stream
    writes signature, 0, 0, 0 and the packet id; after the body has been
    written, [getData] returns header and body with the two bytes at
    offset 2 holding, least significant first, the stream's length minus
    [headerLength].  The buffer is kept: what is written to the packet
    afterwards is not part of its data, and the sequence byte that
    [send] writes at offset 1 stays in the kept buffer. *)
Theorem built_packet_bytes (PacketSignature headerLength id seq : Z)
    (body : list Z) :
  0 ≤ PacketSignature ≤ 255 -> 0 ≤ id ≤ 255 -> 0 ≤ seq ≤ 255 ->
  0 ≤ 5 + Z.of_nat (length body) - headerLength ≤ 65535 ->
  let dataLen := 5 + Z.of_nat (length body) - headerLength in
  let data := [PacketSignature; 0; dataLen mod 256; dataLen / 256; id] ++ body in
  let stamped := [PacketSignature; seq; dataLen mod 256; dataLen / 256; id] ++ body in
  ∃ p0 p1 p2 p3,
    buildHeader PacketSignature (withStream (new id) []) = Return p0
    ∧ outStream p0 = Some [PacketSignature; 0; 0; 0; id]
    ∧ write body p0 = Return p1
    ∧ getData headerLength p1 = Return (data, p2)
    ∧ (∀ more p, write more p2 = Return p ->
         getData headerLength p = Return (data, p))
    ∧ stampSequence headerLength seq p1 = Return (stamped, p3)
    ∧ getData headerLength p3 = Return (stamped, p3).
Proof.
  intros Hsig Hid Hseq Hlen dataLen data stamped.
  assert (buildHeader PacketSignature (withStream (new id) [])
          = Return (withStream (new id) [PacketSignature; 0; 0; 0; id])) as Hheader.
  { unfold buildHeader, writeUInt8, writeUInt16, putInt. simpl.
    rewrite !bool_decide_eq_false_2 by lia. simpl.
    rewrite !bool_decide_eq_false_2 by lia. simpl.
    rewrite !Z.mod_small by lia. done. }
  assert (getData headerLength
            (withStream (new id) ([PacketSignature; 0; 0; 0; id] ++ body))
          = Return (data, mk None id (Some []) (Some data))) as Hdata.
  { unfold getData, writeUInt16LE. simpl.
    replace (Z.pos (Pos.of_succ_nat (S (S (S (S (length body)))))) - headerLength)
      with dataLen by (unfold dataLen; lia).
    rewrite bool_decide_eq_false_2 by lia. simpl.
    replace (Z.of_nat (S (S (S (S (S (length body)))))) - headerLength)
      with dataLen by (unfold dataLen; lia).
    done. }
  exists (withStream (new id) [PacketSignature; 0; 0; 0; id]),
    (withStream (new id) ([PacketSignature; 0; 0; 0; id] ++ body)),
    (mk None id (Some []) (Some data)),
    (mk None id (Some []) (Some stamped)).
  split_and!; try done.
  - intros more p [= <-]. reflexivity.
  - unfold stampSequence. rewrite Hdata. simpl.
    rewrite bool_decide_eq_false_2 by lia. done.
Qed.

(** A packet with id 7 and the body "hi" as a packet string. *)
Lemma built_packet_bytes_witness :
  ∃ p3, stampSequence 4 9 (withStream (new 7) [0x55; 0; 0; 0; 7; 2; 0x68; 0x69])
        = Return ([0x55; 9; 4; 0; 7; 2; 0x68; 0x69], p3)
        ∧ getData 4 p3 = Return ([0x55; 9; 4; 0; 7; 2; 0x68; 0x69], p3).
Proof.
  destruct (built_packet_bytes 0x55 4 7 9 [2; 0x68; 0x69])
    as (p0 & p1 & p2 & p3 & Hb & _ & Hw & _ & _ & Hstamp & Hkept);
    [lia | lia | lia | simpl; lia |].
  vm_compute in Hb. injection Hb as <-.
  vm_compute in Hw. injection Hw as <-.
  exists p3. split; [exact Hstamp | exact Hkept].
Defined.

End OutPacketFacts.

(** ** Names of the dump files *)

Module PacketLoggerFacts.
Import PacketLogger.

Lemma noDash_uint d : noDash (NilEmpty.string_of_uint d) = true.
Proof. induction d; simpl; auto. Qed.

Lemma noDash_toString z : 0 ≤ z -> noDash (toString z) = true.
Proof.
  intros Hz. destruct z as [|p|p]; [done| |lia].
  unfold toString. simpl. apply noDash_uint.
Qed.

Lemma padNumber_Num z :
  0 ≤ z ->
  ∃ name, padNumber (Num z) = Return name
          ∧ noDash name = true
          ∧ Z.of_int <$> NilEmpty.int_of_string name = Some z.
Proof.
  intros Hz. unfold padNumber, gt. simpl. eexists. split; [reflexivity|].
  case_bool_decide as H9.
  - simpl. split; [by apply noDash_toString|].
    change ("" +:+ toString z) with (NilEmpty.string_of_int (Z.to_int z)).
    rewrite NilEmpty.isi. simpl. f_equal. apply DecimalZ.of_to.
  - split; [simpl; by apply noDash_toString|].
    assert (z = 0 ∨ z = 1 ∨ z = 2 ∨ z = 3 ∨ z = 4 ∨ z = 5 ∨ z = 6 ∨ z = 7
            ∨ z = 8 ∨ z = 9) as Hcases by lia.
    repeat destruct Hcases as [-> | Hcases]; try subst z; reflexivity.
Qed.

Lemma separator a : ∀ b x y,
  noDash a = true -> noDash b = true ->
  a +:+ String "-"%char x = b +:+ String "-"%char y -> a = b.
Proof.
  induction a as [|c a IH]; intros [|d b] x y Ha Hb; simpl in *.
  - done.
  - intros [= <- _]. done.
  - intros [= -> _]. done.
  - intros [= -> Hrest]. f_equal.
    apply andb_true_iff in Ha as [_ Ha], Hb as [_ Hb]. by eapply IH.
Qed.

Lemma packetPath_name dir uuid n1 n2 id1 id2 :
  noDash n1 = true -> noDash n2 = true ->
  packetPath dir uuid n1 id1 = packetPath dir uuid n2 id2 -> n1 = n2.
Proof.
  unfold packetPath. intros H1 H2 Heq.
  apply (inj (String.append dir)) in Heq.
  apply (inj (String.append (template uuid))) in Heq.
  simpl in Heq. injection Heq as Heq.
  by eapply separator.
Qed.

Lemma packetPath_seq dir uuid z1 z2 n1 n2 id1 id2 :
  0 ≤ z1 -> 0 ≤ z2 ->
  padNumber (Num z1) = Return n1 -> padNumber (Num z2) = Return n2 ->
  packetPath dir uuid n1 id1 = packetPath dir uuid n2 id2 -> z1 = z2.
Proof.
  intros Hz1 Hz2 Hn1 Hn2 Heq.
  destruct (padNumber_Num z1 Hz1) as (m1 & Hm1 & Hd1 & Hv1).
  destruct (padNumber_Num z2 Hz2) as (m2 & Hm2 & Hd2 & Hv2).
  assert (m1 = n1) as -> by congruence. assert (m2 = n2) as -> by congruence.
  assert (n1 = n2) as -> by (by eapply packetPath_name).
  congruence.
Qed.

(** A file that is on disk under a name no call of the run uses stays
    as it is. *)
Lemma dumpOutAll_keeps l uuid calls : ∀ r fs p d,
  0 ≤ r ->
  (∀ i c, calls !! i = Some c -> seq c = Num (r + Z.of_nat i)) ->
  fs !! p = Some d ->
  (∀ z name id, r ≤ z -> padNumber (Num z) = Return name ->
     p ≠ packetPath (outPath l) uuid name id) ->
  ∃ fs', dumpOutAll l uuid calls fs = Return fs' ∧ fs' !! p = Some d.
Proof.
  induction calls as [|c calls IH]; intros r fs p d Hr Hseq Hp Hfree; simpl.
  - by exists fs.
  - pose proof (Hseq 0%nat c eq_refl) as Hc. rewrite Z.add_0_r in Hc.
    unfold dumpOut. rewrite Hc.
    destruct (padNumber_Num r Hr) as (name & Hname & _). rewrite Hname. simpl.
    apply (IH (r + 1)); [lia | | |].
    + intros i c' Hi. rewrite (Hseq (S i) c' Hi). f_equal. lia.
    + rewrite lookup_insert_ne; [done|]. intros Heq.
      by apply (Hfree r name (packetId c) ltac:(lia) Hname).
    + intros z name' id Hz. apply Hfree. lia.
Qed.

(** X23: the dump files of one connection never replace one another.
    When the calls of [dumpOut] carry the successive values [r], [r + 1],
    ... of the real counter, every call succeeds and at the end each
    dump is on disk under its own name with the content it was written
    with, whatever the packet ids are and although the sequence byte of
    the frames repeats every 256 packets. *)
Theorem dumps_of_one_connection_keep_apart (l : t) (uuid : option string)
    (calls : list Dump) (r : Z) (fs : gmap string Frame) :
  0 ≤ r -> r + Z.of_nat (length calls) ≤ 2 ^ 53 ->
  (∀ i c, calls !! i = Some c -> seq c = Num (r + Z.of_nat i)) ->
  ∃ fs', dumpOutAll l uuid calls fs = Return fs'
         ∧ ∀ i c, calls !! i = Some c ->
             ∃ name, padNumber (seq c) = Return name
                     ∧ fs' !! packetPath (outPath l) uuid name (packetId c)
                       = Some (packetData c).
Proof.
  intros Hr _. revert r fs Hr.
  induction calls as [|c calls IH]; intros r fs Hr Hseq; simpl.
  - exists fs. split; [done|]. intros i c Hi. done.
  - pose proof (Hseq 0%nat c eq_refl) as Hc. rewrite Z.add_0_r in Hc.
    unfold dumpOut. rewrite Hc.
    destruct (padNumber_Num r Hr) as (name & Hname & _). rewrite Hname. simpl.
    assert (∀ i c', calls !! i = Some c' -> seq c' = Num (r + 1 + Z.of_nat i))
      as Hseq'.
    { intros i c' Hi. rewrite (Hseq (S i) c' Hi). f_equal. lia. }
    destruct (IH (r + 1)
                (<[packetPath (outPath l) uuid name (packetId c) := packetData c]> fs)
                ltac:(lia) Hseq') as (fs' & Hrun & Hall).
    exists fs'. split; [done|].
    intros [|i] c' Hi; simpl in Hi.
    + injection Hi as <-. exists name. rewrite Hc. split; [done|].
      destruct (dumpOutAll_keeps l uuid calls (r + 1)
                  (<[packetPath (outPath l) uuid name (packetId c) := packetData c]> fs)
                  (packetPath (outPath l) uuid name (packetId c)) (packetData c)
                  ltac:(lia) Hseq') as (fs'' & Hrun' & Hkept).
      * by rewrite lookup_insert_eq.
      * intros z name' id Hz Hname' Heq.
        pose proof (packetPath_seq _ _ r z name name' _ _ Hr ltac:(lia)
                      Hname Hname' Heq). lia.
      * congruence.
    + by apply (Hall i).
Qed.

Lemma dumps_of_one_connection_keep_apart_witness :
  ∃ fs', dumpOutAll (mk "packets/in/" "packets/out/") (Some "c0ffee")
           [mkDump (Num 9) 1 (mkFrame 9 (Packet OutChannelList));
            mkDump (Num 10) 1 (mkFrame 10 (Packet OutChannelList))] ∅
         = Return fs'
         ∧ fs' !! "packets/out/c0ffee_09-1.bin"
           = Some (mkFrame 9 (Packet OutChannelList))
         ∧ fs' !! "packets/out/c0ffee_10-1.bin"
           = Some (mkFrame 10 (Packet OutChannelList)).
Proof.
  destruct (dumps_of_one_connection_keep_apart
              (mk "packets/in/" "packets/out/") (Some "c0ffee")
              [mkDump (Num 9) 1 (mkFrame 9 (Packet OutChannelList));
               mkDump (Num 10) 1 (mkFrame 10 (Packet OutChannelList))] 9 ∅)
    as (fs' & Hrun & Hall).
  { lia. }
  { simpl. lia. }
  { intros [|[|i]] c Hi; simpl in Hi; [by injection Hi as <-.. | done]. }
  exists fs'. split; [exact Hrun|]. split.
  - destruct (Hall 0%nat _ eq_refl) as (name & Hname & Hfile).
    vm_compute in Hname. injection Hname as <-. exact Hfile.
  - destruct (Hall 1%nat _ eq_refl) as (name & Hname & Hfile).
    vm_compute in Hname. injection Hname as <-. exact Hfile.
Defined.

End PacketLoggerFacts.

(** ** The user cache of the website *)

Module UsersServiceMoreFacts.
Import UsersService UsersServiceMore.

Lemma LRU_get_miss time k c :
  (LRU.get time k c).1 = None ->
  LRU.find k (LRU.get time k c).2 = None
  ∧ LRU.max (LRU.get time k c).2 = LRU.max c
  ∧ LRU.maxAge (LRU.get time k c).2 = LRU.maxAge c.
Proof.
  unfold LRU.get. destruct (LRU.find k c) as [hit|] eqn:Hfind.
  - destruct (LRU.isStale c hit time); [|done]. intros _. simpl.
    split; [|done]. unfold LRU.find, LRU.del. simpl.
    destruct (find _ _) as [e|] eqn:He; [|done].
    apply find_some in He as [Hin Hk]. apply bool_decide_eq_true_1 in Hk.
    apply list_elem_of_In, list_elem_of_filter in Hin as [Hne _]. done.
  - done.
Qed.

Lemma LRU_set_then_get time' time2 k v c :
  (1 ≤ LRU.max c)%nat -> time2 - time' ≤ LRU.maxAge c ->
  ∃ c', LRU.get time2 k (LRU.set time' k v c) = (Some v, c').
Proof.
  intros Hmax Hage. unfold LRU.get, LRU.set, LRU.find. simpl.
  destruct (LRU.max c) as [|m]; [lia|]. simpl.
  rewrite bool_decide_eq_true_2 by done.
  unfold LRU.isStale. simpl.
  rewrite (bool_decide_eq_false_2 (time2 - time' > LRU.maxAge c)) by lia.
  rewrite andb_false_r. eexists. reflexivity.
Qed.

Lemma get_stored userId time2 answer2 time2' ping2 time' result cache up :
  userId = User.id result ->
  (1 ≤ LRU.max cache)%nat -> time2 - time' ≤ LRU.maxAge cache ->
  ∃ env2,
    get userId time2 answer2 time2' ping2
      (mkEnv (LRU.set time' (User.id result) result cache) up)
    = (Return (Some result), env2)
    ∧ upstream env2 = up.
Proof.
  intros -> Hmax Hage. unfold get. simpl.
  destruct (LRU_set_then_get time' time2 (User.id result) result cache Hmax Hage)
    as (c' & ->).
  eexists. split; reflexivity.
Qed.

(** X24: a 200 answer is cached under the id of the user it carries.
    On a miss with the probe alive, [get] issues one request, returns
    the user of the answer and stores it; every [get] for that user's
    id that reads the cache within [maxAge] of the store then returns
    the same user and issues no request, whatever the user service
    would answer. *)
Theorem get_caches_the_answer (userId time : Z) (result : User.t)
    (time' : Z) (ping : bool) (env : Env) :
  (LRU.get time userId (userCache env)).1 = None ->
  UserSvcPing.isAlive (Upstream.probe (upstream env)) = true ->
  (1 ≤ LRU.max (userCache env))%nat ->
  ∃ env1,
    get userId time (Resolved 200 result) time' ping env
    = (Return (Some result), env1)
    ∧ Upstream.requests (upstream env1)
      = Upstream.requests (upstream env) ++ [GET_users userId]
    ∧ ∀ time2 answer2 time2' ping2,
        time2 - time' ≤ LRU.maxAge (userCache env) ->
        ∃ env2,
          get (User.id result) time2 answer2 time2' ping2 env1
          = (Return (Some result), env2)
          ∧ upstream env2 = upstream env1.
Proof.
  intros Hmiss Halive Hmax.
  destruct (LRU_get_miss _ _ _ Hmiss) as (_ & Hmax1 & Hage1).
  unfold get at 1.
  destruct (LRU.get time userId (userCache env)) as [cached cache1] eqn:Hget.
  simpl in *. subst cached. rewrite Halive. simpl.
  eexists. split; [reflexivity|]. split; [reflexivity|].
  intros time2 answer2 time2' ping2 Hage.
  apply get_stored; [done | lia | lia].
Qed.

Lemma get_caches_the_answer_witness :
  ∃ env1,
    get 42 1000 (Resolved 200 Scenario.alice) 1001 false
      (mkEnv newUserCache (Upstream.mk (UserSvcPing.mk true "users:30100") []))
    = (Return (Some Scenario.alice), env1)
    ∧ ∃ env2,
        get 42 16001 Rejected 16002 false env1
        = (Return (Some Scenario.alice), env2)
        ∧ upstream env2 = upstream env1.
Proof.
  destruct (get_caches_the_answer 42 1000 Scenario.alice 1001 false
              (mkEnv newUserCache
                 (Upstream.mk (UserSvcPing.mk true "users:30100") [])))
    as (env1 & Hget & _ & Hnext).
  { reflexivity. }
  { reflexivity. }
  { simpl. lia. }
  exists env1. split; [exact Hget|].
  apply (Hnext 16001 Rejected 16002 false). simpl. lia.
Defined.

Lemma get_other_status userId c env :
  LRU.find userId (userCache env) = None ->
  UserSvcPing.isAlive (Upstream.probe (upstream env)) = true ->
  OtherStatus c ->
  get userId (time c) (answer c) (time' c) (ping c) env
  = (Return None,
     mkEnv (userCache env)
       (Upstream.issue (GET_users userId) (upstream env))).
Proof.
  intros Hmiss Halive (status & body & -> & Hok & Hne).
  unfold get. rewrite (UsersServiceFacts.LRU_get_absent _ _ _ Hmiss). simpl.
  rewrite Halive. simpl. unfold ok.
  rewrite (bool_decide_eq_true_2 (200 ≤ status < 300)) by done.
  by rewrite bool_decide_eq_true_2.
Qed.

(** X25: only a 200 answer is cached.  While the cache has no entry for
    the user and the probe reports alive, every call of [get] that is
    answered with another status from 201 to 299 returns null and issues
    a request of its own, and the cache and the probe stay as they were.
    An answer with a status outside 200..299 is a failed request: [get]
    throws after one request and one ping, the probe holds the answer to
    that ping and the cache is unchanged. *)
Theorem get_other_statuses_are_not_cached (userId : Z) (calls : list Call)
    (env : Env) :
  LRU.find userId (userCache env) = None ->
  UserSvcPing.isAlive (Upstream.probe (upstream env)) = true ->
  (Forall OtherStatus calls ->
   ∃ env',
     getAll userId calls env = (replicate (length calls) (Return None), env')
     ∧ userCache env' = userCache env
     ∧ Upstream.probe (upstream env') = Upstream.probe (upstream env)
     ∧ Upstream.requests (upstream env')
       = Upstream.requests (upstream env)
         ++ replicate (length calls) (GET_users userId))
  ∧ (∀ status body time time' ping,
       status < 200 ∨ 300 ≤ status ->
       ∃ env1,
         get userId time (Resolved status body) time' ping env
         = (Throw (Error "request failed"), env1)
         ∧ userCache env1 = userCache env
         ∧ Upstream.requests (upstream env1)
           = Upstream.requests (upstream env) ++ [GET_users userId; GET_ping]
         ∧ UserSvcPing.isAlive (Upstream.probe (upstream env1)) = ping).
Proof.
  intros Hmiss Halive. split.
  - intros Hall. revert env Hmiss Halive.
    induction Hall as [|c calls Hc Hall IH]; intros env Hmiss Halive; simpl.
    + exists env. by rewrite app_nil_r.
    + rewrite (get_other_status _ _ _ Hmiss Halive Hc).
      destruct (IH (mkEnv (userCache env)
                      (Upstream.issue (GET_users userId) (upstream env))))
        as (env' & -> & Hcache & Hprobe & Hreq); [done | done |].
      exists env'. split; [done|]. split; [done|]. split; [done|].
      rewrite Hreq. simpl. by rewrite <- app_assoc.
  - intros status body time time' ping Hout. unfold get.
    rewrite (UsersServiceFacts.LRU_get_absent _ _ _ Hmiss). simpl.
    rewrite Halive. simpl. unfold ok.
    rewrite (bool_decide_eq_false_2 (200 ≤ status < 300)) by lia. simpl.
    eexists. split; [reflexivity|]. simpl.
    split; [done|]. split; [by rewrite <- app_assoc | done].
Qed.

Lemma get_other_statuses_are_not_cached_witness :
  (∃ env',
     getAll 99
       [mkCall 1000 (Resolved 204 (User.mk 0 "" "")) 1001 false;
        mkCall 2000 (Resolved 201 (User.mk 0 "" "")) 2001 false]
       (mkEnv newUserCache (Upstream.mk (UserSvcPing.mk true "users:30100") []))
     = ([Return None; Return None], env')
     ∧ Upstream.requests (upstream env') = [GET_users 99; GET_users 99])
  ∧ ∃ env1,
      get 99 1000 (Resolved 404 (User.mk 0 "" "")) 1001 true
        (mkEnv newUserCache (Upstream.mk (UserSvcPing.mk true "users:30100") []))
      = (Throw (Error "request failed"), env1)
      ∧ Upstream.requests (upstream env1) = [GET_users 99; GET_ping].
Proof.
  destruct (get_other_statuses_are_not_cached 99
              [mkCall 1000 (Resolved 204 (User.mk 0 "" "")) 1001 false;
               mkCall 2000 (Resolved 201 (User.mk 0 "" "")) 2001 false]
              (mkEnv newUserCache
                 (Upstream.mk (UserSvcPing.mk true "users:30100") [])))
    as (Hnull & Hthrow).
  { reflexivity. }
  { reflexivity. }
  split.
  - destruct Hnull as (env' & Hrun & _ & _ & Hreq).
    { repeat constructor; eexists _, _;
        (split; [reflexivity | split; [simpl; lia | done]]). }
    exists env'. split; [exact Hrun | exact Hreq].
  - destruct (Hthrow 404 (User.mk 0 "" "") 1000 1001 true) as (env1 & Hget & _ & Hreq & _).
    { right. lia. }
    exists env1. split; [exact Hget | exact Hreq].
Defined.

Lemma getAll_offline userId env calls :
  LRU.find userId (userCache env) = None ->
  UserSvcPing.isAlive (Upstream.probe (upstream env)) = false ->
  getAll userId calls env = (replicate (length calls) (Return None), env).
Proof.
  intros Hmiss Hdown. induction calls as [|c calls IH]; simpl; [done|].
  rewrite UsersServiceFacts.get_absent_offline by done. by rewrite IH.
Qed.

(** X26: a request that fails is rethrown after the probe was checked
    again.  On a miss with the probe alive, a rejected request makes
    [get] throw; by then one request and one ping went out, the probe
    holds the answer to that ping and the cache is unchanged.  If the
    ping was not answered, all later calls of [get] for that user return
    null without a request. *)
Theorem get_rejected_rechecks_the_probe (userId time time' : Z) (ping : bool)
    (env : Env) :
  LRU.find userId (userCache env) = None ->
  UserSvcPing.isAlive (Upstream.probe (upstream env)) = true ->
  ∃ env1,
    get userId time Rejected time' ping env
    = (Throw (Error "request failed"), env1)
    ∧ userCache env1 = userCache env
    ∧ Upstream.requests (upstream env1)
      = Upstream.requests (upstream env) ++ [GET_users userId; GET_ping]
    ∧ UserSvcPing.isAlive (Upstream.probe (upstream env1)) = ping
    ∧ (ping = false ->
       ∀ calls,
         getAll userId calls env1
         = (replicate (length calls) (Return None), env1)).
Proof.
  intros Hmiss Halive. unfold get.
  rewrite (UsersServiceFacts.LRU_get_absent _ _ _ Hmiss). simpl.
  rewrite Halive. simpl.
  eexists. split; [reflexivity|]. simpl.
  split; [done|]. split; [by rewrite <- app_assoc|]. split; [done|].
  intros -> calls. by apply getAll_offline.
Qed.

Lemma get_rejected_rechecks_the_probe_witness :
  ∃ env1,
    get 99 1000 Rejected 1001 false
      (mkEnv newUserCache (Upstream.mk (UserSvcPing.mk true "users:30100") []))
    = (Throw (Error "request failed"), env1)
    ∧ getAll 99 [mkCall 2000 (Resolved 200 (User.mk 99 "dave" "Dave")) 2001 true]
        env1
      = ([Return None], env1).
Proof.
  destruct (get_rejected_rechecks_the_probe 99 1000 1001 false
              (mkEnv newUserCache
                 (Upstream.mk (UserSvcPing.mk true "users:30100") [])))
    as (env1 & Hget & _ & _ & _ & Hlater).
  { reflexivity. }
  { reflexivity. }
  exists env1. split; [exact Hget|].
  exact (Hlater eq_refl
           [mkCall 2000 (Resolved 200 (User.mk 99 "dave" "Dave")) 2001 true]).
Defined.

(** X27: a user fetched by name is served by [get] from the cache.
    With the probe alive, [getByName] issues its request whatever the
    cache holds and stores a 200 answer under the id of the user it
    carries; a [get] for that id within [maxAge] of the store returns
    the same user without a request.  With the probe not alive,
    [getByName] returns null and issues nothing. *)
Theorem getByName_feeds_the_cache (userName : string) (answer : Response)
    (time' : Z) (ping : bool) (s : Site) :
  (UserSvcPing.isAlive (Upstream.probe (upstream (env s))) = false ->
   getByName userName answer time' ping s = (Return None, s))
  ∧ (UserSvcPing.isAlive (Upstream.probe (upstream (env s))) = true ->
     (1 ≤ LRU.max (userCache (env s)))%nat ->
     ∀ result, answer = Resolved 200 result ->
     ∃ s1,
       getByName userName answer time' ping s = (Return (Some result), s1)
       ∧ others s1 = others s ++ [GET_users_byname userName]
       ∧ upstream (env s1) = upstream (env s)
       ∧ ∀ time2 answer2 time2' ping2,
           time2 - time' ≤ LRU.maxAge (userCache (env s)) ->
           ∃ env2,
             get (User.id result) time2 answer2 time2' ping2 (env s1)
             = (Return (Some result), env2)
             ∧ upstream env2 = upstream (env s)).
Proof.
  split.
  - intros Hdown. unfold getByName. by rewrite Hdown.
  - intros Halive Hmax result ->. unfold getByName. rewrite Halive. simpl.
    eexists. split; [reflexivity|]. simpl. split; [done|]. split; [done|].
    intros time2 answer2 time2' ping2 Hage. by apply get_stored.
Qed.

Lemma getByName_feeds_the_cache_witness :
  ∃ s1,
    getByName "alice" (Resolved 200 Scenario.alice) 1001 false
      (mkSite (mkEnv newUserCache
                 (Upstream.mk (UserSvcPing.mk true "users:30100") [])) [])
    = (Return (Some Scenario.alice), s1)
    ∧ ∃ env2,
        get 42 16001 Rejected 16002 false (env s1)
        = (Return (Some Scenario.alice), env2)
        ∧ upstream env2 = Upstream.mk (UserSvcPing.mk true "users:30100") [].
Proof.
  destruct (proj2 (getByName_feeds_the_cache "alice"
                     (Resolved 200 Scenario.alice) 1001 false
                     (mkSite (mkEnv newUserCache
                                (Upstream.mk (UserSvcPing.mk true "users:30100") []))
                             []))
              eq_refl ltac:(simpl; lia) Scenario.alice eq_refl)
    as (s1 & Hget & _ & _ & Hnext).
  exists s1. split; [exact Hget|].
  apply (Hnext 16001 Rejected 16002 false). simpl. lia.
Defined.

(** X28: [delete] and [updatePassword] never touch the cache.  Both
    send their request without asking the probe; whatever comes of it
    (success, another status, a failure), the cache is as before, so a
    user that was cached and is not yet stale is still what [get]
    returns, without a request.  This holds in particular after a 200
    answer, for which both return true. *)
Theorem writes_leave_the_cached_user (userId : Z) (newPassword : string)
    (answer : Status) (ping : bool) (s : Site) (hit : LRU.entry) (time : Z) :
  LRU.find userId (userCache (env s)) = Some hit ->
  LRU.isStale (userCache (env s)) hit time = false ->
  (∀ s', s' = (delete userId answer ping s).2
         ∨ s' = (updatePassword userId newPassword answer ping s).2 ->
     userCache (env s') = userCache (env s)
     ∧ ∀ answer2 time' ping2,
       ∃ env',
         get userId time answer2 time' ping2 (env s')
         = (Return (Some (LRU.value hit)), env')
         ∧ upstream env' = upstream (env s'))
  ∧ others (delete userId answer ping s).2 = others s ++ [DELETE_users userId]
  ∧ others (updatePassword userId newPassword answer ping s).2
    = others s ++ [PUT_users userId newPassword]
  ∧ (delete userId (Answered 200) ping s).1 = Return true
  ∧ (updatePassword userId newPassword (Answered 200) ping s).1 = Return true.
Proof.
  intros Hhit Hfresh.
  assert (userCache (env (delete userId answer ping s).2) = userCache (env s))
    as Hdel.
  { unfold delete. by destruct (settledStatus answer). }
  assert (userCache (env (updatePassword userId newPassword answer ping s).2)
          = userCache (env s)) as Hupd.
  { unfold updatePassword. by destruct (settledStatus answer). }
  split_and!.
  - intros s' Hs'.
    assert (userCache (env s') = userCache (env s)) as Hcache
      by (by destruct Hs' as [-> | ->]).
    split; [exact Hcache|]. intros answer2 time' ping2.
    apply UsersServiceFacts.get_fresh_hit; by rewrite Hcache.
  - unfold delete. by destruct (settledStatus answer).
  - unfold updatePassword. by destruct (settledStatus answer).
  - reflexivity.
  - reflexivity.
Qed.

Lemma writes_leave_the_cached_user_witness :
  (delete 42 (Answered 200) false
     (mkSite (mkEnv (LRU.set 1000 42 Scenario.alice newUserCache)
                (Upstream.mk (UserSvcPing.mk false "users:30100") [])) [])).1
  = Return true
  ∧ ∃ env',
      get 42 5000 Rejected 5001 false
        (env (delete 42 (Answered 200) false
                (mkSite (mkEnv (LRU.set 1000 42 Scenario.alice newUserCache)
                           (Upstream.mk (UserSvcPing.mk false "users:30100") []))
                        [])).2)
      = (Return (Some Scenario.alice), env').
Proof.
  destruct (writes_leave_the_cached_user 42 "pw" (Answered 200) false
              (mkSite (mkEnv (LRU.set 1000 42 Scenario.alice newUserCache)
                         (Upstream.mk (UserSvcPing.mk false "users:30100") []))
                      [])
              (LRU.mkEntry 42 Scenario.alice 1000) 5000)
    as (Hget & _ & _ & Hres & _).
  { reflexivity. }
  { reflexivity. }
  split; [exact Hres|].
  destruct (Hget _ (or_introl eq_refl)) as (_ & Hg).
  destruct (Hg Rejected 5001 false) as (env' & Hg' & _).
  exists env'. exact Hg'.
Defined.

End UsersServiceMoreFacts.
